(** * Pull-request event queries of the OpenSauced API

    A shallow embedding of the query services of the repository
    ([PullRequestGithubEventsService], [ForkGithubEventsService] and
    [PullRequestService]).  The services assemble SQL with TypeORM's query
    builder; here a table is the list of its rows in the order the engine
    scans them, a query builder is a record of the clauses and parameter
    values added so far, and running a builder against a table evaluates
    those clauses as list functions.  A statement that PostgreSQL cannot
    parse makes the call throw [QueryFailedError].

    Conventions.
    - A [TIMESTAMP] is the number of seconds since the Unix epoch ([Z]);
      [INTERVAL 'n days'] is [n * day].
    - [LOWER] and [toLowerCase] act on the ASCII letters.
    - SQL leaves the order of rows with equal sort keys open.  The embedding
      sorts stably, so that the engine's freedom is exactly the freedom of
      the scan order of the input list: a statement proved for every list
      holds for every order the engine may deliver. *)

From Stdlib Require Import List ZArith Lia Bool String Ascii.
From Stdlib Require Import Permutation Sorting.Sorted.
From Stdlib Require Import QArith Qround.
Import ListNotations.

Close Scope Q_scope.
Local Open Scope string_scope.
Local Open Scope list_scope.
Local Open Scope Z_scope.

Set Implicit Arguments.

(* ===================================================================== *)
(** ** Strings: JavaScript and SQL helpers *)
(* ===================================================================== *)

Module Str.

(** One ASCII letter to lower case. *)
Definition lower_char (c : ascii) : ascii :=
  let n := nat_of_ascii c in
  if (Nat.leb 65 n && Nat.leb n 90)%bool then ascii_of_nat (n + 32) else c.

(** SQL [LOWER(s)]; also JavaScript [s.toLowerCase()]. *)
Fixpoint LOWER (s : string) : string :=
  match s with
  | EmptyString => EmptyString
  | String c r => String (lower_char c) (LOWER r)
  end.

Definition toLowerCase : string -> string := LOWER.

(** JavaScript [s.split(sep)] for a one-character separator: the empty
    string splits into one empty piece. *)
Fixpoint split (sep : ascii) (s : string) : list string :=
  match s with
  | EmptyString => [EmptyString]
  | String c r =>
      if Ascii.eqb c sep then EmptyString :: split sep r
      else match split sep r with
           | [] => [String c EmptyString]
           | h :: t => String c h :: t
           end
  end.

Definition comma : ascii := ","%char.

(** JavaScript truthiness of an optional string property: [undefined] and
    the empty string are falsy. *)
Definition truthy (o : option string) : bool :=
  match o with
  | Some (String _ _) => true
  | _ => false
  end.

(** Membership of a string in a list, [x IN (...)]. *)
Definition mem (x : string) (l : list string) : bool :=
  existsb (String.eqb x) l.

(** Equality up to the case of ASCII letters. *)
Definition eqb_ci (a b : string) : bool := String.eqb (LOWER a) (LOWER b).

End Str.

(* ===================================================================== *)
(** ** SQL building blocks *)
(* ===================================================================== *)

Inductive OrderDirectionEnum := ASC | DESC.

Module Sql.

(** Seconds in [INTERVAL '1 day']. *)
Definition day : Z := 86400.

(** [t::DATE] as the number of whole days since the epoch. *)
Definition to_date (t : Z) : Z := t / day.

(** Three-valued [a = b] on nullable text, read where SQL reads a
    condition: unknown counts as not true. *)
Definition eq_text (a b : option string) : bool :=
  match a, b with
  | Some x, Some y => String.eqb x y
  | _, _ => false
  end.

Definition is_null {A} (a : option A) : bool :=
  match a with None => true | Some _ => false end.

Definition is_not_null {A} (a : option A) : bool := negb (is_null a).

(** [x IN (v1, ..., vn)] on text, read as a condition: true when one of
    the values is [x]; a NULL among the values matches no row. *)
Definition IN (x : string) (values : list (option string)) : bool :=
  existsb (eq_text (Some x)) values.

Section Rows.
Context {A : Type}.
Variable time : A -> Z.

(** [a] may stand before [b] under [ORDER BY time dir]. *)
Definition may_precede (dir : OrderDirectionEnum) (a b : A) : bool :=
  match dir with
  | ASC => time a <=? time b
  | DESC => time b <=? time a
  end.

Fixpoint insert_row (dir : OrderDirectionEnum) (a : A) (l : list A) : list A :=
  match l with
  | [] => [a]
  | b :: r => if may_precede dir a b then a :: l else b :: insert_row dir a r
  end.

(** [ORDER BY time dir], stable with respect to the scan order. *)
Fixpoint order_by (dir : OrderDirectionEnum) (l : list A) : list A :=
  match l with
  | [] => []
  | a :: r => insert_row dir a (order_by dir r)
  end.

Variable same_partition : A -> A -> bool.

(** Numbering of rows that are already in window order: a row's number
    is one more than the number of earlier rows of its partition. *)
Fixpoint number_rows (seen : list A) (l : list A) : list (A * nat) :=
  match l with
  | [] => []
  | a :: r =>
      (a, S (List.length (filter (same_partition a) seen)))
        :: number_rows (a :: seen) r
  end.

(** [ROW_NUMBER() OVER (PARTITION BY ... ORDER BY time dir)]. *)
Definition ROW_NUMBER (dir : OrderDirectionEnum) (l : list A) : list (A * nat) :=
  number_rows [] (order_by dir l).

End Rows.

(** The rows that [number_rows] numbers 1, computed directly: those with
    no earlier row of their partition. *)
Fixpoint firsts {A} (same : A -> A -> bool) (seen l : list A) : list A :=
  match l with
  | [] => []
  | a :: r =>
      if existsb (same a) seen then firsts same (a :: seen) r
      else a :: firsts same (a :: seen) r
  end.

(** [WHERE row_num = 1]. *)
Definition row_num_1 {A} (rows : list (A * nat)) : list A :=
  map fst (filter (fun r => Nat.eqb (snd r) 1) rows).

(** [.offset(skip).limit(limit)] as the query builder writes them:
    [OFFSET skip LIMIT limit], and no LIMIT clause at all when [limit] is 0,
    so that every row after [skip] comes back.  (It also leaves OFFSET out
    when [skip] is 0, which changes nothing.) *)
Definition offset_limit {A} (skip limit : nat) (rows : list A) : list A :=
  match limit with
  | O => skipn skip rows
  | S _ => firstn limit (skipn skip rows)
  end.

(** [COUNT(DISTINCT x)] over integer values. *)
Definition COUNT_DISTINCT (l : list Z) : nat :=
  List.length (nodup Z.eq_dec l).

(** [GROUP BY key]: one group per distinct key, holding the rows of
    that key. *)
Definition GROUP_BY {A} (key : A -> Z) (rows : list A) : list (Z * list A) :=
  map (fun k => (k, filter (fun r => key r =? k) rows))
    (nodup Z.eq_dec (map key rows)).

(** [SELECT DISTINCT] over text values, first occurrences kept. *)
Fixpoint DISTINCT (l : list string) : list string :=
  match l with
  | [] => []
  | x :: r => x :: filter (fun y => negb (String.eqb x y)) (DISTINCT r)
  end.

(** [left LEFT JOIN right ON on]: every left row with each right row that
    makes the condition true, and once with NULL when there is none. *)
Definition LEFT_JOIN {A B} (on : A -> B -> bool) (left : list A) (right : list B)
  : list (A * option B) :=
  flat_map
    (fun a =>
       match filter (on a) right with
       | [] => [(a, None)]
       | matched => map (fun b => (a, Some b)) matched
       end)
    left.

(** [AVG] over integers: NULL on no rows, else the exact quotient. *)
Definition AVG (l : list Z) : option Q :=
  match l with
  | [] => None
  | _ => Some (Qmake (fold_right Z.add 0 l) (Pos.of_nat (List.length l)))
  end.

Definition COALESCE {A} (a : option A) (d : A) : A :=
  match a with Some x => x | None => d end.

(** [q::INTEGER] on a [numeric]: PostgreSQL rounds to the nearest
    integer, halves away from zero. *)
Definition to_integer (q : Q) : Z :=
  if (0 <=? Qnum q) then Qfloor (Qplus q (Qmake 1 2))
  else Qceiling (Qminus q (Qmake 1 2)).

(** TimescaleDB's [time_bucket('w day', t)]: the start of the bucket of
    width [w] days that holds [t], buckets being aligned to the fixed
    origin 2000-01-03 00:00:00. *)
Definition time_bucket_origin : Z := 946857600.

Definition time_bucket (w : Z) (t : Z) : Z :=
  time_bucket_origin + (w * day) * ((t - time_bucket_origin) / (w * day)).

End Sql.

(* ===================================================================== *)
(** ** Data model *)
(* ===================================================================== *)

(** A row of [pull_request_github_events]: the columns the queries
    inspect.  The remaining columns ([pr_title], [pr_head_ref], ...) are
    projected by the listing but never tested. *)
Record DbPullRequestGitHubEvents := {
  event_id : Z;
  event_time : Z;
  pr_number : Z;
  repo_name : string;
  repo_id : string;
  pr_author_login : string;
  pr_author_id : Z;
  pr_state : string;
  pr_action : string;
  pr_is_draft : bool;
  pr_is_merged : bool;
  pr_created_at : Z;
  pr_merged_at : Z;
  pr_active_lock_reason : option string
}.

(** A row of [fork_github_events]. *)
Record DbForkGitHubEvents := {
  fork_repo_name : string;
  fork_event_time : Z
}.

(** A row of [pull_requests] (API database), and of [repos]. *)
Record DbPullRequest := {
  author_login : string;
  updated_at : Z;
  pull_request_repo_id : string
}.

Record DbRepo := { id : string }.

(** Result row of the author queries. *)
Record DbPullRequestContributor := {
  c_author_login : string;
  c_user_id : Z;
  c_updated_at : Z
}.

(** Result row of the pull-request statistics and histogram. *)
Record DbPullRequestGitHubEventsHistogram := {
  bucket : option Z;
  prs_count : nat;
  accepted_prs : nat;
  open_prs : option nat;
  closed_prs : nat;
  draft_prs : nat;
  active_prs : nat;
  spam_prs : nat;
  pr_velocity : Z
}.

Record DbForkGitHubEventsHistogram := {
  fork_bucket : Z;
  forks_count : nat
}.

(** What a service call throws.  [QueryFailedError] is what the query
    builder throws when the database rejects a statement. *)
Inductive Exception :=
| BadRequestException (message : string)
| NotFoundException
| TypeError
| QueryFailedError.

Definition Promise (A : Type) : Type := (Exception + A)%type.

(** [const x = await p; k]: an exception of [p] ends the method. *)
Definition bind {A B} (p : Promise A) (k : A -> Promise B) : Promise B :=
  match p with
  | inl e => inl e
  | inr a => k a
  end.

Notation "'await' x <- p ; k" := (bind p (fun x => k))
  (at level 10, x name, p at level 100, k at level 200).

(** Modelled from the spec: the classes [PageOptionsDto], [PageMetaDto]
    and [PageDto] of [common/dtos] are not among the sources.  Section 3
    gives a page result as the items, [itemCount], and page metadata
    derived from [itemCount], [limit] and [skip]; the metadata record keeps
    exactly those three. *)
Record PageOptionsDto := {
  skip : nat;
  limit : nat;
  range : Z;
  prev_days_start_date : Z;
  orderDirection : OrderDirectionEnum
}.

Record PageMetaDto := {
  itemCount : nat;
  meta_limit : nat;
  meta_skip : nat
}.

Definition new_PageMetaDto (count : nat) (pageOptionsDto : PageOptionsDto) : PageMetaDto :=
  {| itemCount := count;
     meta_limit := limit pageOptionsDto;
     meta_skip := skip pageOptionsDto |}.

Record PageDto (T : Type) := {
  data : list T;
  meta : PageMetaDto
}.

Arguments data {T} _.
Arguments meta {T} _.

(* ===================================================================== *)
(** ** The query builder over [pull_request_github_events] *)
(* ===================================================================== *)

Module Builder.

(** A row while the FROM clause is assembled: the event and, for every
    joined sub-select, the login it contributes (NULL when the left join
    found none). *)
Record JoinedRow := {
  base : DbPullRequestGitHubEvents;
  joined : list (string * option string)
}.

(** [alias.pr_author_login] of a joined sub-select. *)
Definition col (alias : string) (r : JoinedRow) : option string :=
  match find (fun p => String.eqb (fst p) alias) (joined r) with
  | Some (_, v) => v
  | None => None
  end.

Definition extend (r : JoinedRow) (alias : string) (v : option string) : JoinedRow :=
  {| base := base r; joined := (alias, v) :: joined r |}.

Record LeftJoin := {
  subselect : list DbPullRequestGitHubEvents -> list string;
  alias : string;
  on : JoinedRow -> bool
}.

Inductive PartitionBy :=
| pr_number_repo_name
| pr_author_login_repo_name
| pr_author_login_only.

(** The parameter object of a builder, [{ name: value, ... }].  The
    services give a text to a placeholder [:name] and an array of texts to
    a placeholder [:...name]; an element of an array may be [undefined],
    which reaches the database as NULL. *)
Inductive ParameterValue :=
| text (s : string)
| array (l : list (option string)).

Definition Parameters := list (string * ParameterValue).

(** [parameters[name]].  [setParameters] assigns key by key, so of two
    values given to one name the later one stays: new bindings are put in
    front and the first binding found counts. *)
Definition getParameter (name : string) (ps : Parameters) : option ParameterValue :=
  match find (fun p => String.eqb (fst p) name) ps with
  | Some (_, v) => Some v
  | None => None
  end.

Definition setParameters (new old : Parameters) : Parameters := new ++ old.

(** The text of a WHERE condition.  The condition texts of the services
    have no placeholder, one placeholder [:name], or one placeholder
    [:...name]; a text with a placeholder is a test that waits for the
    value of its name. *)
Inductive Condition :=
| plain (test : JoinedRow -> bool)
| with_scalar (name : string) (test : string -> JoinedRow -> bool)
| with_spread (name : string) (test : list (option string) -> JoinedRow -> bool).

(** The condition on a row, once the driver has put the parameter values
    in. *)
Definition holds (ps : Parameters) (c : Condition) (r : JoinedRow) : bool :=
  match c with
  | plain test => test r
  | with_scalar name test =>
      match getParameter name ps with
      | Some (text s) => test s r
      | _ => false
      end
  | with_spread name test =>
      match getParameter name ps with
      | Some (array l) => test l r
      | _ => false
      end
  end.

(** Whether the text that the driver makes of a condition is SQL.  [:name]
    becomes one bind variable; [:...name] becomes one bind variable per
    element of the array, separated by commas, so that an empty array
    leaves [IN ()], which PostgreSQL does not parse.  A placeholder without
    a value stays in the text as it is, which does not parse either.  (No
    service gives an array to [:name] or a text to [:...name]; such a
    statement counts as rejected as well.) *)
Definition renders (ps : Parameters) (c : Condition) : bool :=
  match c with
  | plain _ => true
  | with_scalar name _ =>
      match getParameter name ps with
      | Some (text _) => true
      | _ => false
      end
  | with_spread name _ =>
      match getParameter name ps with
      | Some (array (_ :: _)) => true
      | _ => false
      end
  end.

Record SelectQueryBuilder := {
  partition_by : PartitionBy;
  window_order : OrderDirectionEnum;
  joins : list LeftJoin;
  wheres : list Condition;
  parameters : Parameters;
  order : option OrderDirectionEnum
}.

(** [createQueryBuilder(...).select(...).addSelect(ROW_NUMBER() OVER ...)]. *)
Definition createQueryBuilder (p : PartitionBy) (dir : OrderDirectionEnum)
  : SelectQueryBuilder :=
  {| partition_by := p; window_order := dir; joins := []; wheres := [];
     parameters := []; order := None |}.

(** [.where(text, parameters)] replaces the condition and adds the
    parameters; the services call it once, before any [.andWhere]. *)
Definition where_ (c : Condition) (ps : Parameters) (qb : SelectQueryBuilder) :=
  {| partition_by := partition_by qb; window_order := window_order qb;
     joins := joins qb; wheres := [c];
     parameters := setParameters ps (parameters qb); order := order qb |}.

(** [.andWhere(text, parameters)]: one more condition, and its parameters
    assigned over those already there. *)
Definition andWhere (c : Condition) (ps : Parameters) (qb : SelectQueryBuilder) :=
  {| partition_by := partition_by qb; window_order := window_order qb;
     joins := joins qb; wheres := wheres qb ++ [c];
     parameters := setParameters ps (parameters qb); order := order qb |}.

Definition leftJoin (j : LeftJoin) (qb : SelectQueryBuilder) :=
  {| partition_by := partition_by qb; window_order := window_order qb;
     joins := joins qb ++ [j]; wheres := wheres qb;
     parameters := parameters qb; order := order qb |}.

Definition orderBy (dir : OrderDirectionEnum) (qb : SelectQueryBuilder) :=
  {| partition_by := partition_by qb; window_order := window_order qb;
     joins := joins qb; wheres := wheres qb;
     parameters := parameters qb; order := Some dir |}.

(** Rows of one partition. *)
Definition same_partition (p : PartitionBy) (a b : JoinedRow) : bool :=
  let x := base a in
  let y := base b in
  match p with
  | pr_number_repo_name =>
      (pr_number x =? pr_number y) && String.eqb (repo_name x) (repo_name y)
  | pr_author_login_repo_name =>
      String.eqb (pr_author_login x) (pr_author_login y)
      && String.eqb (repo_name x) (repo_name y)
  | pr_author_login_only =>
      String.eqb (pr_author_login x) (pr_author_login y)
  end.

(** One [LEFT JOIN (sub-select) alias ON cond]: every left row is paired
    with each sub-select row that makes the condition true, and kept once
    with NULL when there is none. *)
Definition run_join (table : list DbPullRequestGitHubEvents) (j : LeftJoin)
    (rows : list JoinedRow) : list JoinedRow :=
  flat_map
    (fun r =>
       match filter (on j)
               (map (fun c => extend r (alias j) (Some c)) (subselect j table)) with
       | [] => [extend r (alias j) None]
       | matched => matched
       end)
    rows.

Definition time_of (r : JoinedRow) : Z := event_time (base r).

(** FROM and JOIN: the rows the conditions are tested on. *)
Definition from_join (qb : SelectQueryBuilder)
    (table : list DbPullRequestGitHubEvents) : list JoinedRow :=
  let from := map (fun e => {| base := e; joined := [] |}) table in
  fold_left (fun rows j => run_join table j rows) (joins qb) from.

(** FROM and JOIN, then WHERE: the rows the window function sees.  Every
    condition is read with the parameters the builder holds when the query
    runs. *)
Definition from_where (qb : SelectQueryBuilder)
    (table : list DbPullRequestGitHubEvents) : list JoinedRow :=
  filter (fun r => forallb (fun c => holds (parameters qb) c r) (wheres qb))
    (from_join qb table).

(** The rows of the builder used as a common table expression: joins,
    conditions, row numbers, and the builder's own ORDER BY. *)
Definition getCte (qb : SelectQueryBuilder)
    (table : list DbPullRequestGitHubEvents) : list (JoinedRow * nat) :=
  let numbered :=
    Sql.ROW_NUMBER time_of (same_partition (partition_by qb))
      (window_order qb) (from_where qb table) in
  match order qb with
  | Some dir => Sql.order_by (fun r => time_of (fst r)) dir numbered
  | None => numbered
  end.

(** [SELECT ... FROM CTE WHERE row_num = 1], before any slicing. *)
Definition latest (qb : SelectQueryBuilder)
    (table : list DbPullRequestGitHubEvents) : list DbPullRequestGitHubEvents :=
  map base (Sql.row_num_1 (getCte qb table)).

(** Whether the statement made of the builder is SQL: every condition
    renders. *)
Definition parses (qb : SelectQueryBuilder) : bool :=
  forallb (renders (parameters qb)) (wheres qb).

(** [getRawMany] and [getRawOne] of a query over the builder taken as a
    common table expression, with the builder's parameters: the rows
    [result] of the query, or [QueryFailedError] when the database rejects
    the statement. *)
Definition execute {A} (qb : SelectQueryBuilder) (result : A) : Promise A :=
  if parses qb then inr result else inl QueryFailedError.

End Builder.

(* ===================================================================== *)
(** ** Request objects *)
(* ===================================================================== *)

(** Modelled from the spec: the DTO classes are not among the sources.
    Each record has the properties its service method reads, under the
    names the method uses; they are the optional criteria of section 3
    ([contributor], repo names, repo ids, [topic], named [filter], list id,
    [status]) on top of the page and window options.  The author search
    reads no [contributor]; the record keeps the property so that a request
    carrying one can be written down. *)
Module PullRequestPageOptionsDto.
Record t := {
  page : PageOptionsDto;
  contributor : option string;
  filter : option string;
  topic : option string;
  repo : option string;
  repoIds : option string;
  listId : option string;
  status : option string;
  distinctAuthors : bool
}.
End PullRequestPageOptionsDto.

Module PullRequestHistogramDto.
Record t := {
  contributor : option string;
  repo : option string;
  topic : option string;
  filter : option string;
  repoIds : option string;
  orderDirection : OrderDirectionEnum;
  range : Z;
  prev_days_start_date : Z;
  width : Z
}.
End PullRequestHistogramDto.

Module ForksHistogramDto.
Record t := {
  contributor : option string;
  repo : option string;
  topic : option string;
  filter : option string;
  repoIds : option string;
  orderDirection : OrderDirectionEnum;
  range : Z
}.
End ForksHistogramDto.

Module PullRequestContributorOptionsDto.
Record t := {
  page : PageOptionsDto;
  contributor : option string;
  repos : option string;
  repoIds : option string;
  topic : option string;
  filter : option string
}.
End PullRequestContributorOptionsDto.

Module PullRequestContributorInsightsDto.
Record t := {
  page : PageOptionsDto;
  repos : string;
  repoIds : option string
}.
End PullRequestContributorInsightsDto.

Record RepoSearchOptionsDto := {
  search_filter : option string;
  search_topic : option string;
  search_limit : nat;
  search_skip : nat;
  search_range : Z
}.

(** Modelled from the spec: [GetPrevDateISOString] of
    [common/util/datetimes] is not among the sources.  Section 3: the
    anchor is "now", moved into the past by the number of days the caller
    gives. *)
Definition GetPrevDateISOString (now : Z) (prev_days : Z) : Z :=
  now - prev_days * Sql.day.

Notation "x |> f" := (f x) (at level 50, left associativity, only parsing).

(* ===================================================================== *)
(** ** [PullRequestGithubEventsService] *)
(* ===================================================================== *)

Module PullRequestGithubEventsService.
Import Str Builder.

(** The injected repository and collaborators, and the clock. *)
Record Service := {
  now : Z;
  pullRequestGithubEventsRepository : list DbPullRequestGitHubEvents;
  repoService_findAllWithFilters : RepoSearchOptionsDto -> list string;
  userListService_findContributorsByListId : string -> list (option string)
}.

(** ['startDate'::TIMESTAMP >= event_time]; the date is written into the
    text. *)
Definition not_after (startDate : Z) (r : JoinedRow) : bool :=
  event_time (base r) <=? startDate.

(** ['startDate'::TIMESTAMP - INTERVAL 'range days' <= event_time] *)
Definition not_before (startDate range : Z) (r : JoinedRow) : bool :=
  startDate - range * Sql.day <=? event_time (base r).

(** [LOWER(pr_author_login) = LOWER(:author)] *)
Definition author_is (author : string) (r : JoinedRow) : bool :=
  String.eqb (LOWER (pr_author_login (base r))) (LOWER author).

(** [LOWER(repo_name) = LOWER(:repo_name)] *)
Definition repo_name_is (repo_name_ : string) (r : JoinedRow) : bool :=
  String.eqb (LOWER (repo_name (base r))) (LOWER repo_name_).

(** [LOWER(repo_name) IN (:...repoNames)] *)
Definition repo_name_in (repoNames : list (option string)) (r : JoinedRow) : bool :=
  Sql.IN (LOWER (repo_name (base r))) repoNames.

(** [repo_id IN (:...repoIds)] *)
Definition repo_id_in (repoIds : list (option string)) (r : JoinedRow) : bool :=
  Sql.IN (repo_id (base r)) repoIds.

(** [LOWER(pr_author_login) IN (:...userNames)] *)
Definition author_in (userNames : list (option string)) (r : JoinedRow) : bool :=
  Sql.IN (LOWER (pr_author_login (base r))) userNames.

(** [pr_state = LOWER(:status)] *)
Definition state_is (status : string) (r : JoinedRow) : bool :=
  String.eqb (pr_state (base r)) (LOWER status).

(** [if (x) { builder.andWhere(...) }] for an optional string [x]. *)
Definition when_set (x : option string)
    (f : string -> SelectQueryBuilder -> SelectQueryBuilder)
    (qb : SelectQueryBuilder) : SelectQueryBuilder :=
  match x with
  | Some s => if truthy x then f s qb else qb
  | None => qb
  end.

(** [if (filter || topic) { ... repoService.findAllWithFilters ... }].  The
    names found are given to the parameter [repoNames]. *)
Definition when_filter_or_topic (this : Service) (filter topic : option string)
    (range : Z) (qb : SelectQueryBuilder) : SelectQueryBuilder :=
  if truthy filter || truthy topic then
    let filtersDto :=
      {| search_filter := filter; search_topic := topic;
         search_limit := 50; search_skip := 0; search_range := range |} in
    let repos := repoService_findAllWithFilters this filtersDto in
    let repoNames := map toLowerCase repos in
    qb |> andWhere (with_spread "repoNames" repo_name_in)
            [("repoNames", array (map Some repoNames))]
  else qb.

(** [if (repo) { ... }]: the same text as above, and the same parameter
    name [repoNames], now given the names of the request. *)
Definition when_repo (repo : option string) : SelectQueryBuilder -> SelectQueryBuilder :=
  when_set repo
    (fun repo =>
       andWhere (with_spread "repoNames" repo_name_in)
         [("repoNames", array (map Some (split comma (toLowerCase repo))))]).

(** [if (repoIds) { ... }] *)
Definition when_repoIds (repoIds : option string)
  : SelectQueryBuilder -> SelectQueryBuilder :=
  when_set repoIds
    (fun repoIds =>
       andWhere (with_spread "repoIds" repo_id_in)
         [("repoIds", array (map Some (split comma repoIds)))]).

(** [if (contributor) { ... }]; the contributor is bound as it comes. *)
Definition when_contributor (contributor : option string)
  : SelectQueryBuilder -> SelectQueryBuilder :=
  when_set contributor
    (fun author => andWhere (with_scalar "author" author_is) [("author", text author)]).

Section Methods.
Variable this : Service.

Let table := pullRequestGithubEventsRepository this.

Definition basePrAuthorCteBuilder (author : string) (range prevDays : Z)
  : SelectQueryBuilder :=
  let startDate := GetPrevDateISOString (now this) prevDays in
  createQueryBuilder pr_number_repo_name DESC
    |> where_ (with_scalar "author" author_is) [("author", text (toLowerCase author))]
    |> andWhere (plain (not_after startDate)) []
    |> andWhere (plain (not_before startDate range)) [].

Definition baseRepoCteBuilder (repo : string) (range prevDays : Z)
  : SelectQueryBuilder :=
  let startDate := GetPrevDateISOString (now this) prevDays in
  createQueryBuilder pr_number_repo_name DESC
    |> where_ (with_scalar "repo_name" repo_name_is)
         [("repo_name", text (toLowerCase repo))]
    |> andWhere (plain (not_after startDate)) []
    |> andWhere (plain (not_before startDate range)) [].

(** The count query, then the item query, over the same expression. *)
Definition execCommonTableExpression (pageOptionsDto : PageOptionsDto)
    (cteBuilder : SelectQueryBuilder) : Promise (PageDto DbPullRequestGitHubEvents) :=
  let rows := Sql.row_num_1 (getCte cteBuilder table) in
  await itemCount <- execute cteBuilder (List.length rows);
  await entities <-
    execute cteBuilder
      (Sql.offset_limit (skip pageOptionsDto) (limit pageOptionsDto) (map base rows));
  inr {| data := entities; meta := new_PageMetaDto itemCount pageOptionsDto |}.

(** [pr_merged_at::DATE - pr_created_at::DATE] *)
Definition days_to_merge (e : DbPullRequestGitHubEvents) : Z :=
  Sql.to_date (pr_merged_at e) - Sql.to_date (pr_created_at e).

Definition execVelocityCommonTableExpression (cteBuilder : SelectQueryBuilder)
  : Promise Z :=
  let rows := List.filter pr_is_merged (latest cteBuilder table) in
  execute cteBuilder
    (Sql.to_integer (Sql.COALESCE (Sql.AVG (map days_to_merge rows)) (inject_Z 0))).

Definition findVelocityByPrAuthor (author : string) (range prevDaysStartDate : Z)
  : Promise Z :=
  execVelocityCommonTableExpression
    (basePrAuthorCteBuilder author range prevDaysStartDate).

Definition findVelocityByRepoName (repo : string) (range prevDaysStartDate : Z)
  : Promise Z :=
  execVelocityCommonTableExpression
    (baseRepoCteBuilder repo range prevDaysStartDate).

(** [counterBaseQueryBuilder]: [SELECT COUNT(DISTINCT pr_number)] with
    the two window conditions; the builder is the list of its
    conditions on the bare table, with no row numbers and no
    partitions.  Its user adds one condition, whose placeholder [:author]
    gets its text there and then, so the conditions are kept with their
    values in. *)
Definition counterBaseQueryBuilder (range prevDay : Z)
  : list (DbPullRequestGitHubEvents -> bool) :=
  let startDate := GetPrevDateISOString (now this) prevDay in
  [ (fun e => event_time e <=? startDate);
    (fun e => startDate - range * Sql.day <=? event_time e) ].

(** [getRawOne] on such a builder. *)
Definition getCount (queryBuilder : list (DbPullRequestGitHubEvents -> bool)) : nat :=
  Sql.COUNT_DISTINCT
    (map pr_number
       (List.filter (fun e => forallb (fun c => c e) queryBuilder) table)).

Definition findCountByPrAuthor (author : string) (range prevDaysStartDate : Z) : nat :=
  let queryBuilder := counterBaseQueryBuilder range prevDaysStartDate in
  let queryBuilder :=
    queryBuilder
      ++ [fun e => String.eqb (LOWER (pr_author_login e))
                     (LOWER (toLowerCase author))] in
  getCount queryBuilder.

Definition findAllByPrAuthor (author : string) (pageOptionsDto : PageOptionsDto)
  : Promise (PageDto DbPullRequestGitHubEvents) :=
  let startDate := GetPrevDateISOString (now this) (prev_days_start_date pageOptionsDto) in
  let range := range pageOptionsDto in
  let order := orderDirection pageOptionsDto in
  let cteBuilder :=
    createQueryBuilder pr_number_repo_name order
      |> where_ (with_scalar "author" author_is) [("author", text (toLowerCase author))]
      |> andWhere (plain (not_after startDate)) []
      |> andWhere (plain (not_before startDate range)) []
      |> orderBy order in
  execCommonTableExpression pageOptionsDto cteBuilder.

(** The common table expression [findAllWithFilters] assembles. *)
Definition findAllWithFilters_cte (pageOptionsDto : PullRequestPageOptionsDto.t)
  : SelectQueryBuilder :=
  let page := PullRequestPageOptionsDto.page pageOptionsDto in
  let startDate := GetPrevDateISOString (now this) (prev_days_start_date page) in
  let range := range page in
  let order := orderDirection page in
  createQueryBuilder
      (if PullRequestPageOptionsDto.distinctAuthors pageOptionsDto
       then pr_author_login_repo_name else pr_number_repo_name)
      order
    |> orderBy order
    |> where_ (plain (not_after startDate)) []
    |> andWhere (plain (not_before startDate range)) []
    |> when_contributor (PullRequestPageOptionsDto.contributor pageOptionsDto)
    |> when_filter_or_topic this
         (PullRequestPageOptionsDto.filter pageOptionsDto)
         (PullRequestPageOptionsDto.topic pageOptionsDto) range
    |> when_repo (PullRequestPageOptionsDto.repo pageOptionsDto)
    |> when_repoIds (PullRequestPageOptionsDto.repoIds pageOptionsDto)
    |> when_set (PullRequestPageOptionsDto.listId pageOptionsDto)
         (fun listId =>
            let users := userListService_findContributorsByListId this listId in
            let userNames := map (option_map toLowerCase) users in
            andWhere (with_spread "userNames" author_in)
              [("userNames", array userNames)])
    |> when_set (PullRequestPageOptionsDto.status pageOptionsDto)
         (fun status =>
            andWhere (with_scalar "status" state_is) [("status", text status)]).

Definition findAllWithFilters (pageOptionsDto : PullRequestPageOptionsDto.t)
  : Promise (PageDto DbPullRequestGitHubEvents) :=
  execCommonTableExpression (PullRequestPageOptionsDto.page pageOptionsDto)
    (findAllWithFilters_cte pageOptionsDto).

(** The aggregates shared by the statistics and the histogram. *)
Definition action_is (a : string) (e : DbPullRequestGitHubEvents) : bool :=
  String.eqb (LOWER (pr_action e)) a.

Definition count_where (c : DbPullRequestGitHubEvents -> bool)
    (rows : list DbPullRequestGitHubEvents) : nat :=
  List.length (List.filter c rows).

(** [COALESCE(AVG(CASE WHEN pr_is_merged = true THEN
    pr_merged_at::DATE - pr_created_at::DATE END), 0)::INTEGER]: the
    CASE is NULL on unmerged rows and AVG skips NULLs. *)
Definition velocity_of (rows : list DbPullRequestGitHubEvents) : Z :=
  let cases := map (fun e => if pr_is_merged e then Some (days_to_merge e) else None) rows in
  let values := flat_map (fun v => match v with Some d => [d] | None => [] end) cases in
  Sql.to_integer (Sql.COALESCE (Sql.AVG values) (inject_Z 0)).

Definition aggregate (key : option Z) (with_open : bool)
    (rows : list DbPullRequestGitHubEvents) : DbPullRequestGitHubEventsHistogram :=
  {| bucket := key;
     prs_count := List.length rows;
     accepted_prs := count_where (fun e => action_is "closed" e && pr_is_merged e) rows;
     open_prs :=
       if with_open
       then Some (count_where (fun e => action_is "opened" e && negb (pr_is_draft e)) rows)
       else None;
     closed_prs := count_where (fun e => action_is "closed" e && negb (pr_is_merged e)) rows;
     draft_prs := count_where (fun e => action_is "opened" e && pr_is_draft e) rows;
     active_prs := count_where (action_is "opened") rows;
     spam_prs := count_where (fun e => Sql.eq_text (pr_active_lock_reason e) (Some "spam")) rows;
     pr_velocity := velocity_of rows |}.

(** An aggregate without GROUP BY yields one row whatever the input, so
    [getRawOne] finds a row and the [NotFoundException] branch is never
    taken. *)
Definition findPrStatsByRepo (repo : string) (range prevDaysStartDate : Z)
  : Promise DbPullRequestGitHubEventsHistogram :=
  let cteBuilder := baseRepoCteBuilder repo range prevDaysStartDate in
  await result <- execute cteBuilder (Some (aggregate None true (latest cteBuilder table)));
  match result with
  | Some stats => inr stats
  | None => inl NotFoundException
  end.

(** The common table expression of the histogram. *)
Definition genPrHistogram_cte (options : PullRequestHistogramDto.t)
  : SelectQueryBuilder :=
  let order := PullRequestHistogramDto.orderDirection options in
  let range := PullRequestHistogramDto.range options in
  let startDate :=
    GetPrevDateISOString (now this) (PullRequestHistogramDto.prev_days_start_date options) in
  createQueryBuilder pr_number_repo_name order
    |> orderBy order
    |> where_ (plain (not_after startDate)) []
    |> andWhere (plain (not_before startDate range)) []
    |> when_contributor (PullRequestHistogramDto.contributor options)
    |> when_filter_or_topic this
         (PullRequestHistogramDto.filter options)
         (PullRequestHistogramDto.topic options) range
    |> when_repo (PullRequestHistogramDto.repo options)
    |> when_repoIds (PullRequestHistogramDto.repoIds options).

Definition genPrHistogram (options : PullRequestHistogramDto.t)
  : Promise (list DbPullRequestGitHubEventsHistogram) :=
  if negb (truthy (PullRequestHistogramDto.contributor options))
     && negb (truthy (PullRequestHistogramDto.repo options))
     && negb (truthy (PullRequestHistogramDto.topic options))
     && negb (truthy (PullRequestHistogramDto.filter options))
     && negb (truthy (PullRequestHistogramDto.repoIds options))
  then inl (BadRequestException "must provide contributor, repo, topic, filter, or repoIds")
  else
    let order := PullRequestHistogramDto.orderDirection options in
    let width := PullRequestHistogramDto.width options in
    let cteBuilder := genPrHistogram_cte options in
    let groups :=
      Sql.GROUP_BY (fun e => Sql.time_bucket width (event_time e))
        (latest cteBuilder table) in
    execute cteBuilder
      (map (fun g => aggregate (Some (fst g)) false (snd g))
         (Sql.order_by fst order groups)).

(** The two queries that [searchAuthors] and [findAuthorsWithFilters]
    both run over their expression: the count, then the sliced rows. *)
Definition author_of (r : JoinedRow) : DbPullRequestContributor :=
  {| c_author_login := pr_author_login (base r);
     c_user_id := pr_author_id (base r);
     c_updated_at := event_time (base r) |}.

Definition author_page (pageOptionsDto : PageOptionsDto)
    (cteBuilder : SelectQueryBuilder) : Promise (PageDto DbPullRequestContributor) :=
  let rows := Sql.row_num_1 (getCte cteBuilder table) in
  await itemCount <- execute cteBuilder (List.length rows);
  await entities <-
    execute cteBuilder
      (Sql.offset_limit (skip pageOptionsDto) (limit pageOptionsDto) (map author_of rows));
  inr {| data := entities; meta := new_PageMetaDto itemCount pageOptionsDto |}.

Definition searchAuthors_cte (pageOptionsDto : PullRequestContributorOptionsDto.t)
  : SelectQueryBuilder :=
  let page := PullRequestContributorOptionsDto.page pageOptionsDto in
  let startDate := GetPrevDateISOString (now this) (prev_days_start_date page) in
  let range := range page in
  let order := orderDirection page in
  createQueryBuilder pr_author_login_only order
    |> orderBy order
    |> where_ (plain (not_after startDate)) []
    |> andWhere (plain (not_before startDate range)) []
    |> when_filter_or_topic this
         (PullRequestContributorOptionsDto.filter pageOptionsDto)
         (PullRequestContributorOptionsDto.topic pageOptionsDto) range
    |> when_repo (PullRequestContributorOptionsDto.repos pageOptionsDto)
    |> when_repoIds (PullRequestContributorOptionsDto.repoIds pageOptionsDto).

Definition searchAuthors (pageOptionsDto : PullRequestContributorOptionsDto.t)
  : Promise (PageDto DbPullRequestContributor) :=
  if negb (truthy (PullRequestContributorOptionsDto.repos pageOptionsDto))
     && negb (truthy (PullRequestContributorOptionsDto.repoIds pageOptionsDto))
     && negb (truthy (PullRequestContributorOptionsDto.topic pageOptionsDto))
     && negb (truthy (PullRequestContributorOptionsDto.filter pageOptionsDto))
  then inl (BadRequestException "must provide repo, repoIds, topic, filter")
  else
    author_page (PullRequestContributorOptionsDto.page pageOptionsDto)
      (searchAuthors_cte pageOptionsDto).

(** The sub-select of the contributor filters:
    [SELECT DISTINCT LOWER(pr_author_login) FROM pull_request_github_events
     WHERE LOWER(repo_name) IN (...) AND event_time BETWEEN lo AND hi].
    The repository names and the dates are written into its text. *)
Definition authors_between (repos : string) (lo hi : Z)
    (events : list DbPullRequestGitHubEvents) : list string :=
  Sql.DISTINCT
    (map (fun e => LOWER (pr_author_login e))
       (List.filter
          (fun e => mem (LOWER (repo_name e)) (split comma (toLowerCase repos))
                    && (lo <=? event_time e) && (event_time e <=? hi))
          events)).

Definition current_month_prs (repos : string) (startDate range : Z) :=
  authors_between repos (startDate - range * Sql.day) startDate.

Definition previous_month_prs (repos : string) (startDate range : Z) :=
  authors_between repos (startDate - (range + range) * Sql.day)
    (startDate - range * Sql.day).

(** [pull_request_github_events.pr_author_login = alias.pr_author_login] *)
Definition login_equals (alias : string) (r : JoinedRow) : bool :=
  Sql.eq_text (Some (pr_author_login (base r))) (col alias r).

(** The second join is written against [current_month_prs], as in the
    source. *)
Definition applyActiveContributorsFilter (queryBuilder : SelectQueryBuilder)
    (repos : string) (startDate range : Z) : SelectQueryBuilder :=
  queryBuilder
    |> leftJoin {| subselect := current_month_prs repos startDate range;
                   alias := "current_month_prs";
                   on := login_equals "current_month_prs" |}
    |> leftJoin {| subselect := previous_month_prs repos startDate range;
                   alias := "previous_month_prs";
                   on := login_equals "current_month_prs" |}
    |> andWhere (plain (fun r => Sql.is_not_null (col "previous_month_prs" r))) []
    |> andWhere (plain (fun r => Sql.is_not_null (col "current_month_prs" r))) [].

Definition applyNewContributorsFilter (queryBuilder : SelectQueryBuilder)
    (repos : string) (startDate range : Z) : SelectQueryBuilder :=
  queryBuilder
    |> leftJoin {| subselect := current_month_prs repos startDate range;
                   alias := "current_month_prs";
                   on := login_equals "current_month_prs" |}
    |> leftJoin {| subselect := previous_month_prs repos startDate range;
                   alias := "previous_month_prs";
                   on := login_equals "previous_month_prs" |}
    |> andWhere (plain (fun r => Sql.is_null (col "previous_month_prs" r))) []
    |> andWhere (plain (fun r => Sql.is_not_null (col "current_month_prs" r))) [].

Definition applyAlumniContributorsFilter (queryBuilder : SelectQueryBuilder)
    (repos : string) (startDate range : Z) : SelectQueryBuilder :=
  queryBuilder
    |> leftJoin {| subselect := current_month_prs repos startDate range;
                   alias := "current_month_prs";
                   on := login_equals "current_month_prs" |}
    |> leftJoin {| subselect := previous_month_prs repos startDate range;
                   alias := "previous_month_prs";
                   on := login_equals "previous_month_prs" |}
    |> andWhere (plain (fun r => Sql.is_not_null (col "previous_month_prs" r))) []
    |> andWhere (plain (fun r => Sql.is_null (col "current_month_prs" r))) [].

Definition findAuthorsWithFilters_cte
    (pageOptionsDto : PullRequestContributorInsightsDto.t) (contribType : string)
  : SelectQueryBuilder :=
  let page := PullRequestContributorInsightsDto.page pageOptionsDto in
  let startDate := GetPrevDateISOString (now this) (prev_days_start_date page) in
  let range := range page in
  let order := orderDirection page in
  let repos := toLowerCase (PullRequestContributorInsightsDto.repos pageOptionsDto) in
  let cteBuilder := createQueryBuilder pr_author_login_only order |> orderBy order in
  let cteBuilder :=
    if String.eqb contribType "active" then
      applyActiveContributorsFilter
        (cteBuilder |> where_ (plain (not_after startDate)) []
                    |> andWhere (plain (not_before startDate range)) [])
        repos startDate range
    else if String.eqb contribType "new" then
      applyNewContributorsFilter
        (cteBuilder |> where_ (plain (not_after startDate)) []
                    |> andWhere (plain (not_before startDate range)) [])
        repos startDate range
    else if String.eqb contribType "alumni" then
      applyAlumniContributorsFilter
        (cteBuilder |> where_ (plain (not_after startDate)) []
                    |> andWhere (plain (not_before startDate (range + range))) [])
        repos startDate range
    else
      cteBuilder |> where_ (plain (not_after startDate)) []
                 |> andWhere (plain (not_before startDate range)) [] in
  cteBuilder
    |> when_repo (Some (PullRequestContributorInsightsDto.repos pageOptionsDto)).

Definition findAuthorsWithFilters
    (pageOptionsDto : PullRequestContributorInsightsDto.t) (contribType : string)
  : Promise (PageDto DbPullRequestContributor) :=
  author_page (PullRequestContributorInsightsDto.page pageOptionsDto)
    (findAuthorsWithFilters_cte pageOptionsDto contribType).

End Methods.
End PullRequestGithubEventsService.

(* ===================================================================== *)
(** ** [ForkGithubEventsService] *)
(* ===================================================================== *)

Module ForkGithubEventsService.
Import Str.

Record Service := {
  now : Z;
  fork_github_events : list DbForkGitHubEvents
}.

(** [options.repo!] asserts nothing at run time: calling [toLowerCase] on
    an absent [repo] throws a [TypeError]. *)
Definition genForkHistogram (this : Service) (options : ForksHistogramDto.t)
  : Promise (list DbForkGitHubEventsHistogram) :=
  if negb (truthy (ForksHistogramDto.contributor options))
     && negb (truthy (ForksHistogramDto.repo options))
     && negb (truthy (ForksHistogramDto.topic options))
     && negb (truthy (ForksHistogramDto.filter options))
     && negb (truthy (ForksHistogramDto.repoIds options))
  then inl (BadRequestException "must provide contributor, repo, topic, filter, or repoIds")
  else
    let order := ForksHistogramDto.orderDirection options in
    let range := ForksHistogramDto.range options in
    match ForksHistogramDto.repo options with
    | None => inl TypeError
    | Some repo =>
        let rows :=
          List.filter
            (fun e => String.eqb (LOWER (fork_repo_name e)) (LOWER (toLowerCase repo))
                      && (now this - range * Sql.day <=? fork_event_time e))
            (fork_github_events this) in
        let groups := Sql.GROUP_BY (fun e => Sql.time_bucket 1 (fork_event_time e)) rows in
        inr (map (fun g => {| fork_bucket := fst g; forks_count := List.length (snd g) |})
               (Sql.order_by fst order groups))
    end.

End ForkGithubEventsService.

(* ===================================================================== *)
(** ** [PullRequestService] *)
(* ===================================================================== *)

Module PullRequestService.
Import Str.

Record Service := {
  now : Z;
  pull_requests : list DbPullRequest;
  repos : list DbRepo
}.

(** The builder [getContributorRangeQueryBuilder] returns. *)
Record RangeQuery := {
  start_date : Z;
  start_range : Z;
  end_range : Z;
  repoIds : list string
}.

Definition getContributorRangeQueryBuilder (start_date start_range end_range : Z)
    (repoIds : list string) : Promise RangeQuery :=
  if Nat.eqb (List.length repoIds) 0
  then inl (BadRequestException "Repo Ids cannot be empty")
  else inr {| start_date := start_date; start_range := start_range;
              end_range := end_range; repoIds := repoIds |}.

(** [SELECT DISTINCT author_login FROM pull_requests
     INNER JOIN repos ON pull_requests.repo_id = repos.id WHERE ...]. *)
Definition getRawMany (this : Service) (q : RangeQuery) : list string :=
  let joined :=
    flat_map
      (fun pr =>
         map (fun repo => (pr, repo))
           (List.filter (fun repo => String.eqb (pull_request_repo_id pr) (id repo))
              (repos this)))
      (pull_requests this) in
  let kept :=
    List.filter
      (fun row =>
         let pr := fst row in
         let repo := snd row in
         (start_date q - end_range q * Sql.day <=? updated_at pr)
         && (updated_at pr <? start_date q - start_range q * Sql.day)
         && negb (String.eqb (author_login pr) "")
         && mem (id repo) (repoIds q))
      joined in
  Sql.DISTINCT (map (fun row => author_login (fst row)) kept).

(** The raw rows carry [author_login] alone. *)
Definition findAllRecentContributors (this : Service)
    (pageOptionsDto : PullRequestContributorInsightsDto.t)
  : Promise (PageDto string) :=
  let page := PullRequestContributorInsightsDto.page pageOptionsDto in
  let startDate := GetPrevDateISOString (now this) (prev_days_start_date page) in
  let range := range page in
  let repoIds :=
    match PullRequestContributorInsightsDto.repoIds pageOptionsDto with
    | Some s => split comma s
    | None => []
    end in
  match getContributorRangeQueryBuilder startDate 0 range repoIds with
  | inl e => inl e
  | inr queryBuilder =>
      let entities := getRawMany this queryBuilder in
      let count := List.length entities in
      let pageMetaDto :=
        new_PageMetaDto count
          {| skip := 0%nat; limit := count; range := range;
             prev_days_start_date := prev_days_start_date page;
             orderDirection := orderDirection page |} in
      inr {| data := entities; meta := pageMetaDto |}
  end.

(** [repoIds?.split(",") ?? []] *)
Definition repoIds_of (repoIds : option string) : list string :=
  match repoIds with
  | Some s => split comma s
  | None => []
  end.

(** The sub-select that the three comparisons below join: the text of the
    range query, written out in the source with its own bounds. *)
Definition range_subselect (this : Service) (start_date start_range end_range : Z)
    (repoIds : list string) : list string :=
  getRawMany this
    {| start_date := start_date; start_range := start_range;
       end_range := end_range; repoIds := repoIds |}.

(** [SELECT DISTINCT current_month.author_login FROM (range query)
     current_month LEFT JOIN (...) previous_month
     ON previous_month.author_login = current_month.author_login
     WHERE previous_month.author_login IS NULL]; the page metadata is built
    from the caller's options. *)
Definition findNewContributorsInTimeRange (this : Service)
    (pageOptionsDto : PullRequestContributorInsightsDto.t)
  : Promise (PageDto string) :=
  let page := PullRequestContributorInsightsDto.page pageOptionsDto in
  let startDate := GetPrevDateISOString (now this) (prev_days_start_date page) in
  let range := range page in
  let repoIds := repoIds_of (PullRequestContributorInsightsDto.repoIds pageOptionsDto) in
  match getContributorRangeQueryBuilder startDate 0 range repoIds with
  | inl e => inl e
  | inr currentMonthQuery =>
      let current_month := getRawMany this currentMonthQuery in
      let previous_month :=
        range_subselect this startDate range (range + range) repoIds in
      let rows :=
        Sql.LEFT_JOIN (fun c p => String.eqb p c) current_month previous_month in
      let entities :=
        Sql.DISTINCT
          (map fst (List.filter (fun row => Sql.is_null (snd row)) rows)) in
      let count := List.length entities in
      inr {| data := entities; meta := new_PageMetaDto count page |}
  end.

Definition findAllChurnContributors (this : Service)
    (pageOptionsDto : PullRequestContributorOptionsDto.t)
  : Promise (PageDto string) :=
  let page := PullRequestContributorOptionsDto.page pageOptionsDto in
  let startDate := GetPrevDateISOString (now this) (prev_days_start_date page) in
  let range := range page in
  let repoIds := repoIds_of (PullRequestContributorOptionsDto.repoIds pageOptionsDto) in
  match getContributorRangeQueryBuilder startDate range (range + range) repoIds with
  | inl e => inl e
  | inr prevMonthQuery =>
      let previous_month := getRawMany this prevMonthQuery in
      let current_month := range_subselect this startDate 0 range repoIds in
      let rows :=
        Sql.LEFT_JOIN (fun p c => String.eqb p c) previous_month current_month in
      let entities :=
        Sql.DISTINCT
          (map fst (List.filter (fun row => Sql.is_null (snd row)) rows)) in
      let count := List.length entities in
      inr {| data := entities; meta := new_PageMetaDto count page |}
  end.

Definition findAllRepeatContributors (this : Service)
    (pageOptionsDto : PullRequestContributorOptionsDto.t)
  : Promise (PageDto string) :=
  let page := PullRequestContributorOptionsDto.page pageOptionsDto in
  let startDate := GetPrevDateISOString (now this) (prev_days_start_date page) in
  let range := range page in
  let repoIds := repoIds_of (PullRequestContributorOptionsDto.repoIds pageOptionsDto) in
  match getContributorRangeQueryBuilder startDate range (range + range) repoIds with
  | inl e => inl e
  | inr prevMonthQuery =>
      let previous_month := getRawMany this prevMonthQuery in
      let current_month := range_subselect this startDate 0 range repoIds in
      let rows :=
        Sql.LEFT_JOIN (fun p c => String.eqb p c) previous_month current_month in
      let entities :=
        Sql.DISTINCT
          (map fst (List.filter (fun row => Sql.is_not_null (snd row)) rows)) in
      let count := List.length entities in
      inr {| data := entities; meta := new_PageMetaDto count page |}
  end.

End PullRequestService.

(* ===================================================================== *)
(** * Vocabulary of the statements, and sample data *)
(* ===================================================================== *)

Module Statements.
Import Builder.

(** The windowed, filtered events of an expression: what its FROM and
    WHERE clauses keep, before any row is numbered. *)
Definition windowed_events (cte : SelectQueryBuilder)
    (table : list DbPullRequestGitHubEvents) : list DbPullRequestGitHubEvents :=
  map base (from_where cte table).

(** The condition text has the placeholder [name]; the builder holds a
    condition that has it. *)
Definition names (name : string) (c : Condition) : bool :=
  match c with
  | plain _ => false
  | with_scalar n _ => String.eqb name n
  | with_spread n _ => String.eqb name n
  end.

Definition mentions (name : string) (qb : SelectQueryBuilder) : bool :=
  existsb (names name) (wheres qb).

(** Two events of one [(pr_number, repo_name)] partition. *)
Definition same_pull_request (a b : DbPullRequestGitHubEvents) : bool :=
  (pr_number a =? pr_number b) && String.eqb (repo_name a) (repo_name b).

Definition set_slice (s l : nat) (p : PageOptionsDto) : PageOptionsDto :=
  {| skip := s; limit := l; range := range p;
     prev_days_start_date := prev_days_start_date p;
     orderDirection := orderDirection p |}.

(** The same author-search request with another slice. *)
Definition set_author_slice (s l : nat) (o : PullRequestContributorOptionsDto.t)
  : PullRequestContributorOptionsDto.t :=
  {| PullRequestContributorOptionsDto.page :=
       set_slice s l (PullRequestContributorOptionsDto.page o);
     PullRequestContributorOptionsDto.contributor :=
       PullRequestContributorOptionsDto.contributor o;
     PullRequestContributorOptionsDto.repos := PullRequestContributorOptionsDto.repos o;
     PullRequestContributorOptionsDto.repoIds := PullRequestContributorOptionsDto.repoIds o;
     PullRequestContributorOptionsDto.topic := PullRequestContributorOptionsDto.topic o;
     PullRequestContributorOptionsDto.filter := PullRequestContributorOptionsDto.filter o |}.

(** [itemCount] of a call that may throw; nothing when it throws. *)
Definition itemCount_of {T} (r : Promise (PageDto T)) : option nat :=
  match r with
  | inr p => Some (itemCount (meta p))
  | inl _ => None
  end.

(** The sum of a list of day counts. *)
Definition total_days (l : list Z) : Z := fold_right Z.add 0 l.

(** [v] is the integer nearest to [total / n], the half going away from
    zero. *)
Definition nearest_integer (total n v : Z) : Prop :=
  2 * Z.abs (total - v * n) <= n
  /\ (2 * Z.abs (total - v * n) = n -> Z.abs total < Z.abs v * n).

(** Section 4.4 read to the letter: the average over the merged records of
    the date differences, truncated to whole days, and 0 when there is no
    merged record. *)
Definition velocity_truncated (rows : list DbPullRequestGitHubEvents) : Z :=
  let merged := List.filter pr_is_merged rows in
  match merged with
  | [] => 0
  | _ => Z.quot (total_days (map PullRequestGithubEventsService.days_to_merge merged))
           (Z.of_nat (List.length merged))
  end.

(** The same event filed under another repository name. *)
Definition with_repo_name (name : DbPullRequestGitHubEvents -> string)
    (e : DbPullRequestGitHubEvents) : DbPullRequestGitHubEvents :=
  {| event_id := event_id e; event_time := event_time e; pr_number := pr_number e;
     repo_name := name e; repo_id := repo_id e;
     pr_author_login := pr_author_login e; pr_author_id := pr_author_id e;
     pr_state := pr_state e; pr_action := pr_action e;
     pr_is_draft := pr_is_draft e; pr_is_merged := pr_is_merged e;
     pr_created_at := pr_created_at e; pr_merged_at := pr_merged_at e;
     pr_active_lock_reason := pr_active_lock_reason e |}.

(** The same service over another table. *)
Definition with_table (table : list DbPullRequestGitHubEvents)
    (this : PullRequestGithubEventsService.Service)
  : PullRequestGithubEventsService.Service :=
  {| PullRequestGithubEventsService.now := PullRequestGithubEventsService.now this;
     PullRequestGithubEventsService.pullRequestGithubEventsRepository := table;
     PullRequestGithubEventsService.repoService_findAllWithFilters :=
       PullRequestGithubEventsService.repoService_findAllWithFilters this;
     PullRequestGithubEventsService.userListService_findContributorsByListId :=
       PullRequestGithubEventsService.userListService_findContributorsByListId this |}.

(** An event of [author] inside the window of [range] days that ends
    [prevDays] days before now. *)
Definition counted (this : PullRequestGithubEventsService.Service)
    (author : string) (range prevDays : Z) (e : DbPullRequestGitHubEvents) : Prop :=
  let startDate := GetPrevDateISOString (PullRequestGithubEventsService.now this) prevDays in
  startDate - range * Sql.day <= event_time e <= startDate
  /\ Str.eqb_ci (pr_author_login e) author = true.

(** The same listing request with another [status]. *)
Definition with_status (status : option string) (o : PullRequestPageOptionsDto.t)
  : PullRequestPageOptionsDto.t :=
  {| PullRequestPageOptionsDto.page := PullRequestPageOptionsDto.page o;
     PullRequestPageOptionsDto.contributor := PullRequestPageOptionsDto.contributor o;
     PullRequestPageOptionsDto.filter := PullRequestPageOptionsDto.filter o;
     PullRequestPageOptionsDto.topic := PullRequestPageOptionsDto.topic o;
     PullRequestPageOptionsDto.repo := PullRequestPageOptionsDto.repo o;
     PullRequestPageOptionsDto.repoIds := PullRequestPageOptionsDto.repoIds o;
     PullRequestPageOptionsDto.listId := PullRequestPageOptionsDto.listId o;
     PullRequestPageOptionsDto.status := status;
     PullRequestPageOptionsDto.distinctAuthors :=
       PullRequestPageOptionsDto.distinctAuthors o |}.

(** At least one of the criteria is supplied (truthy). *)
Definition some_supplied (criteria : list (option string)) : bool :=
  existsb Str.truthy criteria.

Definition is_validation_error {A} (r : Promise A) : Prop :=
  exists message, r = inl (BadRequestException message).

Definition returns {A} (r : Promise A) : Prop := exists v, r = inr v.

(** The same insights request with another slice. *)
Definition set_insights_slice (s l : nat) (o : PullRequestContributorInsightsDto.t)
  : PullRequestContributorInsightsDto.t :=
  {| PullRequestContributorInsightsDto.page :=
       set_slice s l (PullRequestContributorInsightsDto.page o);
     PullRequestContributorInsightsDto.repos := PullRequestContributorInsightsDto.repos o;
     PullRequestContributorInsightsDto.repoIds :=
       PullRequestContributorInsightsDto.repoIds o |}.

(** A pull request that [findAllRecentContributors] matches: it belongs to
    a known repository among [ids], has an author, and was updated in the
    current window, whose end is excluded. *)
Definition recent_contribution (this : PullRequestService.Service)
    (o : PullRequestContributorInsightsDto.t) (ids : list string)
    (pr : DbPullRequest) : Prop :=
  let page := PullRequestContributorInsightsDto.page o in
  let startDate :=
    GetPrevDateISOString (PullRequestService.now this) (prev_days_start_date page) in
  In pr (PullRequestService.pull_requests this)
  /\ (exists repo, In repo (PullRequestService.repos this)
                   /\ id repo = pull_request_repo_id pr
                   /\ In (id repo) ids)
  /\ startDate - range page * Sql.day <= updated_at pr < startDate
  /\ author_login pr <> "".

(** Section 8 read to the letter: the bucket of an event, counted in
    widths of [width] days from the start of the window. *)
Definition bucket_index_from_window_start (window_start width t : Z) : Z :=
  (t - window_start) / (width * Sql.day).

(** [key] is the start of a bucket of [width] days on the grid that passes
    through TimescaleDB's origin, and [t] lies in that bucket. *)
Definition on_origin_grid (width key t : Z) : Prop :=
  (exists k, key = Sql.time_bucket_origin + k * (width * Sql.day))
  /\ key <= t < key + width * Sql.day.

(** A fork event that the fork histogram keeps: of the requested
    repository, and not older than [range] days. *)
Definition fork_kept (forks : ForkGithubEventsService.Service)
    (f : ForksHistogramDto.t) (e : DbForkGitHubEvents) : Prop :=
  In e (ForkGithubEventsService.fork_github_events forks)
  /\ (exists repo, ForksHistogramDto.repo f = Some repo
                   /\ Str.eqb_ci (fork_repo_name e) repo = true)
  /\ ForkGithubEventsService.now forks - ForksHistogramDto.range f * Sql.day
     <= fork_event_time e.

(** The logins a cohort query returns, unsliced. *)
Definition cohort (this : PullRequestGithubEventsService.Service)
    (o : PullRequestContributorInsightsDto.t) (contribType : string) : list string :=
  map pr_author_login
    (Builder.latest
       (PullRequestGithubEventsService.findAuthorsWithFilters_cte this o contribType)
       (PullRequestGithubEventsService.pullRequestGithubEventsRepository this)).

(** The events of a login, written in any letter case, in the repositories
    of the request between two instants, both included. *)
Definition events_between (this : PullRequestGithubEventsService.Service)
    (o : PullRequestContributorInsightsDto.t) (login : string) (lo hi : Z)
  : list DbPullRequestGitHubEvents :=
  List.filter
    (fun e =>
       Str.eqb_ci (pr_author_login e) login
       && Str.mem (Str.LOWER (repo_name e))
            (Str.split Str.comma
               (Str.LOWER (PullRequestContributorInsightsDto.repos o)))
       && (lo <=? event_time e) && (event_time e <=? hi))
    (PullRequestGithubEventsService.pullRequestGithubEventsRepository this).

(** What a contributor comparison throws when it is given no repo ids. *)
Definition no_repo_ids_error : Exception :=
  BadRequestException "Repo Ids cannot be empty".

(** A login that the range query of [PullRequestService] finds between
    [end_range] days (included) and [start_range] days (excluded) before
    [start_date]. *)
Definition contributed (this : PullRequestService.Service)
    (start_date start_range end_range : Z) (ids : list string) (login : string) : Prop :=
  exists pr,
    In pr (PullRequestService.pull_requests this)
    /\ (exists repo, In repo (PullRequestService.repos this)
                     /\ id repo = pull_request_repo_id pr
                     /\ In (id repo) ids)
    /\ start_date - end_range * Sql.day <= updated_at pr
         < start_date - start_range * Sql.day
    /\ author_login pr <> ""
    /\ author_login pr = login.

(** What identifies a pull request, and an author within a repository. *)
Definition pull_request_key (e : DbPullRequestGitHubEvents) : Z * string :=
  (pr_number e, repo_name e).

Definition author_repo_key (e : DbPullRequestGitHubEvents) : string * string :=
  (pr_author_login e, repo_name e).

(** The page of a call that may throw; the empty list when it throws. *)
Definition data_of {T} (r : Promise (PageDto T)) : list T :=
  match r with
  | inr p => data p
  | inl _ => []
  end.

(** A condition that holds for an optional criterion: nothing is asked when
    the criterion is absent or empty. *)
Definition applies (x : option string) (P : string -> Prop) : Prop :=
  match x with
  | Some s => Str.truthy x = true -> P s
  | None => True
  end.

(** What [findAllWithFilters] asks of an event, criterion by criterion.
    The repositories found for a filter or topic count only when the
    request names no repositories itself: both conditions read the
    parameter [repoNames], and the names of the request are assigned to it
    last. *)
Definition listing_criteria (this : PullRequestGithubEventsService.Service)
    (o : PullRequestPageOptionsDto.t) (e : DbPullRequestGitHubEvents) : Prop :=
  let page := PullRequestPageOptionsDto.page o in
  let start :=
    GetPrevDateISOString (PullRequestGithubEventsService.now this)
      (prev_days_start_date page) in
  start - range page * Sql.day <= event_time e <= start
  /\ applies (PullRequestPageOptionsDto.contributor o)
       (fun author => Str.eqb_ci (pr_author_login e) author = true)
  /\ ((Str.truthy (PullRequestPageOptionsDto.filter o)
        || Str.truthy (PullRequestPageOptionsDto.topic o))%bool = true ->
      Str.truthy (PullRequestPageOptionsDto.repo o) = false ->
      In (Str.LOWER (repo_name e))
        (map Str.LOWER
           (PullRequestGithubEventsService.repoService_findAllWithFilters this
              {| search_filter := PullRequestPageOptionsDto.filter o;
                 search_topic := PullRequestPageOptionsDto.topic o;
                 search_limit := 50; search_skip := 0;
                 search_range := range page |})))
  /\ applies (PullRequestPageOptionsDto.repo o)
       (fun repo => In (Str.LOWER (repo_name e)) (Str.split Str.comma (Str.LOWER repo)))
  /\ applies (PullRequestPageOptionsDto.repoIds o)
       (fun repoIds => In (repo_id e) (Str.split Str.comma repoIds))
  /\ applies (PullRequestPageOptionsDto.listId o)
       (fun listId =>
          In (Some (Str.LOWER (pr_author_login e)))
            (map (option_map Str.LOWER)
               (PullRequestGithubEventsService.userListService_findContributorsByListId
                  this listId)))
  /\ applies (PullRequestPageOptionsDto.status o)
       (fun status => pr_state e = Str.LOWER status).



(** [r] comes first among the events of its pull request in the order
    [dir]: it is the latest for [DESC], the earliest for [ASC]. *)
Definition extreme_in (dir : OrderDirectionEnum)
    (events : list DbPullRequestGitHubEvents) (r : DbPullRequestGitHubEvents) : Prop :=
  forall x, In x events -> pr_number x = pr_number r -> repo_name x = repo_name r ->
            match dir with
            | DESC => event_time x <= event_time r
            | ASC => event_time r <= event_time x
            end.

(** The sum of a list of counts. *)
Definition total_count (l : list nat) : nat := fold_right Nat.add 0%nat l.

(** Bucket key [a] stands before bucket key [b] in the direction [dir]. *)
Definition key_before (dir : OrderDirectionEnum) (a b : Z) : Prop :=
  match dir with
  | ASC => a < b
  | DESC => b < a
  end.

(** The same, for the optional key of a pull-request bucket. *)
Definition bucket_before (dir : OrderDirectionEnum)
    (a b : DbPullRequestGitHubEventsHistogram) : Prop :=
  match bucket a, bucket b with
  | Some x, Some y => key_before dir x y
  | _, _ => False
  end.

(** The buckets of a histogram call; none when it throws. *)
Definition buckets_of {T} (r : Promise (list T)) : list T :=
  match r with
  | inr b => b
  | inl _ => []
  end.

(** The repositories a cohort request names, as the sub-selects of the
    cohort filters read them. *)
Definition cohort_repos (o : PullRequestContributorInsightsDto.t) : list string :=
  Str.split Str.comma (Str.LOWER (PullRequestContributorInsightsDto.repos o)).

(** [login] is the lower-cased login of an event in the named repositories
    between [lo] and [hi], both included: what a sub-select of the cohort
    filters collects. *)
Definition seen_between (this : PullRequestGithubEventsService.Service)
    (o : PullRequestContributorInsightsDto.t) (lo hi : Z) (login : string) : Prop :=
  exists e,
    In e (PullRequestGithubEventsService.pullRequestGithubEventsRepository this)
    /\ Str.LOWER (pr_author_login e) = login
    /\ In (Str.LOWER (repo_name e)) (cohort_repos o)
    /\ lo <= event_time e <= hi.

(** [login] is the stored login of an event between [lo] and [hi], in the
    named repositories when the request names any: what the outer query of
    a cohort keeps before it joins. *)
Definition listed_between (this : PullRequestGithubEventsService.Service)
    (o : PullRequestContributorInsightsDto.t) (lo hi : Z) (login : string) : Prop :=
  exists e,
    In e (PullRequestGithubEventsService.pullRequestGithubEventsRepository this)
    /\ pr_author_login e = login
    /\ lo <= event_time e <= hi
    /\ applies (Some (PullRequestContributorInsightsDto.repos o))
         (fun _ => In (Str.LOWER (repo_name e)) (cohort_repos o)).

(** What a left join on the login leaves in a row: the row's own login
    when the sub-select holds it, NULL otherwise. *)
Definition joined_login (logins : list string) (r : Builder.JoinedRow) : option string :=
  if Str.mem (pr_author_login (Builder.base r)) logins
  then Some (pr_author_login (Builder.base r))
  else None.

(** A row of the table with the two cohort joins done. *)
Definition cohort_row (current previous : list string) (e : DbPullRequestGitHubEvents)
  : Builder.JoinedRow :=
  let r0 := {| Builder.base := e; Builder.joined := [] |} in
  let r1 := Builder.extend r0 "current_month_prs" (joined_login current r0) in
  Builder.extend r1 "previous_month_prs" (joined_login previous r1).

(** The listing request that carries the criteria of a histogram request
    and nothing else. *)
Definition listing_of (h : PullRequestHistogramDto.t) (s l : nat)
  : PullRequestPageOptionsDto.t :=
  {| PullRequestPageOptionsDto.page :=
       {| skip := s; limit := l;
          range := PullRequestHistogramDto.range h;
          prev_days_start_date := PullRequestHistogramDto.prev_days_start_date h;
          orderDirection := PullRequestHistogramDto.orderDirection h |};
     PullRequestPageOptionsDto.contributor := PullRequestHistogramDto.contributor h;
     PullRequestPageOptionsDto.filter := PullRequestHistogramDto.filter h;
     PullRequestPageOptionsDto.topic := PullRequestHistogramDto.topic h;
     PullRequestPageOptionsDto.repo := PullRequestHistogramDto.repo h;
     PullRequestPageOptionsDto.repoIds := PullRequestHistogramDto.repoIds h;
     PullRequestPageOptionsDto.listId := None;
     PullRequestPageOptionsDto.status := None;
     PullRequestPageOptionsDto.distinctAuthors := false |}.

(** The author search that names the repositories of a cohort request and
    nothing else. *)
Definition search_of (o : PullRequestContributorInsightsDto.t)
  : PullRequestContributorOptionsDto.t :=
  {| PullRequestContributorOptionsDto.page := PullRequestContributorInsightsDto.page o;
     PullRequestContributorOptionsDto.contributor := None;
     PullRequestContributorOptionsDto.repos :=
       Some (PullRequestContributorInsightsDto.repos o);
     PullRequestContributorOptionsDto.repoIds := None;
     PullRequestContributorOptionsDto.topic := None;
     PullRequestContributorOptionsDto.filter := None |}.

End Statements.

Module Sample.
Import PullRequestGithubEventsService.

(** An opened, unmerged pull-request event. *)
Definition event (i t n : Z) (repo author : string) : DbPullRequestGitHubEvents :=
  {| event_id := i; event_time := t; pr_number := n;
     repo_name := repo; repo_id := "1";
     pr_author_login := author; pr_author_id := 7;
     pr_state := "open"; pr_action := "opened";
     pr_is_draft := false; pr_is_merged := false;
     pr_created_at := t; pr_merged_at := 0;
     pr_active_lock_reason := None |}.

(** A service at a given instant, with collaborators that know no
    repository and no list. *)
Definition service_at (instant : Z) (table : list DbPullRequestGitHubEvents) : Service :=
  {| now := instant;
     pullRequestGithubEventsRepository := table;
     repoService_findAllWithFilters := fun _ => [];
     userListService_findContributorsByListId := fun _ => [] |}.

(** The service at the start of day 100. *)
Definition service (table : list DbPullRequestGitHubEvents) : Service :=
  service_at (100 * Sql.day) table.

Definition page (s l : nat) : PageOptionsDto :=
  {| skip := s; limit := l; range := 30; prev_days_start_date := 0;
     orderDirection := DESC |}.

(** Two events of pull request 1 of [a/b] with one and the same
    [event_time], in the two possible scan orders. *)
Definition tie_1 := event 1 (90 * Sql.day) 1 "a/b" "x".
Definition tie_2 := event 2 (90 * Sql.day) 1 "a/b" "x".

(** A closed, merged pull-request event, created and merged at the given
    instants. *)
Definition merged_event (i t n : Z) (repo author : string) (created merged : Z)
  : DbPullRequestGitHubEvents :=
  {| event_id := i; event_time := t; pr_number := n;
     repo_name := repo; repo_id := "1";
     pr_author_login := author; pr_author_id := 7;
     pr_state := "closed"; pr_action := "closed";
     pr_is_draft := false; pr_is_merged := true;
     pr_created_at := created; pr_merged_at := merged;
     pr_active_lock_reason := None |}.

(** Two pull requests of [x], merged one day and two days after their
    creation. *)
Definition merged_after_1_and_2 : list DbPullRequestGitHubEvents :=
  [ merged_event 1 (90 * Sql.day) 1 "a/b" "x" (80 * Sql.day) (81 * Sql.day);
    merged_event 2 (91 * Sql.day) 2 "a/b" "x" (80 * Sql.day) (82 * Sql.day) ].

(** Pull request 7 of [a/b] and pull request 7 of [c/d]: two pull requests
    of [x] that share their number. *)
Definition same_number_two_repos : list DbPullRequestGitHubEvents :=
  [ event 1 (90 * Sql.day) 7 "a/b" "x"; event 2 (91 * Sql.day) 7 "c/d" "x" ].

(** A listing request for the repository [a/b] with a status. *)
Definition listing (status : option string) : PullRequestPageOptionsDto.t :=
  {| PullRequestPageOptionsDto.page := page 0 10;
     PullRequestPageOptionsDto.contributor := None;
     PullRequestPageOptionsDto.filter := None;
     PullRequestPageOptionsDto.topic := None;
     PullRequestPageOptionsDto.repo := Some "a/b";
     PullRequestPageOptionsDto.repoIds := None;
     PullRequestPageOptionsDto.listId := None;
     PullRequestPageOptionsDto.status := status;
     PullRequestPageOptionsDto.distinctAuthors := false |}.

(** An event whose stored state is written in capitals. *)
Definition capital_state : DbPullRequestGitHubEvents :=
  {| event_id := 1; event_time := 90 * Sql.day; pr_number := 1;
     repo_name := "a/b"; repo_id := "1";
     pr_author_login := "x"; pr_author_id := 7;
     pr_state := "OPEN"; pr_action := "opened";
     pr_is_draft := false; pr_is_merged := false;
     pr_created_at := 90 * Sql.day; pr_merged_at := 0;
     pr_active_lock_reason := None |}.

(** An author search that supplies a contributor and nothing else. *)
Definition search_by_contributor_only : PullRequestContributorOptionsDto.t :=
  {| PullRequestContributorOptionsDto.page := page 0 10;
     PullRequestContributorOptionsDto.contributor := Some "x";
     PullRequestContributorOptionsDto.repos := None;
     PullRequestContributorOptionsDto.repoIds := None;
     PullRequestContributorOptionsDto.topic := None;
     PullRequestContributorOptionsDto.filter := None |}.

(** A fork histogram request that supplies a contributor and nothing else. *)
Definition forks_by_contributor_only : ForksHistogramDto.t :=
  {| ForksHistogramDto.contributor := Some "x";
     ForksHistogramDto.repo := None;
     ForksHistogramDto.topic := None;
     ForksHistogramDto.filter := None;
     ForksHistogramDto.repoIds := None;
     ForksHistogramDto.orderDirection := DESC;
     ForksHistogramDto.range := 30 |}.

Definition fork_service (table : list DbForkGitHubEvents) : ForkGithubEventsService.Service :=
  {| ForkGithubEventsService.now := 100 * Sql.day;
     ForkGithubEventsService.fork_github_events := table |}.

(** Two authors with pull requests in repository 1, one of them twice. *)
Definition api_service : PullRequestService.Service :=
  {| PullRequestService.now := 100 * Sql.day;
     PullRequestService.pull_requests :=
       [ {| author_login := "x"; updated_at := 90 * Sql.day; pull_request_repo_id := "1" |};
         {| author_login := "y"; updated_at := 91 * Sql.day; pull_request_repo_id := "1" |};
         {| author_login := "x"; updated_at := 92 * Sql.day; pull_request_repo_id := "1" |} ];
     PullRequestService.repos := [ {| id := "1" |} ] |}.

Definition insights (s l : nat) : PullRequestContributorInsightsDto.t :=
  {| PullRequestContributorInsightsDto.page := page s l;
     PullRequestContributorInsightsDto.repos := "a/b";
     PullRequestContributorInsightsDto.repoIds := Some "1" |}.

(** A histogram of [a/b] over the last 30 days in buckets of one day. *)
Definition histogram_of_a_b : PullRequestHistogramDto.t :=
  {| PullRequestHistogramDto.contributor := None;
     PullRequestHistogramDto.repo := Some "a/b";
     PullRequestHistogramDto.topic := None;
     PullRequestHistogramDto.filter := None;
     PullRequestHistogramDto.repoIds := None;
     PullRequestHistogramDto.orderDirection := ASC;
     PullRequestHistogramDto.range := 30;
     PullRequestHistogramDto.prev_days_start_date := 0;
     PullRequestHistogramDto.width := 1 |}.

Definition forks_of_a_b : ForksHistogramDto.t :=
  {| ForksHistogramDto.contributor := None;
     ForksHistogramDto.repo := Some "a/b";
     ForksHistogramDto.topic := None;
     ForksHistogramDto.filter := None;
     ForksHistogramDto.repoIds := None;
     ForksHistogramDto.orderDirection := ASC;
     ForksHistogramDto.range := 30 |}.

(** Noon of day 100: the 30-day window then starts at noon of day 70. *)
Definition noon_of_day_100 : Z := 100 * Sql.day + 43200.

(** Two pull requests, 6 and 18 hours after the start of that window: the
    evening of day 70 and the morning of day 71. *)
Definition evening_and_morning : list DbPullRequestGitHubEvents :=
  [ event 1 (70 * Sql.day + 64800) 1 "a/b" "x";
    event 2 (71 * Sql.day + 21600) 2 "a/b" "x" ].

(** On day 100 with a range of 30 days the current window is days 70 to
    100 and the previous window days 40 to 70.  [x] has one event, in the
    current window; [y] has one event, in the previous window. *)
Definition x_now_y_before : list DbPullRequestGitHubEvents :=
  [ event 1 (90 * Sql.day) 1 "a/b" "x"; event 2 (50 * Sql.day) 2 "a/b" "y" ].

(** [Zed], whose login has a capital letter, has one event, in the current
    window. *)
Definition capital_login_now : list DbPullRequestGitHubEvents :=
  [ event 1 (90 * Sql.day) 1 "a/b" "Zed" ].

(** On day 100 with a range of 30 days: [x] updated pull requests in both
    windows, [y] in the previous window only, [z] in the current window
    only, all in repository 1. *)
Definition api_two_windows : PullRequestService.Service :=
  {| PullRequestService.now := 100 * Sql.day;
     PullRequestService.pull_requests :=
       [ {| author_login := "x"; updated_at := 90 * Sql.day; pull_request_repo_id := "1" |};
         {| author_login := "x"; updated_at := 50 * Sql.day; pull_request_repo_id := "1" |};
         {| author_login := "y"; updated_at := 55 * Sql.day; pull_request_repo_id := "1" |};
         {| author_login := "z"; updated_at := 95 * Sql.day; pull_request_repo_id := "1" |} ];
     PullRequestService.repos := [ {| id := "1" |} ] |}.

(** A contributor request for repository 1. *)
Definition contributors_of_1 (s l : nat) : PullRequestContributorOptionsDto.t :=
  {| PullRequestContributorOptionsDto.page := page s l;
     PullRequestContributorOptionsDto.contributor := None;
     PullRequestContributorOptionsDto.repos := None;
     PullRequestContributorOptionsDto.repoIds := Some "1";
     PullRequestContributorOptionsDto.topic := None;
     PullRequestContributorOptionsDto.filter := None |}.

(** Pull request 1 of [a/b]: opened on day 80, updated on day 90. *)
Definition opened_then_updated : list DbPullRequestGitHubEvents :=
  [ event 1 (80 * Sql.day) 1 "a/b" "x"; event 2 (90 * Sql.day) 1 "a/b" "x" ].

(** Pull request 1 of [a/b] with its two events, and pull request 2. *)
Definition two_pull_requests : list DbPullRequestGitHubEvents :=
  opened_then_updated ++ [ event 3 (85 * Sql.day) 2 "a/b" "x" ].

(** A service whose repository search finds [c/d] for every filter and
    topic. *)
Definition service_with_topic (table : list DbPullRequestGitHubEvents) : Service :=
  {| now := 100 * Sql.day;
     pullRequestGithubEventsRepository := table;
     repoService_findAllWithFilters := fun _ => ["c/d"];
     userListService_findContributorsByListId := fun _ => [] |}.

(** One pull request of [a/b] and one of [c/d]. *)
Definition a_b_and_c_d : list DbPullRequestGitHubEvents :=
  [ event 1 (90 * Sql.day) 1 "a/b" "x"; event 2 (91 * Sql.day) 2 "c/d" "y" ].

(** The listing for the topic [rust], with the repository names given. *)
Definition listing_of_topic (repo : option string) : PullRequestPageOptionsDto.t :=
  {| PullRequestPageOptionsDto.page := page 0 10;
     PullRequestPageOptionsDto.contributor := None;
     PullRequestPageOptionsDto.filter := None;
     PullRequestPageOptionsDto.topic := Some "rust";
     PullRequestPageOptionsDto.repo := repo;
     PullRequestPageOptionsDto.repoIds := None;
     PullRequestPageOptionsDto.listId := None;
     PullRequestPageOptionsDto.status := None;
     PullRequestPageOptionsDto.distinctAuthors := false |}.

(** The listing of [a/b] in ascending order. *)
Definition listing_ascending : PullRequestPageOptionsDto.t :=
  {| PullRequestPageOptionsDto.page :=
       {| skip := 0; limit := 10; range := 30; prev_days_start_date := 0;
          orderDirection := ASC |};
     PullRequestPageOptionsDto.contributor := None;
     PullRequestPageOptionsDto.filter := None;
     PullRequestPageOptionsDto.topic := None;
     PullRequestPageOptionsDto.repo := Some "a/b";
     PullRequestPageOptionsDto.repoIds := None;
     PullRequestPageOptionsDto.listId := None;
     PullRequestPageOptionsDto.status := None;
     PullRequestPageOptionsDto.distinctAuthors := false |}.

(** The author expression for [x] over the last 30 days. *)
Definition author_x (table : list DbPullRequestGitHubEvents) : Builder.SelectQueryBuilder :=
  basePrAuthorCteBuilder (service table) "x" 30 0.

(** Three forks of [a/b], two of them on day 90, and one fork of [c/d]. *)
Definition forks_table : list DbForkGitHubEvents :=
  [ {| fork_repo_name := "a/b"; fork_event_time := 90 * Sql.day + 100 |};
    {| fork_repo_name := "A/B"; fork_event_time := 90 * Sql.day + 200 |};
    {| fork_repo_name := "a/b"; fork_event_time := 95 * Sql.day |};
    {| fork_repo_name := "c/d"; fork_event_time := 95 * Sql.day |} ].

(** The fork histogram of [a/b] with every other criterion supplied too. *)
Definition forks_of_a_b_and_more : ForksHistogramDto.t :=
  {| ForksHistogramDto.contributor := Some "x";
     ForksHistogramDto.repo := Some "a/b";
     ForksHistogramDto.topic := Some "rust";
     ForksHistogramDto.filter := Some "recent";
     ForksHistogramDto.repoIds := Some "5";
     ForksHistogramDto.orderDirection := ASC;
     ForksHistogramDto.range := 30 |}.

End Sample.

(* ===================================================================== *)
(** * Properties *)
(* ===================================================================== *)

(** ** Facts about the string helpers *)

Module StrFacts.
Import Str.

Lemma lower_char_idempotent (c : ascii) : lower_char (lower_char c) = lower_char c.
Proof. destruct c as [[] [] [] [] [] [] [] []]; reflexivity. Qed.

Lemma LOWER_idempotent (s : string) : LOWER (LOWER s) = LOWER s.
Proof.
  induction s as [|c r IH]; simpl; [reflexivity|].
  now rewrite lower_char_idempotent, IH.
Qed.

Lemma split_nonempty (s : string) : split comma s <> [].
Proof.
  destruct s as [|c r]; simpl; [discriminate|].
  destruct (Ascii.eqb c comma); [discriminate|].
  destruct (split comma r); discriminate.
Qed.

End StrFacts.

(** ** Facts about the SQL building blocks *)

Module SqlFacts.
Import Sql.

Section Ordering.
Context {A : Type}.
Variable time : A -> Z.
Variable dir : OrderDirectionEnum.

Let R (a b : A) : Prop := may_precede time dir a b = true.

Lemma may_precede_total a b :
  may_precede time dir a b = false -> may_precede time dir b a = true.
Proof. unfold may_precede; destruct dir; intros H; lia. Qed.

Lemma may_precede_trans a b c :
  may_precede time dir a b = true -> may_precede time dir b c = true ->
  may_precede time dir a c = true.
Proof. unfold may_precede; destruct dir; intros H1 H2; lia. Qed.

Lemma may_precede_refl a : may_precede time dir a a = true.
Proof. unfold may_precede; destruct dir; lia. Qed.

Lemma insert_row_perm a l : Permutation (a :: l) (insert_row time dir a l).
Proof.
  induction l as [|b r IH]; simpl.
  - apply Permutation_refl.
  - destruct (may_precede time dir a b).
    + apply Permutation_refl.
    + eapply perm_trans; [apply perm_swap|]. now apply perm_skip.
Qed.

Lemma order_by_perm l : Permutation l (order_by time dir l).
Proof.
  induction l as [|a r IH]; simpl.
  - constructor.
  - eapply perm_trans; [apply perm_skip, IH|]. apply insert_row_perm.
Qed.

Lemma order_by_In x l : In x (order_by time dir l) <-> In x l.
Proof.
  split; intros H.
  - eapply Permutation_in; [apply Permutation_sym, order_by_perm | exact H].
  - eapply Permutation_in; [apply order_by_perm | exact H].
Qed.

Lemma insert_row_sorted a l :
  StronglySorted R l -> StronglySorted R (insert_row time dir a l).
Proof.
  induction 1 as [|b r Hs IH Hall]; simpl.
  - constructor; constructor.
  - destruct (may_precede time dir a b) eqn:E.
    + constructor; [now constructor|].
      constructor; [exact E|].
      rewrite Forall_forall in *. intros x Hx.
      eapply may_precede_trans; [exact E | now apply Hall].
    + constructor; [exact IH|].
      rewrite Forall_forall in *. intros x Hx.
      apply (Permutation_in _ (Permutation_sym (insert_row_perm a r))) in Hx.
      destruct Hx as [<-|Hx]; [now apply may_precede_total | now apply Hall].
Qed.

Lemma order_by_sorted l : StronglySorted R (order_by time dir l).
Proof.
  induction l as [|a r IH]; simpl; [constructor | now apply insert_row_sorted].
Qed.

(** In a sorted list the first row that passes a test may precede every
    row that passes it. *)
Lemma find_sorted_first (f : A -> bool) l r :
  StronglySorted R l -> find f l = Some r ->
  In r l /\ f r = true /\
  forall x, In x l -> f x = true -> may_precede time dir r x = true.
Proof.
  induction 1 as [|b l' Hs IH Hall]; simpl; [discriminate|].
  destruct (f b) eqn:E; intros Hf.
  - inversion Hf; subst r. repeat split; auto.
    intros x [<-|Hx] _; [apply may_precede_refl|].
    rewrite Forall_forall in Hall. now apply Hall.
  - destruct (IH Hf) as (Hin & Hr & Hmin). repeat split; auto.
    intros x [<-|Hx] Hfx; [congruence | now apply Hmin].
Qed.

End Ordering.

Section Numbering.
Context {A : Type}.
Variable same : A -> A -> bool.
Hypothesis same_sym : forall a b, same a b = same b a.
Hypothesis same_trans : forall a b c, same a b = true -> same b c = true -> same a c = true.

Lemma filter_nil_existsb (f : A -> bool) l :
  Nat.eqb (S (List.length (filter f l))) 1 = negb (existsb f l).
Proof.
  induction l as [|a r IH]; simpl; [reflexivity|].
  destruct (f a); simpl; [reflexivity | exact IH].
Qed.

Lemma row_num_1_firsts seen l :
  row_num_1 (number_rows same seen l) = firsts same seen l.
Proof.
  unfold row_num_1. revert seen.
  induction l as [|a r IH]; intros seen; [reflexivity|].
  cbn [number_rows filter snd firsts].
  rewrite filter_nil_existsb.
  destruct (existsb (same a) seen); cbn [negb map fst]; now rewrite IH.
Qed.

Lemma existsb_same_trans e a seen :
  same e a = true -> existsb (same a) seen = existsb (same e) seen.
Proof.
  intros Hea. induction seen as [|s r IH]; simpl; [reflexivity|].
  rewrite IH. f_equal.
  destruct (same a s) eqn:E1, (same e s) eqn:E2; try reflexivity.
  - rewrite (same_trans Hea E1) in E2. discriminate.
  - rewrite same_sym in Hea. rewrite (same_trans Hea E2) in E1. discriminate.
Qed.

(** Each partition contributes its first row, and nothing else. *)
Lemma firsts_partition e seen l :
  filter (same e) (firsts same seen l) =
  if existsb (same e) seen then []
  else match find (same e) l with Some r => [r] | None => [] end.
Proof.
  revert seen. induction l as [|a r IH]; intros seen; simpl.
  - now destruct (existsb (same e) seen).
  - destruct (same e a) eqn:Hea.
    + rewrite (existsb_same_trans seen Hea).
      destruct (existsb (same e) seen) eqn:Hs.
      * rewrite IH. simpl. now rewrite Hea.
      * simpl. rewrite Hea, IH. simpl. now rewrite Hea.
    + destruct (existsb (same a) seen); simpl; rewrite ?Hea, IH; simpl;
        now rewrite Hea.
Qed.

Lemma firsts_In x seen l : In x (firsts same seen l) -> In x l.
Proof.
  revert seen. induction l as [|a r IH]; intros seen; simpl; [tauto|].
  destruct (existsb (same a) seen); simpl; intros H.
  - right. eapply IH; eauto.
  - destruct H as [H|H]; [now left | right; eapply IH; eauto].
Qed.

End Numbering.

End SqlFacts.

(** ** Latest state per pull request *)

Module LatestState.
Import Sql Builder SqlFacts.

Lemma same_partition_sym p a b : same_partition p a b = same_partition p b a.
Proof.
  unfold same_partition; destruct p;
    rewrite ?(Z.eqb_sym (pr_number (base a))),
            ?(String.eqb_sym (repo_name (base a))),
            ?(String.eqb_sym (pr_author_login (base a))); reflexivity.
Qed.

Lemma same_partition_trans p a b c :
  same_partition p a b = true -> same_partition p b c = true ->
  same_partition p a c = true.
Proof.
  unfold same_partition; destruct p; intros H1 H2;
    repeat match goal with
           | H : (_ && _)%bool = true |- _ => apply andb_prop in H; destruct H
           | H : (_ =? _) = true |- _ => apply Z.eqb_eq in H
           | H : String.eqb _ _ = true |- _ => apply String.eqb_eq in H
           end;
    repeat (apply andb_true_intro; split);
    try apply Z.eqb_eq; try apply String.eqb_eq; congruence.
Qed.

Lemma same_partition_refl p a : same_partition p a a = true.
Proof.
  unfold same_partition; destruct p;
    rewrite ?Z.eqb_refl, ?String.eqb_refl; reflexivity.
Qed.

Lemma filter_perm {A} (f : A -> bool) l l' :
  Permutation l l' -> Permutation (filter f l) (filter f l').
Proof.
  induction 1 as [|x l l' _ IH|x y l|l l' l'' _ IH1 _ IH2]; simpl.
  - constructor.
  - destruct (f x); [now apply perm_skip | exact IH].
  - destruct (f x), (f y); try apply Permutation_refl. apply perm_swap.
  - eapply perm_trans; eauto.
Qed.

(** The rows numbered 1, up to the order in which the expression lists
    them. *)
Lemma row_num_1_getCte qb table :
  Permutation
    (row_num_1 (getCte qb table))
    (firsts (same_partition (partition_by qb)) []
       (order_by time_of (window_order qb) (from_where qb table))).
Proof.
  unfold getCte, ROW_NUMBER.
  rewrite <- (row_num_1_firsts (same_partition (partition_by qb)) []).
  destruct (order qb) as [d|]; [|apply Permutation_refl].
  unfold row_num_1. apply Permutation_map, filter_perm, Permutation_sym, order_by_perm.
Qed.

(** Every partition that holds a row has exactly one row numbered 1; that
    row belongs to the partition and may precede each of its rows in the
    window order. *)
Lemma row_num_1_of_partition qb table e :
  In e (from_where qb table) ->
  exists r,
    filter (same_partition (partition_by qb) e) (row_num_1 (getCte qb table)) = [r]
    /\ In r (from_where qb table)
    /\ same_partition (partition_by qb) e r = true
    /\ forall x, In x (from_where qb table) ->
                 same_partition (partition_by qb) e x = true ->
                 may_precede time_of (window_order qb) r x = true.
Proof.
  intros He.
  set (p := partition_by qb). set (rows := from_where qb table) in *.
  set (sorted := order_by time_of (window_order qb) rows).
  assert (Hin : In e sorted) by (apply order_by_In; exact He).
  destruct (find (same_partition p e) sorted) as [r|] eqn:Hfind.
  - destruct (find_sorted_first time_of (window_order qb) (same_partition p e)
                (order_by_sorted time_of (window_order qb) rows) Hfind)
      as (Hr & Hsame & Hfirst).
    exists r. repeat split.
    + apply Permutation_length_1_inv.
      eapply perm_trans; [|apply filter_perm, Permutation_sym, row_num_1_getCte].
      fold p rows sorted.
      rewrite (firsts_partition (same_partition p) (same_partition_sym p)
                 (@same_partition_trans p) e [] sorted).
      simpl. rewrite Hfind. apply Permutation_refl.
    + apply (order_by_In time_of (window_order qb)). exact Hr.
    + exact Hsame.
    + intros x Hx Hsx. apply Hfirst; [apply order_by_In; exact Hx | exact Hsx].
  - exfalso. apply (find_none _ _ Hfind) in Hin.
    rewrite same_partition_refl in Hin. discriminate.
Qed.

End LatestState.

(** ** Running a query *)

Module QueryFacts.
Import Builder.

Lemma execute_parses {A} qb (v : A) : parses qb = true -> execute qb v = inr v.
Proof. unfold execute. now intros ->. Qed.

Lemma execute_inr {A} qb (v w : A) :
  execute qb v = inr w -> parses qb = true /\ w = v.
Proof.
  unfold execute. destruct (parses qb); intros H; [|discriminate H].
  inversion H. split; reflexivity.
Qed.

Lemma execute_inl {A} qb (v : A) e :
  execute qb v = inl e -> parses qb = false /\ e = QueryFailedError.
Proof.
  unfold execute. destruct (parses qb); intros H; [discriminate H|].
  inversion H. split; reflexivity.
Qed.

Lemma getParameter_app name ps ps' :
  getParameter name (ps ++ ps')
  = match getParameter name ps with
    | Some v => Some v
    | None => getParameter name ps'
    end.
Proof.
  unfold getParameter. induction ps as [|[n v] r IH]; simpl; [reflexivity|].
  destruct (String.eqb n name); [reflexivity | exact IH].
Qed.

End QueryFacts.

(** ** C1: one latest record per pull request *)

Section LatestRecord.
Import Builder PullRequestGithubEventsService Statements.

Lemma filter_map_base (f : DbPullRequestGitHubEvents -> bool) (l : list JoinedRow) :
  filter f (map base l) = map base (filter (fun r => f (base r)) l).
Proof.
  induction l as [|a r IH]; simpl; [reflexivity|].
  destruct (f (base a)); simpl; now rewrite IH.
Qed.

(** C1, as the code has it.  Take an expression that numbers its rows
    [PARTITION BY pr_number, repo_name ORDER BY event_time DESC], as
    [basePrAuthorCteBuilder] and [baseRepoCteBuilder] do.  Every pull request
    [(pr_number, repo_name)] with an event among the windowed, filtered
    events has exactly one row numbered 1; that row is one of the
    partition's events and no event of the partition has a later
    [event_time]. *)
Theorem latest_record_is_unique_and_maximal
    (cte : SelectQueryBuilder) (table : list DbPullRequestGitHubEvents)
    (e : DbPullRequestGitHubEvents) :
  partition_by cte = pr_number_repo_name ->
  window_order cte = DESC ->
  In e (windowed_events cte table) ->
  exists r,
    filter (same_pull_request e) (latest cte table) = [r]
    /\ In r (windowed_events cte table)
    /\ pr_number r = pr_number e
    /\ repo_name r = repo_name e
    /\ forall x, In x (windowed_events cte table) ->
                 pr_number x = pr_number e -> repo_name x = repo_name e ->
                 event_time x <= event_time r.
Proof.
  intros Hp Ho He. unfold windowed_events in *.
  apply in_map_iff in He. destruct He as (row & Hbase & Hrow).
  destruct (LatestState.row_num_1_of_partition cte table row Hrow)
    as (r & Hone & Hr & Hsame & Hmax).
  rewrite Hp in Hone, Hsame, Hmax. rewrite Ho in Hmax.
  assert (Hkey : forall x, same_partition pr_number_repo_name row x
                           = same_pull_request e (base x)).
  { intros x. unfold same_partition, same_pull_request. now rewrite Hbase. }
  exists (base r). rewrite Hkey in Hsame.
  apply andb_prop in Hsame. destruct Hsame as [Hn Hrepo].
  apply Z.eqb_eq in Hn. apply String.eqb_eq in Hrepo.
  repeat split.
  - unfold latest. rewrite filter_map_base.
    rewrite <- (filter_ext _ _ Hkey). now rewrite Hone.
  - now apply in_map.
  - congruence.
  - congruence.
  - intros x Hx Hxn Hxr. apply in_map_iff in Hx. destruct Hx as (rx & <- & Hrx).
    specialize (Hmax rx Hrx). rewrite Hkey in Hmax.
    unfold same_pull_request in Hmax.
    rewrite Hxn, Hxr, Z.eqb_refl, String.eqb_refl in Hmax.
    specialize (Hmax eq_refl). unfold Sql.may_precede, time_of in Hmax. lia.
Qed.

(** The author expression keeps the events of the author in the window. *)
Lemma basePrAuthorCteBuilder_events (this : Service) (author : string)
    (range prevDays : Z) (e : DbPullRequestGitHubEvents) :
  let startDate := GetPrevDateISOString (now this) prevDays in
  In e (windowed_events (basePrAuthorCteBuilder this author range prevDays)
          (pullRequestGithubEventsRepository this))
  <-> In e (pullRequestGithubEventsRepository this)
      /\ Str.eqb_ci (pr_author_login e) author = true
      /\ startDate - range * Sql.day <= event_time e <= startDate.
Proof.
  cbv zeta. unfold windowed_events, from_where, from_join, basePrAuthorCteBuilder.
  simpl. rewrite in_map_iff. split.
  - intros (r & Hb & Hr). apply filter_In in Hr. destruct Hr as [Hr Hc].
    apply in_map_iff in Hr. destruct Hr as (e' & <- & He'). simpl in Hb. subst e'.
    simpl in Hc. unfold author_is, not_after, not_before in Hc. simpl in Hc.
    unfold Str.toLowerCase in Hc. rewrite StrFacts.LOWER_idempotent in Hc.
    rewrite !andb_true_iff, !Z.leb_le in Hc. unfold Str.eqb_ci. tauto.
  - intros (He & Ha & Hw). exists {| base := e; joined := [] |}.
    split; [reflexivity|]. apply filter_In. split.
    + apply in_map_iff. exists e. tauto.
    + simpl. unfold author_is, not_after, not_before. simpl.
      unfold Str.toLowerCase. rewrite StrFacts.LOWER_idempotent.
      rewrite !andb_true_iff, !Z.leb_le. unfold Str.eqb_ci in Ha. tauto.
Qed.

End LatestRecord.

(** The statement above at the sample: pull request 1 of [a/b] was opened
    on day 80 and updated on day 90.  Asked about the event of day 80, the
    author expression numbers the update of day 90 with 1, and no event of
    the table is later. *)
Lemma latest_record_witness :
  exists r,
    filter (Statements.same_pull_request (Sample.event 1 (80 * Sql.day) 1 "a/b" "x"))
      (Builder.latest (Sample.author_x Sample.opened_then_updated)
         Sample.opened_then_updated) = [r]
    /\ In r Sample.opened_then_updated
    /\ event_id r = 2
    /\ forall x, In x Sample.opened_then_updated -> event_time x <= event_time r.
Proof.
  destruct (latest_record_is_unique_and_maximal
              (Sample.author_x Sample.opened_then_updated)
              Sample.opened_then_updated
              (Sample.event 1 (80 * Sql.day) 1 "a/b" "x"))
    as (r & H1 & H2 & _ & _ & H5).
  - reflexivity.
  - reflexivity.
  - vm_compute. left. reflexivity.
  - exists r. split; [exact H1|].
    assert (Hr : r = Sample.event 2 (90 * Sql.day) 1 "a/b" "x").
    { vm_compute in H1. inversion H1. reflexivity. }
    split; [vm_compute; vm_compute in H2; exact H2|].
    split; [rewrite Hr; reflexivity|].
    intros x Hx. apply H5.
    + vm_compute. vm_compute in Hx. exact Hx.
    + destruct Hx as [<-|[<-|[]]]; reflexivity.
    + destruct Hx as [<-|[<-|[]]]; reflexivity.
Defined.

(** C1 as stated fails on the tie-break: the expression orders a partition
    by [event_time] alone, so of two events with the same latest
    [event_time] either one is numbered 1, depending on the order in which
    the rows reach the window function.  The two scan orders of one and the
    same pair of events select different records, and the first selects the
    lower [event_id]. *)
Lemma latest_record_tie_depends_on_scan_order :
  let cte t :=
    PullRequestGithubEventsService.basePrAuthorCteBuilder (Sample.service t) "x" 30 0 in
  Permutation [Sample.tie_1; Sample.tie_2] [Sample.tie_2; Sample.tie_1]
  /\ event_time Sample.tie_1 = event_time Sample.tie_2
  /\ Builder.latest (cte [Sample.tie_1; Sample.tie_2]) [Sample.tie_1; Sample.tie_2]
     = [Sample.tie_1]
  /\ Builder.latest (cte [Sample.tie_2; Sample.tie_1]) [Sample.tie_2; Sample.tie_1]
     = [Sample.tie_2]
  /\ event_id Sample.tie_1 = 1 /\ event_id Sample.tie_2 = 2.
Proof.
  repeat split; try reflexivity. apply perm_swap.
Qed.

(** ** C2: the item count ignores the slice *)

Section ItemCount.
Import Builder PullRequestGithubEventsService Statements QueryFacts.

Variable this : Service.

Let table := pullRequestGithubEventsRepository this.

Lemma offset_limit_beyond {A} (s l : nat) (rows : list A) :
  (List.length rows <= s)%nat -> Sql.offset_limit s l rows = [].
Proof.
  intros H. unfold Sql.offset_limit. rewrite skipn_all2 by exact H.
  destruct l; [reflexivity | apply firstn_nil].
Qed.

(** What the two queries of [execCommonTableExpression] give when the
    expression is SQL, and that they give nothing when it is not. *)
Lemma execCommonTableExpression_parses (p : PageOptionsDto) (cte : SelectQueryBuilder) :
  parses cte = true ->
  execCommonTableExpression this p cte
  = inr {| data := Sql.offset_limit (skip p) (limit p) (latest cte table);
           meta := new_PageMetaDto (List.length (latest cte table)) p |}.
Proof.
  intros H. unfold execCommonTableExpression, latest. fold table.
  rewrite !(execute_parses _ _ H). simpl. now rewrite length_map.
Qed.

Lemma execCommonTableExpression_inr (p : PageOptionsDto) (cte : SelectQueryBuilder) page :
  execCommonTableExpression this p cte = inr page ->
  parses cte = true
  /\ page = {| data := Sql.offset_limit (skip p) (limit p) (latest cte table);
               meta := new_PageMetaDto (List.length (latest cte table)) p |}.
Proof.
  intros H. destruct (parses cte) eqn:E.
  - rewrite (execCommonTableExpression_parses p _ E) in H. inversion H. now split.
  - unfold execCommonTableExpression, execute in H. rewrite E in H. discriminate H.
Qed.

Lemma execCommonTableExpression_fails (p : PageOptionsDto) (cte : SelectQueryBuilder) :
  parses cte = false ->
  execCommonTableExpression this p cte = inl QueryFailedError.
Proof.
  intros E. unfold execCommonTableExpression, execute. now rewrite E.
Qed.

Lemma author_page_fails (p : PageOptionsDto) (cte : SelectQueryBuilder) :
  parses cte = false -> author_page this p cte = inl QueryFailedError.
Proof. intros E. unfold author_page, execute. now rewrite E. Qed.

Lemma author_page_parses (p : PageOptionsDto) (cte : SelectQueryBuilder) :
  parses cte = true ->
  author_page this p cte
  = inr {| data := Sql.offset_limit (skip p) (limit p)
                     (map author_of (Sql.row_num_1 (getCte cte table)));
           meta := new_PageMetaDto (List.length (latest cte table)) p |}.
Proof.
  intros H. unfold author_page, latest. fold table.
  rewrite !(execute_parses _ _ H). simpl. now rewrite length_map.
Qed.

Lemma author_page_inr (p : PageOptionsDto) (cte : SelectQueryBuilder) page :
  author_page this p cte = inr page ->
  parses cte = true
  /\ page = {| data := Sql.offset_limit (skip p) (limit p)
                         (map author_of (Sql.row_num_1 (getCte cte table)));
               meta := new_PageMetaDto (List.length (latest cte table)) p |}.
Proof.
  intros H. destruct (parses cte) eqn:E.
  - rewrite (author_page_parses p _ E) in H. inversion H. now split.
  - unfold author_page, execute in H. rewrite E in H. discriminate H.
Qed.

Lemma searchAuthors_cte_slice s l o :
  searchAuthors_cte this (set_author_slice s l o) = searchAuthors_cte this o.
Proof. reflexivity. Qed.

Lemma author_page_itemCount (p : PageOptionsDto) (cte : SelectQueryBuilder) :
  itemCount_of (author_page this p cte)
  = if parses cte then Some (List.length (latest cte table)) else None.
Proof.
  destruct (parses cte) eqn:E.
  - now rewrite (author_page_parses p _ E).
  - unfold author_page, execute. now rewrite E.
Qed.

Lemma searchAuthors_itemCount o :
  itemCount_of (searchAuthors this o) = None
  \/ itemCount_of (searchAuthors this o)
     = Some (List.length (latest (searchAuthors_cte this o) table)).
Proof.
  unfold searchAuthors.
  destruct (negb _ && negb _ && negb _ && negb _)%bool; [now left|].
  rewrite author_page_itemCount.
  destruct (parses _); [now right | now left].
Qed.

(** C2.  When its expression is SQL, [execCommonTableExpression] returns a
    page whose metadata counts the rows numbered 1 of the whole expression:
    the count is the length of the unsliced set of which the items are the
    slice, it is the same for every [skip] and [limit] (in particular for
    [skip = 0] and any [limit]), and a [skip] beyond the set leaves no item
    and the same count.  The author search counts in the same way. *)
Theorem itemCount_is_count_of_unsliced_set
    (pageOptionsDto : PageOptionsDto) (cteBuilder : SelectQueryBuilder)
    (o : PullRequestContributorOptionsDto.t) :
  parses cteBuilder = true ->
  let unsliced := latest cteBuilder table in
  (exists page,
      execCommonTableExpression this pageOptionsDto cteBuilder = inr page
      /\ itemCount (meta page) = List.length unsliced
      /\ data page
         = Sql.offset_limit (skip pageOptionsDto) (limit pageOptionsDto) unsliced)
  /\ (forall s l,
        itemCount_of (execCommonTableExpression this (set_slice s l pageOptionsDto)
                        cteBuilder)
        = Some (List.length unsliced))
  /\ (forall s l, (List.length unsliced <= s)%nat ->
        exists page,
          execCommonTableExpression this (set_slice s l pageOptionsDto) cteBuilder
          = inr page
          /\ data page = []
          /\ itemCount (meta page) = List.length unsliced)
  /\ (forall s l,
        itemCount_of (searchAuthors this (set_author_slice s l o))
        = itemCount_of (searchAuthors this o))
  /\ (itemCount_of (searchAuthors this o) = None
      \/ itemCount_of (searchAuthors this o)
         = Some (List.length (latest (searchAuthors_cte this o) table))).
Proof.
  intros Hsql. cbv zeta.
  split; [|split; [|split; [|split]]].
  - eexists. split; [apply (execCommonTableExpression_parses _ _ Hsql)|].
    split; reflexivity.
  - intros s l. now rewrite (execCommonTableExpression_parses _ _ Hsql).
  - intros s l H. eexists.
    split; [apply (execCommonTableExpression_parses _ _ Hsql)|].
    split; [apply offset_limit_beyond; exact H | reflexivity].
  - intros s l. unfold searchAuthors. simpl.
    destruct (negb _ && negb _ && negb _ && negb _)%bool; [reflexivity|].
    now rewrite !author_page_itemCount.
  - apply searchAuthors_itemCount.
Qed.

End ItemCount.

(** The statement above at the sample: of the two pull requests of [x],
    the page at [skip = 1], [limit = 1] holds one and counts two. *)
Lemma itemCount_witness :
  exists page,
    PullRequestGithubEventsService.execCommonTableExpression
      (Sample.service Sample.two_pull_requests) (Sample.page 1 1)
      (Sample.author_x Sample.two_pull_requests)
    = inr page
    /\ itemCount (meta page) = 2%nat
    /\ List.length (data page) = 1%nat.
Proof.
  destruct (@itemCount_is_count_of_unsliced_set
              (Sample.service Sample.two_pull_requests) (Sample.page 1 1)
              (Sample.author_x Sample.two_pull_requests)
              Sample.search_by_contributor_only eq_refl)
    as ((page & H1 & H2 & H3) & _).
  exists page. split; [exact H1|].
  split; [rewrite H2 | rewrite H3]; reflexivity.
Defined.

(** ** C5: velocity *)

Module VelocityFacts.
Import Sql Statements.

Lemma to_integer_nearest (total : Z) (n : positive) :
  nearest_integer total (Zpos n) (to_integer (Qmake total n)).
Proof.
  unfold nearest_integer, to_integer, Qceiling, Qminus, Qplus, Qopp, Qfloor.
  cbn [Qnum Qden].
  replace (Zpos (n * 2)) with (2 * Zpos n) by lia.
  set (b := Zpos n) in *. assert (Hb : 0 < b) by (unfold b; lia).
  destruct (0 <=? total) eqn:Hs.
  - apply Z.leb_le in Hs.
    pose proof (Z.div_mod (total * 2 + 1 * b) (2 * b) ltac:(lia)) as Hd.
    pose proof (Z.mod_pos_bound (total * 2 + 1 * b) (2 * b) ltac:(lia)) as Hm.
    assert (Hq : 0 <= (total * 2 + 1 * b) / (2 * b)) by (apply Z.div_pos; lia).
    set (q := (total * 2 + 1 * b) / (2 * b)) in *.
    set (r := (total * 2 + 1 * b) mod (2 * b)) in *.
    rewrite (Z.abs_eq q) by exact Hq.
    replace (2 * b * q) with (2 * (q * b)) in Hd by ring.
    set (p := q * b) in *. lia.
  - apply Z.leb_gt in Hs.
    replace (- (total * 2 + - (1) * b)) with (- total * 2 + b) by lia.
    pose proof (Z.div_mod (- total * 2 + b) (2 * b) ltac:(lia)) as Hd.
    pose proof (Z.mod_pos_bound (- total * 2 + b) (2 * b) ltac:(lia)) as Hm.
    assert (Hq : 0 <= (- total * 2 + b) / (2 * b)) by (apply Z.div_pos; lia).
    set (q := (- total * 2 + b) / (2 * b)) in *.
    set (r := (- total * 2 + b) mod (2 * b)) in *.
    rewrite (Z.abs_neq (- q)) by lia.
    replace (- - q * b) with (q * b) by ring.
    replace (- q * b) with (- (q * b)) by ring.
    replace (2 * b * q) with (2 * (q * b)) in Hd by ring.
    set (p := q * b) in *. lia.
Qed.

Lemma to_integer_whole (d : Z) : to_integer (Qmake d 1) = d.
Proof.
  pose proof (to_integer_nearest d 1) as [H _]. lia.
Qed.

Lemma to_date_plus_days (t k : Z) : to_date (t + k * day) = to_date t + k.
Proof. unfold to_date, day. apply Z.div_add. lia. Qed.

End VelocityFacts.

Section Velocity.
Import Builder PullRequestGithubEventsService Statements VelocityFacts QueryFacts.

Variable this : Service.

Let table := pullRequestGithubEventsRepository this.

Lemma merged_cases_are_filter (rows : list DbPullRequestGitHubEvents) :
  flat_map (fun v : option Z => match v with Some d => [d] | None => [] end)
    (map (fun e => if pr_is_merged e then Some (days_to_merge e) else None) rows)
  = map days_to_merge (List.filter pr_is_merged rows).
Proof.
  induction rows as [|e r IH]; simpl; [reflexivity|].
  destruct (pr_is_merged e); simpl; now rewrite IH.
Qed.

Lemma velocity_of_rows (rows : list DbPullRequestGitHubEvents) :
  velocity_of rows
  = Sql.to_integer
      (Sql.COALESCE (Sql.AVG (map days_to_merge (List.filter pr_is_merged rows)))
         (inject_Z 0)).
Proof. unfold velocity_of. now rewrite merged_cases_are_filter. Qed.

Lemma rounded_average_nearest (l : list Z) :
  l <> [] ->
  nearest_integer (total_days l) (Z.of_nat (List.length l))
    (Sql.to_integer (Sql.COALESCE (Sql.AVG l) (inject_Z 0))).
Proof.
  intros Hl. destruct l as [|d r]; [congruence|].
  unfold Sql.AVG, Sql.COALESCE.
  set (n := List.length (d :: r)).
  assert (Hn : Z.of_nat n = Zpos (Pos.of_nat n)).
  { rewrite <- positive_nat_Z, Nat2Pos.id; [reflexivity | discriminate]. }
  rewrite Hn. apply to_integer_nearest.
Qed.

(** The two base expressions bind the one placeholder they have. *)
Lemma basePrAuthorCteBuilder_parses (author : string) (range prevDays : Z) :
  parses (basePrAuthorCteBuilder this author range prevDays) = true.
Proof. reflexivity. Qed.

Lemma baseRepoCteBuilder_parses (repo : string) (range prevDays : Z) :
  parses (baseRepoCteBuilder this repo range prevDays) = true.
Proof. reflexivity. Qed.

Lemma execVelocityCommonTableExpression_parses (cte : SelectQueryBuilder) :
  parses cte = true ->
  execVelocityCommonTableExpression this cte
  = inr (Sql.to_integer
           (Sql.COALESCE
              (Sql.AVG (map days_to_merge (List.filter pr_is_merged (latest cte table))))
              (inject_Z 0))).
Proof.
  intros H. unfold execVelocityCommonTableExpression. fold table.
  now rewrite (execute_parses _ _ H).
Qed.

Lemma findPrStatsByRepo_returns (repo : string) (range prevDays : Z) :
  findPrStatsByRepo this repo range prevDays
  = inr (aggregate None true
           (latest (baseRepoCteBuilder this repo range prevDays) table)).
Proof.
  unfold findPrStatsByRepo. fold table.
  now rewrite (execute_parses _ _ (baseRepoCteBuilder_parses repo range prevDays)).
Qed.

(** C5, as the code has it.  The velocity of an expression that is SQL is
    the average, over the merged rows numbered 1, of the day count between
    the creation date and the merge date, cast to an integer by rounding to
    the nearest whole day (a half goes away from zero): it is 0 when no row
    is merged, the day count itself for a single merged row, and 5 when
    that row was merged five days after its creation.  The statistics of a
    repository report the same number as its velocity, and the velocity of
    a repository and of an author always return: their expressions are
    SQL. *)
Theorem velocity_is_rounded_average (cteBuilder : SelectQueryBuilder)
    (repo author : string) (range prevDays : Z) :
  parses cteBuilder = true ->
  let merged := List.filter pr_is_merged (latest cteBuilder table) in
  exists v,
    execVelocityCommonTableExpression this cteBuilder = inr v
    /\ (merged = [] -> v = 0)
    /\ (merged <> [] ->
        nearest_integer (total_days (map days_to_merge merged))
          (Z.of_nat (List.length merged)) v)
    /\ (forall e, merged = [e] -> v = days_to_merge e)
    /\ (forall e, merged = [e] ->
          pr_merged_at e = pr_created_at e + 5 * Sql.day -> v = 5)
    /\ velocity_of (latest cteBuilder table) = v
    /\ (exists stats,
          findPrStatsByRepo this repo range prevDays = inr stats
          /\ findVelocityByRepoName this repo range prevDays = inr (pr_velocity stats))
    /\ returns (findVelocityByPrAuthor this author range prevDays).
Proof.
  intros Hsql. cbv zeta.
  eexists. split; [apply (execVelocityCommonTableExpression_parses _ Hsql)|].
  set (merged := List.filter pr_is_merged (latest cteBuilder table)).
  assert (Hone : forall e, merged = [e] ->
            Sql.to_integer (Sql.COALESCE (Sql.AVG (map days_to_merge merged)) (inject_Z 0))
            = days_to_merge e).
  { intros e ->. simpl. rewrite Z.add_0_r. apply to_integer_whole. }
  split; [|split; [|split; [|split; [|split; [|split]]]]].
  - intros ->. reflexivity.
  - intros Hne.
    pose proof (@rounded_average_nearest (map days_to_merge merged)) as H.
    rewrite length_map in H. apply H.
    destruct merged; [congruence | discriminate].
  - exact Hone.
  - intros e He Hfive. rewrite (Hone e He). unfold days_to_merge.
    rewrite Hfive, to_date_plus_days. lia.
  - apply velocity_of_rows.
  - eexists. split; [apply findPrStatsByRepo_returns|].
    unfold findVelocityByRepoName.
    rewrite (execVelocityCommonTableExpression_parses _
               (baseRepoCteBuilder_parses repo range prevDays)).
    simpl. now rewrite velocity_of_rows.
  - unfold findVelocityByPrAuthor, returns.
    rewrite (execVelocityCommonTableExpression_parses _
               (basePrAuthorCteBuilder_parses author range prevDays)).
    eauto.
Qed.

End Velocity.

(** The statement above at the sample: two pull requests of [x], merged
    one day and two days after their creation, give the velocity 2. *)
Lemma velocity_witness :
  PullRequestGithubEventsService.execVelocityCommonTableExpression
    (Sample.service Sample.merged_after_1_and_2)
    (Sample.author_x Sample.merged_after_1_and_2)
  = inr 2.
Proof.
  destruct (@velocity_is_rounded_average
              (Sample.service Sample.merged_after_1_and_2)
              (Sample.author_x Sample.merged_after_1_and_2) "a/b" "x" 30 0 eq_refl)
    as (v & Hv & _ & Hnear & _).
  rewrite Hv. f_equal.
  assert (Hne : filter pr_is_merged
                  (Builder.latest (Sample.author_x Sample.merged_after_1_and_2)
                     (PullRequestGithubEventsService.pullRequestGithubEventsRepository
                        (Sample.service Sample.merged_after_1_and_2))) <> [])
    by (vm_compute; discriminate).
  specialize (Hnear Hne). unfold Statements.nearest_integer in Hnear.
  set (total := Statements.total_days _) in Hnear.
  set (n := Z.of_nat _) in Hnear.
  assert (Ht : total = 3) by reflexivity.
  assert (Hn : n = 2) by reflexivity.
  rewrite Ht, Hn in Hnear. lia.
Defined.

(** Section 8's scenario: one pull request created on 2024-01-01 and merged
    on 2024-01-04, looked at on 2024-02-01 over 30 days, has velocity 3. *)
Example velocity_scenario :
  let created := 1704067200 in
  let merged := 1704326400 in
  let this :=
    {| PullRequestGithubEventsService.now := 1706745600;
       PullRequestGithubEventsService.pullRequestGithubEventsRepository :=
         [Sample.merged_event 1 merged 1 "a/b" "x" created merged];
       PullRequestGithubEventsService.repoService_findAllWithFilters := fun _ => [];
       PullRequestGithubEventsService.userListService_findContributorsByListId :=
         fun _ => [] |} in
  PullRequestGithubEventsService.findVelocityByPrAuthor this "x" 30 0 = inr 3.
Proof. reflexivity. Qed.

(** C5 as stated fails on the rounding: PostgreSQL's cast of the average to
    INTEGER rounds, it does not truncate.  Two pull requests merged one day
    and two days after their creation average 1.5 days; the service answers
    2, truncation gives 1. *)
Lemma velocity_rounds_and_does_not_truncate :
  let this := Sample.service Sample.merged_after_1_and_2 in
  let cte := PullRequestGithubEventsService.basePrAuthorCteBuilder this "x" 30 0 in
  map PullRequestGithubEventsService.days_to_merge
    (Builder.latest cte Sample.merged_after_1_and_2) = [2; 1]
  /\ PullRequestGithubEventsService.findVelocityByPrAuthor this "x" 30 0 = inr 2
  /\ Statements.velocity_truncated (Builder.latest cte Sample.merged_after_1_and_2) = 1.
Proof. repeat split; reflexivity. Qed.

(** ** C9: the pull-request count of an author *)

Section CountByAuthor.
Import Builder PullRequestGithubEventsService Statements.

Variable this : Service.

Let table := pullRequestGithubEventsRepository this.

Lemma filter_map_commute {A B} (g : A -> B) (f : B -> bool) (l : list A) :
  filter f (map g l) = map g (filter (fun a => f (g a)) l).
Proof.
  induction l as [|a r IH]; simpl; [reflexivity|].
  destruct (f (g a)); simpl; now rewrite IH.
Qed.

Lemma counted_rows author range prevDays e :
  In e (List.filter
          (fun e => forallb (fun c => c e)
                      (counterBaseQueryBuilder this range prevDays
                         ++ [fun e => String.eqb (Str.LOWER (pr_author_login e))
                                        (Str.LOWER (Str.toLowerCase author))]))
          table)
  <-> In e table /\ counted this author range prevDays e.
Proof.
  rewrite filter_In. unfold counted, counterBaseQueryBuilder, Str.eqb_ci, Str.toLowerCase.
  simpl. rewrite StrFacts.LOWER_idempotent, !andb_true_iff, !Z.leb_le.
  tauto.
Qed.

(** C9.  [findCountByPrAuthor] is the number of distinct [pr_number]
    values among the author's events in the window.  The repository plays
    no part: filing the events under any other repository names leaves the
    count as it is, so pull requests of different repositories that share a
    number count once. *)
Theorem count_by_author_is_distinct_pr_numbers
    (author : string) (range prevDays : Z) :
  (exists numbers,
      NoDup numbers
      /\ (forall n, In n numbers <->
                    exists e, In e table /\ counted this author range prevDays e
                              /\ pr_number e = n)
      /\ findCountByPrAuthor this author range prevDays = List.length numbers)
  /\ (forall name,
        findCountByPrAuthor (with_table (map (with_repo_name name) table) this)
          author range prevDays
        = findCountByPrAuthor this author range prevDays).
Proof.
  split.
  - unfold findCountByPrAuthor, getCount, Sql.COUNT_DISTINCT. fold table.
    eexists. split; [apply NoDup_nodup|]. split; [|reflexivity].
    intros n. rewrite nodup_In, in_map_iff. split.
    + intros (e & Hn & He). apply counted_rows in He. exists e. tauto.
    + intros (e & He & Hc & Hn). exists e. split; [exact Hn|].
      apply counted_rows. tauto.
  - intros name. unfold findCountByPrAuthor, getCount. simpl. fold table.
    rewrite filter_map_commute, map_map. reflexivity.
Qed.

End CountByAuthor.

(** Pull request 7 of [a/b] and pull request 7 of [c/d] count as one. *)
Example count_by_author_merges_repositories :
  PullRequestGithubEventsService.findCountByPrAuthor
    (Sample.service Sample.same_number_two_repos) "x" 30 0 = 1%nat.
Proof. reflexivity. Qed.

(** ** Conditions and their parameters *)

Module BuilderFacts.
Import Sql Builder SqlFacts Statements QueryFacts.

Lemma getParameter_other (n m : string) v (ps : Parameters) :
  String.eqb m n = false -> getParameter n ((m, v) :: ps) = getParameter n ps.
Proof. intros H. unfold getParameter. simpl. now rewrite H. Qed.

Lemma getParameter_same (n : string) v (ps : Parameters) :
  getParameter n ((n, v) :: ps) = Some v.
Proof. unfold getParameter. simpl. now rewrite String.eqb_refl. Qed.

(** A value given to a name changes nothing for a condition that does not
    have the name. *)
Lemma holds_other n v ps c r :
  names n c = false -> holds ((n, v) :: ps) c r = holds ps c r.
Proof.
  destruct c as [t|m t|m t]; simpl; [reflexivity| |];
    intros H; now rewrite getParameter_other by exact H.
Qed.

Lemma renders_other n v ps c :
  names n c = false -> renders ((n, v) :: ps) c = renders ps c.
Proof.
  destruct c as [t|m t|m t]; simpl; [reflexivity| |];
    intros H; now rewrite getParameter_other by exact H.
Qed.

Lemma forallb_holds_other n v ps (W : list Condition) r :
  existsb (names n) W = false ->
  forallb (fun c => holds ((n, v) :: ps) c r) W = forallb (fun c => holds ps c r) W.
Proof.
  induction W as [|c W IH]; simpl; [reflexivity|].
  intros H. apply orb_false_elim in H. destruct H as [Hc HW].
  rewrite holds_other by exact Hc. now rewrite (IH HW).
Qed.

Lemma forallb_renders_other n v ps (W : list Condition) :
  existsb (names n) W = false ->
  forallb (renders ((n, v) :: ps)) W = forallb (renders ps) W.
Proof.
  induction W as [|c W IH]; simpl; [reflexivity|].
  intros H. apply orb_false_elim in H. destruct H as [Hc HW].
  rewrite renders_other by exact Hc. now rewrite (IH HW).
Qed.

Lemma filter_andb {A} (f g : A -> bool) (l : list A) :
  filter (fun a => f a && g a) l = filter g (filter f l).
Proof.
  induction l as [|a r IH]; simpl; [reflexivity|].
  destruct (f a); simpl; [destruct (g a); now rewrite IH | exact IH].
Qed.

(** One more condition bound to a name that no earlier condition has:
    the rows kept so far, filtered once more. *)
Lemma from_where_andWhere_bind c n v qb table :
  mentions n qb = false ->
  from_where (andWhere c [(n, v)] qb) table
  = filter (holds ((n, v) :: parameters qb) c) (from_where qb table).
Proof.
  intros Hm. unfold from_where, andWhere, from_join, setParameters. simpl.
  rewrite <- filter_andb. apply filter_ext. intros r.
  rewrite forallb_app. simpl. rewrite andb_true_r.
  now rewrite forallb_holds_other by exact Hm.
Qed.

Lemma from_where_andWhere_plain t qb table :
  from_where (andWhere (plain t) [] qb) table = filter t (from_where qb table).
Proof.
  unfold from_where, andWhere, from_join, setParameters. simpl.
  rewrite <- filter_andb. apply filter_ext. intros r.
  rewrite forallb_app. simpl. now rewrite andb_true_r.
Qed.

Lemma from_where_In_andWhere_plain t qb table r :
  In r (from_where (andWhere (plain t) [] qb) table)
  <-> In r (from_where qb table) /\ t r = true.
Proof. rewrite from_where_andWhere_plain. apply filter_In. Qed.

Lemma parses_andWhere_bind c n v qb :
  mentions n qb = false ->
  parses (andWhere c [(n, v)] qb)
  = parses qb && renders ((n, v) :: parameters qb) c.
Proof.
  intros Hm. unfold parses, andWhere, setParameters. simpl.
  rewrite forallb_app. simpl. rewrite andb_true_r.
  now rewrite forallb_renders_other by exact Hm.
Qed.

Lemma parses_andWhere_plain t qb :
  parses (andWhere (plain t) [] qb) = parses qb.
Proof.
  unfold parses, andWhere, setParameters. simpl.
  rewrite forallb_app. simpl. now rewrite !andb_true_r.
Qed.

(** The same condition added twice, with two values for its one name: the
    value given last is the one both are read with. *)
Lemma from_where_andWhere_again c n v v' qb table :
  mentions n qb = false ->
  from_where (andWhere c [(n, v')] (andWhere c [(n, v)] qb)) table
  = filter (holds ((n, v') :: parameters qb) c) (from_where qb table).
Proof.
  intros Hm. unfold from_where, andWhere, from_join, setParameters. simpl.
  rewrite <- filter_andb. apply filter_ext. intros r.
  rewrite !forallb_app. simpl. rewrite !andb_true_r.
  rewrite !forallb_holds_other by exact Hm.
  assert (Hsame : holds ((n, v') :: (n, v) :: parameters qb) c r
                  = holds ((n, v') :: parameters qb) c r).
  { destruct c as [t|m t|m t]; simpl; [reflexivity| |];
      unfold getParameter; simpl; destruct (String.eqb n m); reflexivity. }
  rewrite Hsame. now rewrite <- andb_assoc, andb_diag.
Qed.


Lemma mentions_andWhere n c ps qb :
  mentions n (andWhere c ps qb) = mentions n qb || names n c.
Proof.
  unfold mentions, andWhere. simpl. rewrite existsb_app. simpl.
  now rewrite orb_false_r.
Qed.

Lemma offset_limit_In {A} (s l : nat) (rows : list A) x :
  In x (offset_limit s l rows) -> In x rows.
Proof.
  unfold offset_limit. intros H.
  rewrite <- (firstn_skipn s rows). apply in_or_app. right.
  destruct l as [|l]; [exact H|].
  rewrite <- (firstn_skipn (S l) (skipn s rows)). apply in_or_app. now left.
Qed.

(** A row numbered 1 is one of the rows the expression keeps. *)
Lemma latest_In qb table e :
  In e (latest qb table) -> In e (windowed_events qb table).
Proof.
  unfold latest, windowed_events. rewrite !in_map_iff.
  intros (r & Hb & Hr). exists r. split; [exact Hb|].
  apply (Permutation_in _ (LatestState.row_num_1_getCte qb table)) in Hr.
  apply firsts_In in Hr. now apply order_by_In in Hr.
Qed.

Lemma IN_In (x : string) (values : list (option string)) :
  IN x values = true <-> In (Some x) values.
Proof.
  unfold IN. rewrite existsb_exists. split.
  - intros ([y|] & Hy & He); simpl in He; [|discriminate He].
    apply String.eqb_eq in He. now subst.
  - intros H. eexists. split; [exact H|]. simpl. apply String.eqb_refl.
Qed.

Lemma IN_Some (x : string) (values : list string) :
  IN x (map Some values) = true <-> In x values.
Proof.
  rewrite IN_In, in_map_iff. split.
  - intros (y & Hy & Hin). inversion Hy. now subst.
  - intros H. exists x. now split.
Qed.

End BuilderFacts.

(** ** The criteria of the listing, the histogram and the author search *)

Section Criteria.
Import Sql Builder PullRequestGithubEventsService Statements BuilderFacts QueryFacts.

Variable this : Service.

Let table := pullRequestGithubEventsRepository this.

Lemma applies_iff x (P Q : string -> Prop) :
  (forall s, P s <-> Q s) -> applies x P <-> applies x Q.
Proof.
  intros H. unfold applies. destruct x as [s|]; [|tauto]. rewrite (H s). tauto.
Qed.

Lemma mentions_when_set n x c (ps : string -> Parameters) qb :
  names n c = false -> mentions n qb = false ->
  mentions n (when_set x (fun s => andWhere c (ps s)) qb) = false.
Proof.
  intros Hc Hq. unfold when_set. destruct x as [s|]; [|exact Hq].
  destruct (Str.truthy (Some s)); [|exact Hq].
  now rewrite mentions_andWhere, Hc, Hq.
Qed.

Lemma mentions_when_filter_or_topic n filter topic range qb :
  String.eqb n "repoNames" = false -> mentions n qb = false ->
  mentions n (when_filter_or_topic this filter topic range qb) = false.
Proof.
  intros Hn Hq. unfold when_filter_or_topic.
  destruct (Str.truthy filter || Str.truthy topic)%bool; [|exact Hq].
  rewrite mentions_andWhere, Hq. simpl. exact Hn.
Qed.

Ltac no_mention :=
  unfold when_contributor, when_repo, when_repoIds;
  repeat first
    [ reflexivity
    | apply mentions_when_set; [reflexivity|]
    | apply mentions_when_filter_or_topic; [reflexivity|] ].

(** [if (x) andWhere(text with :name, { name: g(x) })] *)
Lemma rows_when_scalar x n t (g : string -> string) qb tbl r :
  mentions n qb = false ->
  In r (from_where
          (when_set x (fun s => andWhere (with_scalar n t) [(n, text (g s))]) qb) tbl)
  <-> In r (from_where qb tbl) /\ applies x (fun s => t (g s) r = true).
Proof.
  intros Hm. unfold when_set, applies. destruct x as [s|]; [|tauto].
  destruct (Str.truthy (Some s)).
  - rewrite from_where_andWhere_bind by exact Hm. rewrite filter_In.
    cbn [holds renders]. rewrite getParameter_same. cbn iota beta. tauto.
  - split; [intros H; split; [exact H | discriminate] | tauto].
Qed.


(** [if (x) andWhere(text with :...name, { name: g(x) })] *)
Lemma rows_when_spread x n t (g : string -> list (option string)) qb tbl r :
  mentions n qb = false ->
  In r (from_where
          (when_set x (fun s => andWhere (with_spread n t) [(n, array (g s))]) qb) tbl)
  <-> In r (from_where qb tbl) /\ applies x (fun s => t (g s) r = true).
Proof.
  intros Hm. unfold when_set, applies. destruct x as [s|]; [|tauto].
  destruct (Str.truthy (Some s)).
  - rewrite from_where_andWhere_bind by exact Hm. rewrite filter_In.
    cbn [holds renders]. rewrite getParameter_same. cbn iota beta. tauto.
  - split; [intros H; split; [exact H | discriminate] | tauto].
Qed.

Lemma parses_when_spread x n t (g : string -> list (option string)) qb :
  mentions n qb = false ->
  parses (when_set x (fun s => andWhere (with_spread n t) [(n, array (g s))]) qb) = true
  <-> parses qb = true /\ applies x (fun s => g s <> []).
Proof.
  intros Hm. unfold when_set, applies. destruct x as [s|]; [|tauto].
  destruct (Str.truthy (Some s)).
  - rewrite parses_andWhere_bind by exact Hm. rewrite andb_true_iff.
    cbn [holds renders]. rewrite getParameter_same. cbn iota beta.
    destruct (g s); split; intros [H1 H2]; split; auto; try discriminate.
    exfalso. now apply H2.
  - split; [intros H; split; [exact H | discriminate] | tauto].
Qed.

Lemma map_Some_nonempty (l : list string) : l <> [] -> map Some l <> [].
Proof. destruct l; [congruence | discriminate]. Qed.

Lemma rows_when_contributor x qb tbl r :
  mentions "author" qb = false ->
  In r (from_where (when_contributor x qb) tbl)
  <-> In r (from_where qb tbl) /\ applies x (fun a => author_is a r = true).
Proof. apply (@rows_when_scalar x "author" author_is (fun a => a)). Qed.


Lemma rows_when_repo x qb tbl r :
  mentions "repoNames" qb = false ->
  In r (from_where (when_repo x qb) tbl)
  <-> In r (from_where qb tbl)
      /\ applies x (fun s => In (Str.LOWER (repo_name (base r)))
                               (Str.split Str.comma (Str.LOWER s))).
Proof.
  intros Hm. unfold when_repo.
  rewrite (@rows_when_spread x "repoNames" repo_name_in
             (fun s => map Some (Str.split Str.comma (Str.toLowerCase s)))) by exact Hm.
  rewrite (applies_iff x _
             (fun s => In (Str.LOWER (repo_name (base r)))
                         (Str.split Str.comma (Str.LOWER s))))
    by (intros s; apply IN_Some).
  reflexivity.
Qed.

Lemma parses_when_repo x qb :
  mentions "repoNames" qb = false -> parses (when_repo x qb) = parses qb.
Proof.
  intros Hm. unfold when_repo.
  destruct (parses qb) eqn:E.
  - apply (@parses_when_spread x "repoNames" repo_name_in
             (fun s => map Some (Str.split Str.comma (Str.toLowerCase s))) _ Hm).
    split; [exact E|]. unfold applies.
    destruct x as [s|]; [|exact I]. intros _.
    apply map_Some_nonempty, StrFacts.split_nonempty.
  - destruct (parses (when_set _ _ _)) eqn:E'; [|reflexivity].
    apply (@parses_when_spread x "repoNames" repo_name_in
             (fun s => map Some (Str.split Str.comma (Str.toLowerCase s))) _ Hm) in E'.
    destruct E' as [E' _]. congruence.
Qed.

Lemma rows_when_repoIds x qb tbl r :
  mentions "repoIds" qb = false ->
  In r (from_where (when_repoIds x qb) tbl)
  <-> In r (from_where qb tbl)
      /\ applies x (fun s => In (repo_id (base r)) (Str.split Str.comma s)).
Proof.
  intros Hm. unfold when_repoIds.
  rewrite (@rows_when_spread x "repoIds" repo_id_in
             (fun s => map Some (Str.split Str.comma s))) by exact Hm.
  rewrite (applies_iff x _
             (fun s => In (repo_id (base r)) (Str.split Str.comma s)))
    by (intros s; apply IN_Some).
  reflexivity.
Qed.


(** The two conditions on the repository name.  Both are the text
    [LOWER(repo_name) IN (:...repoNames)]; when the request names
    repositories, their names are the value of [repoNames] for both, and
    the repositories found for the filter or topic are not looked at. *)
Lemma rows_when_names filter topic range repo qb tbl r :
  mentions "repoNames" qb = false ->
  In r (from_where
          (when_repo repo (when_filter_or_topic this filter topic range qb)) tbl)
  <-> In r (from_where qb tbl)
      /\ ((Str.truthy filter || Str.truthy topic)%bool = true ->
          Str.truthy repo = false ->
          In (Str.LOWER (repo_name (base r)))
            (map Str.LOWER
               (repoService_findAllWithFilters this
                  {| search_filter := filter; search_topic := topic;
                     search_limit := 50; search_skip := 0;
                     search_range := range |})))
      /\ applies repo (fun s => In (Str.LOWER (repo_name (base r)))
                                  (Str.split Str.comma (Str.LOWER s))).
Proof.
  intros Hm. unfold when_filter_or_topic.
  destruct (Str.truthy filter || Str.truthy topic)%bool.
  - unfold when_repo, when_set, applies. destruct repo as [s|].
    + destruct (Str.truthy (Some s)).
      * rewrite from_where_andWhere_again by exact Hm. rewrite filter_In.
        cbn [holds renders]. rewrite getParameter_same. cbn iota beta. unfold repo_name_in.
        rewrite IN_Some. split; [|tauto].
        intros [H1 H2]. split; [exact H1|]. split; [discriminate | tauto].
      * rewrite from_where_andWhere_bind by exact Hm. rewrite filter_In.
        cbn [holds renders]. rewrite getParameter_same. cbn iota beta. unfold repo_name_in.
        rewrite IN_Some. unfold Str.toLowerCase. split.
        -- intros [H1 H2]. split; [exact H1|]. split; [tauto | discriminate].
        -- intros (H1 & H2 & _). split; [exact H1 | now apply H2].
    + rewrite from_where_andWhere_bind by exact Hm. rewrite filter_In.
      cbn [holds renders]. rewrite getParameter_same. cbn iota beta. unfold repo_name_in.
      rewrite IN_Some. unfold Str.toLowerCase. split.
      * intros [H1 H2]. split; [exact H1|]. split; [tauto | exact I].
      * intros (H1 & H2 & _). split; [exact H1 | now apply H2].
  - rewrite rows_when_repo by exact Hm. split.
    + intros [H1 H2]. split; [exact H1|]. split; [discriminate | exact H2].
    + tauto.
Qed.


(** The window: the two conditions every expression starts with. *)
Lemma window_rows p d (o : option OrderDirectionEnum) startDate days tbl r :
  In r (from_where
          {| partition_by := p; window_order := d; joins := [];
             wheres := [plain (not_after startDate); plain (not_before startDate days)];
             parameters := []; order := o |} tbl)
  <-> (exists e, In e tbl /\ r = {| base := e; joined := [] |})
      /\ startDate - days * day <= event_time (base r) <= startDate.
Proof.
  unfold from_where, from_join. simpl.
  rewrite filter_In, in_map_iff, andb_true_r, andb_true_iff.
  unfold not_after, not_before. rewrite !Z.leb_le.
  split; intros [(e & H1 & H2) Hc]; (split; [exists e; split; congruence | lia]).
Qed.

Lemma findAllWithFilters_rows (o : PullRequestPageOptionsDto.t) (r : JoinedRow) :
  In r (from_where (findAllWithFilters_cte this o) table)
  <-> (exists e, In e table /\ r = {| base := e; joined := [] |})
      /\ listing_criteria this o (base r).
Proof.
  unfold findAllWithFilters_cte, listing_criteria.
  rewrite (@rows_when_scalar (PullRequestPageOptionsDto.status o) "status" state_is
             (fun s => s)) by no_mention.
  rewrite (@rows_when_spread (PullRequestPageOptionsDto.listId o) "userNames" author_in
             (fun listId =>
                map (option_map Str.toLowerCase)
                  (userListService_findContributorsByListId this listId)))
    by no_mention.
  rewrite rows_when_repoIds by no_mention.
  rewrite rows_when_names by no_mention.
  rewrite rows_when_contributor by no_mention.
  unfold andWhere, where_, orderBy, createQueryBuilder, setParameters. simpl.
  rewrite window_rows.
  unfold state_is, author_is, author_in, Str.toLowerCase.
  rewrite (applies_iff (PullRequestPageOptionsDto.status o)
             (fun s => String.eqb (pr_state (base r)) (Str.LOWER s) = true)
             (fun s => pr_state (base r) = Str.LOWER s))
    by (intros s; apply String.eqb_eq).
  rewrite (applies_iff (PullRequestPageOptionsDto.listId o) _
             (fun s => In (Some (Str.LOWER (pr_author_login (base r))))
                         (map (option_map Str.LOWER)
                            (userListService_findContributorsByListId this s))))
    by (intros s; apply IN_In).
  unfold Str.eqb_ci. tauto.
Qed.






Lemma findAuthorsWithFilters_cte_parses
    (o : PullRequestContributorInsightsDto.t) (contribType : string) :
  parses (findAuthorsWithFilters_cte this o contribType) = true.
Proof.
  unfold findAuthorsWithFilters_cte.
  rewrite parses_when_repo.
  - destruct (String.eqb contribType "active"); [reflexivity|].
    destruct (String.eqb contribType "new"); [reflexivity|].
    destruct (String.eqb contribType "alumni"); reflexivity.
  - destruct (String.eqb contribType "active"); [reflexivity|].
    destruct (String.eqb contribType "new"); [reflexivity|].
    destruct (String.eqb contribType "alumni"); reflexivity.
Qed.

(** The events the expression of the listing keeps. *)
Lemma findAllWithFilters_events (o : PullRequestPageOptionsDto.t)
    (e : DbPullRequestGitHubEvents) :
  In e (windowed_events (findAllWithFilters_cte this o) table)
  <-> In e table /\ listing_criteria this o e.
Proof.
  unfold windowed_events. rewrite in_map_iff. split.
  - intros (r & Hb & Hr). apply findAllWithFilters_rows in Hr.
    destruct Hr as [(e' & He' & ->) Hc]. simpl in *. subst e'. tauto.
  - intros [He Hc]. exists {| base := e; joined := [] |}. split; [reflexivity|].
    apply findAllWithFilters_rows. split; [exists e; tauto | exact Hc].
Qed.

(** The items of a page are rows numbered 1, hence events the expression
    keeps. *)
Lemma page_items_are_kept (p : PageOptionsDto) (cte : SelectQueryBuilder)
    (e : DbPullRequestGitHubEvents) :
  In e (data_of (execCommonTableExpression this p cte)) ->
  In e (windowed_events cte table).
Proof.
  destruct (parses cte) eqn:E.
  - rewrite (execCommonTableExpression_parses this p _ E). simpl.
    intros H. apply offset_limit_In in H. now apply latest_In.
  - rewrite (execCommonTableExpression_fails this p _ E). simpl. tauto.
Qed.

End Criteria.

(** ** C7: the status filter *)

Section StatusFilter.
Import Builder PullRequestGithubEventsService Statements.

Variable this : Service.

Let table := pullRequestGithubEventsRepository this.

Lemma listing_criteria_status (c : ascii) (rest : string)
    (o : PullRequestPageOptionsDto.t) (e : DbPullRequestGitHubEvents) :
  listing_criteria this (with_status (Some (String c rest)) o) e
  <-> listing_criteria this (with_status None o) e
      /\ pr_state e = Str.LOWER (String c rest).
Proof.
  unfold listing_criteria, with_status, applies. simpl.
  split.
  - intros (H1 & H2 & H3 & H4 & H5 & H6 & H7).
    pose proof (H7 eq_refl) as H8. tauto.
  - intros [(H1 & H2 & H3 & H4 & H5 & H6 & _) H7].
    assert (H8 : true = true -> pr_state e = Str.LOWER (String c rest))
      by (intros _; exact H7).
    tauto.
Qed.

(** C7, as the code has it.  With a status given, the listing keeps an
    event exactly when the other criteria keep it and its stored [pr_state]
    is, letter for letter, the lower-cased status: the comparison forgives
    the case of the status supplied, not the case of the state stored.
    Every item of the page has that state. *)
Theorem status_filter_compares_with_lowered_status
    (c : ascii) (rest : string) (o : PullRequestPageOptionsDto.t)
    (e : DbPullRequestGitHubEvents) :
  let status := String c rest in
  (In e (windowed_events (findAllWithFilters_cte this (with_status (Some status) o)) table)
   <-> In e (windowed_events (findAllWithFilters_cte this (with_status None o)) table)
       /\ pr_state e = Str.LOWER status)
  /\ (In e (data_of (findAllWithFilters this (with_status (Some status) o))) ->
      pr_state e = Str.LOWER status).
Proof.
  cbv zeta.
  assert (Hiff :
    In e (windowed_events
            (findAllWithFilters_cte this (with_status (Some (String c rest)) o)) table)
    <-> In e (windowed_events (findAllWithFilters_cte this (with_status None o)) table)
        /\ pr_state e = Str.LOWER (String c rest)).
  { unfold table. rewrite !findAllWithFilters_events, listing_criteria_status. tauto. }
  split; [exact Hiff|].
  intros Hin. unfold findAllWithFilters in Hin.
  apply page_items_are_kept in Hin. now apply Hiff in Hin.
Qed.

End StatusFilter.

(** C7 as stated fails on the stored side: only the supplied status is
    lower-cased.  An event stored with state [OPEN] equals the status [open]
    up to letter case, is kept without a status, and is dropped with it. *)
Lemma status_filter_is_case_sensitive_on_stored_state :
  let this := Sample.service [Sample.capital_state] in
  Str.eqb_ci (pr_state Sample.capital_state) "open" = true
  /\ (exists page,
        PullRequestGithubEventsService.findAllWithFilters this (Sample.listing None)
        = inr page
        /\ data page = [Sample.capital_state])
  /\ (exists page,
        PullRequestGithubEventsService.findAllWithFilters this
          (Sample.listing (Some "open"))
        = inr page
        /\ data page = []).
Proof.
  split; [reflexivity|].
  split; eexists; (split; [reflexivity|]); reflexivity.
Qed.

(** ** C8: requests without a scoping criterion *)

Section MissingCriteria.
Import Statements.

Variable this : PullRequestGithubEventsService.Service.
Variable forks : ForkGithubEventsService.Service.

Lemma some_supplied_negb5 a b c d e :
  (negb (Str.truthy a) && negb (Str.truthy b) && negb (Str.truthy c)
   && negb (Str.truthy d) && negb (Str.truthy e))%bool
  = negb (some_supplied [a; b; c; d; e]).
Proof.
  unfold some_supplied. simpl.
  destruct (Str.truthy a), (Str.truthy b), (Str.truthy c), (Str.truthy d),
    (Str.truthy e); reflexivity.
Qed.

Lemma some_supplied_negb4 a b c d :
  (negb (Str.truthy a) && negb (Str.truthy b) && negb (Str.truthy c)
   && negb (Str.truthy d))%bool
  = negb (some_supplied [a; b; c; d]).
Proof.
  unfold some_supplied. simpl.
  destruct (Str.truthy a), (Str.truthy b), (Str.truthy c), (Str.truthy d); reflexivity.
Qed.

Lemma execute_is_no_validation_error {A} qb (v : A) :
  ~ is_validation_error (Builder.execute qb v).
Proof.
  unfold is_validation_error, Builder.execute.
  destruct (Builder.parses qb); intros [m H]; discriminate H.
Qed.

Lemma author_page_is_no_validation_error p qb :
  ~ is_validation_error (PullRequestGithubEventsService.author_page this p qb).
Proof.
  unfold is_validation_error, PullRequestGithubEventsService.author_page,
    Builder.execute.
  destruct (Builder.parses qb); simpl; intros [m H]; discriminate H.
Qed.

(** C8, as the code has it.  The pull-request histogram and the fork
    histogram raise the validation error exactly when none of contributor,
    repo, topic, filter and repoIds is supplied; the author search raises it
    exactly when none of repos, repoIds, topic and filter is supplied, a
    contributor not counting.  With one of its criteria supplied a query
    raises no validation error. *)
Theorem validation_error_iff_no_criterion
    (h : PullRequestHistogramDto.t) (f : ForksHistogramDto.t)
    (a : PullRequestContributorOptionsDto.t) :
  let h_criteria :=
    [PullRequestHistogramDto.contributor h; PullRequestHistogramDto.repo h;
     PullRequestHistogramDto.topic h; PullRequestHistogramDto.filter h;
     PullRequestHistogramDto.repoIds h] in
  let f_criteria :=
    [ForksHistogramDto.contributor f; ForksHistogramDto.repo f;
     ForksHistogramDto.topic f; ForksHistogramDto.filter f;
     ForksHistogramDto.repoIds f] in
  let a_criteria :=
    [PullRequestContributorOptionsDto.repos a; PullRequestContributorOptionsDto.repoIds a;
     PullRequestContributorOptionsDto.topic a; PullRequestContributorOptionsDto.filter a] in
  (is_validation_error (PullRequestGithubEventsService.genPrHistogram this h)
   <-> some_supplied h_criteria = false)
  /\ (is_validation_error (ForkGithubEventsService.genForkHistogram forks f)
      <-> some_supplied f_criteria = false)
  /\ (is_validation_error (PullRequestGithubEventsService.searchAuthors this a)
      <-> some_supplied a_criteria = false)
  /\ (some_supplied h_criteria = true ->
      ~ is_validation_error (PullRequestGithubEventsService.genPrHistogram this h))
  /\ (some_supplied f_criteria = true ->
      ~ is_validation_error (ForkGithubEventsService.genForkHistogram forks f))
  /\ (some_supplied a_criteria = true ->
      ~ is_validation_error (PullRequestGithubEventsService.searchAuthors this a)).
Proof.
  cbv zeta.
  assert (Hh : is_validation_error (PullRequestGithubEventsService.genPrHistogram this h)
               <-> some_supplied
                     [PullRequestHistogramDto.contributor h; PullRequestHistogramDto.repo h;
                      PullRequestHistogramDto.topic h; PullRequestHistogramDto.filter h;
                      PullRequestHistogramDto.repoIds h] = false).
  { unfold PullRequestGithubEventsService.genPrHistogram.
    rewrite some_supplied_negb5.
    match goal with |- context [negb (some_supplied ?l)] => destruct (some_supplied l) end; simpl; split.
    - intros H. exfalso. exact (execute_is_no_validation_error _ _ H).
    - intros H. discriminate H.
    - reflexivity.
    - intros _. eexists. reflexivity. }
  assert (Hf : is_validation_error (ForkGithubEventsService.genForkHistogram forks f)
               <-> some_supplied
                     [ForksHistogramDto.contributor f; ForksHistogramDto.repo f;
                      ForksHistogramDto.topic f; ForksHistogramDto.filter f;
                      ForksHistogramDto.repoIds f] = false).
  { unfold ForkGithubEventsService.genForkHistogram, is_validation_error.
    rewrite some_supplied_negb5.
    match goal with |- context [negb (some_supplied ?l)] => destruct (some_supplied l) end; simpl; [|split; eauto].
    split; [|intros H; discriminate H].
    destruct (ForksHistogramDto.repo f); cbv beta iota; intros [m H];
      discriminate H. }
  assert (Ha : is_validation_error (PullRequestGithubEventsService.searchAuthors this a)
               <-> some_supplied
                     [PullRequestContributorOptionsDto.repos a;
                      PullRequestContributorOptionsDto.repoIds a;
                      PullRequestContributorOptionsDto.topic a;
                      PullRequestContributorOptionsDto.filter a] = false).
  { unfold PullRequestGithubEventsService.searchAuthors.
    rewrite some_supplied_negb4.
    match goal with |- context [negb (some_supplied ?l)] => destruct (some_supplied l) end; simpl; split.
    - intros H. exfalso. exact (author_page_is_no_validation_error _ _ H).
    - intros H. discriminate H.
    - reflexivity.
    - intros _. eexists. reflexivity. }
  split; [exact Hh|]. split; [exact Hf|]. split; [exact Ha|].
  split; [|split]; intros Hs Hv.
  - apply Hh in Hv. congruence.
  - apply Hf in Hv. congruence.
  - apply Ha in Hv. congruence.
Qed.

End MissingCriteria.

(** C8 as stated fails where a contributor is the only criterion: the
    author search does not count it and raises the validation error.  (The
    fork histogram passes its guard there and then fails on the absent
    repo.) *)
Lemma contributor_alone_does_not_scope_the_author_search :
  Statements.some_supplied
    [PullRequestContributorOptionsDto.contributor Sample.search_by_contributor_only] = true
  /\ PullRequestGithubEventsService.searchAuthors (Sample.service [])
       Sample.search_by_contributor_only
     = inl (BadRequestException "must provide repo, repoIds, topic, filter")
  /\ Statements.some_supplied
       [ForksHistogramDto.contributor Sample.forks_by_contributor_only] = true
  /\ ForkGithubEventsService.genForkHistogram (Sample.fork_service [])
       Sample.forks_by_contributor_only
     = inl TypeError.
Proof. repeat split; reflexivity. Qed.

(** ** C10: recent contributors come as one page *)

Module DistinctFacts.
Import Sql.

Lemma mem_In (x : string) (l : list string) : Str.mem x l = true <-> In x l.
Proof.
  unfold Str.mem. rewrite existsb_exists. split.
  - intros (y & Hy & He). apply String.eqb_eq in He. now subst.
  - intros H. exists x. split; [exact H | apply String.eqb_refl].
Qed.

Lemma DISTINCT_In (x : string) (l : list string) : In x (DISTINCT l) <-> In x l.
Proof.
  induction l as [|a r IH]; simpl; [tauto|].
  rewrite filter_In, IH, negb_true_iff, String.eqb_neq.
  destruct (String.eqb_spec a x); intuition congruence.
Qed.

Lemma DISTINCT_NoDup (l : list string) : NoDup (DISTINCT l).
Proof.
  induction l as [|a r IH]; simpl; constructor.
  - rewrite filter_In, String.eqb_refl. intros [_ H]. discriminate H.
  - now apply NoDup_filter.
Qed.

End DistinctFacts.

Section RecentContributors.
Import PullRequestService Statements DistinctFacts.

Variable this : Service.

Lemma getRawMany_In (q : RangeQuery) (login : string) :
  In login (getRawMany this q) <->
  exists pr,
    In pr (pull_requests this)
    /\ (exists repo, In repo (PullRequestService.repos this)
                     /\ id repo = pull_request_repo_id pr
                     /\ In (id repo) (repoIds q))
    /\ start_date q - end_range q * Sql.day <= updated_at pr
         < start_date q - start_range q * Sql.day
    /\ author_login pr <> ""
    /\ author_login pr = login.
Proof.
  unfold getRawMany. rewrite DISTINCT_In, in_map_iff. split.
  - intros ([pr repo] & Hl & Hin). simpl in Hl.
    apply filter_In in Hin. destruct Hin as [Hj Hk]. simpl in Hk.
    apply in_flat_map in Hj. destruct Hj as (pr' & Hpr & Hm).
    apply in_map_iff in Hm. destruct Hm as (repo' & Heq & Hrepo).
    inversion Heq; subst pr' repo'. clear Heq.
    apply filter_In in Hrepo. destruct Hrepo as [Hrepo Hid].
    apply String.eqb_eq in Hid.
    rewrite !andb_true_iff, Z.leb_le, Z.ltb_lt, negb_true_iff, String.eqb_neq, mem_In in Hk.
    exists pr. repeat split; try tauto. exists repo. repeat split; try tauto. congruence.
  - intros (pr & Hpr & (repo & Hrepo & Hid & Hids) & Hw & Hne & Hl).
    exists (pr, repo). split; [exact Hl|].
    apply filter_In. split.
    + apply in_flat_map. exists pr. split; [exact Hpr|].
      apply in_map. apply filter_In. split; [exact Hrepo|].
      apply String.eqb_eq. congruence.
    + simpl.
      rewrite !andb_true_iff, Z.leb_le, Z.ltb_lt, negb_true_iff, String.eqb_neq, mem_In.
      tauto.
Qed.

(** C10.  [findAllRecentContributors] never looks at the caller's [skip]
    and [limit].  Without repo ids it raises the validation error; with
    them it returns one page whose items are, each once, the authors of the
    pull requests matched in the current window, and whose metadata is built
    with [limit] replaced by the number of items and [skip] by 0. *)
Theorem recent_contributors_are_one_page (o : PullRequestContributorInsightsDto.t) :
  (forall s l,
     findAllRecentContributors this (set_insights_slice s l o)
     = findAllRecentContributors this o)
  /\ (PullRequestContributorInsightsDto.repoIds o = None ->
      is_validation_error (findAllRecentContributors this o))
  /\ (forall ids, PullRequestContributorInsightsDto.repoIds o = Some ids ->
      exists page,
        findAllRecentContributors this o = inr page
        /\ NoDup (data page)
        /\ (forall login,
              In login (data page) <->
              exists pr, recent_contribution this o (Str.split Str.comma ids) pr
                         /\ author_login pr = login)
        /\ itemCount (meta page) = List.length (data page)
        /\ meta_limit (meta page) = List.length (data page)
        /\ meta_skip (meta page) = 0%nat).
Proof.
  split; [|split].
  - intros s l. reflexivity.
  - intros Hnone. unfold findAllRecentContributors. rewrite Hnone. simpl.
    eexists. reflexivity.
  - intros ids Hids. unfold findAllRecentContributors. rewrite Hids.
    unfold getContributorRangeQueryBuilder.
    destruct (Str.split Str.comma ids) as [|i rest] eqn:Hsplit.
    { destruct ids as [|c r]; simpl in Hsplit; [discriminate|].
      destruct (Ascii.eqb c Str.comma); [discriminate|].
      destruct (Str.split Str.comma r); discriminate. }
    simpl. eexists. split; [reflexivity|]. simpl.
    split; [apply DISTINCT_NoDup|]. split; [|repeat split].
    intros login. rewrite getRawMany_In. unfold recent_contribution. simpl.
    rewrite Z.sub_0_r.
    split; intros (pr & H); exists pr; tauto.
Qed.

End RecentContributors.

(** At the sample, whatever slice is asked for, the two authors come back
    as one page that says [limit = 2], [skip = 0]. *)
Example recent_contributors_sample :
  PullRequestService.findAllRecentContributors Sample.api_service (Sample.insights 5 1)
  = inr {| data := ["x"; "y"];
           meta := {| itemCount := 2; meta_limit := 2; meta_skip := 0 |} |}.
Proof. reflexivity. Qed.

(** ** C6: histogram buckets *)

Module GroupFacts.
Import Sql SqlFacts.

Section Groups.
Context {A : Type}.
Variable key : A -> Z.
Variable dir : OrderDirectionEnum.
Variable rows : list A.

Let groups := order_by fst dir (GROUP_BY key rows).

Lemma GROUP_BY_keys : map fst (GROUP_BY key rows) = nodup Z.eq_dec (map key rows).
Proof.
  unfold GROUP_BY. rewrite map_map. simpl. apply map_id.
Qed.

Lemma groups_NoDup : NoDup (map fst groups).
Proof.
  apply (Permutation_NoDup (l := map fst (GROUP_BY key rows))).
  - apply Permutation_map, order_by_perm.
  - rewrite GROUP_BY_keys. apply NoDup_nodup.
Qed.

Lemma groups_In (g : Z * list A) :
  In g groups <->
  (exists r, In r rows /\ key r = fst g)
  /\ snd g = filter (fun r => key r =? fst g) rows.
Proof.
  unfold groups. rewrite order_by_In. unfold GROUP_BY.
  rewrite in_map_iff. split.
  - intros (k & <- & Hk). simpl. apply nodup_In, in_map_iff in Hk.
    destruct Hk as (r & Hr & Hin). split; [exists r; tauto | reflexivity].
  - intros [(r & Hr & Hk) Hs]. exists (fst g). split.
    + rewrite <- Hs. now destruct g.
    + apply nodup_In, in_map_iff. exists r. tauto.
Qed.

End Groups.

Lemma NoDup_map_eq {A B} (f : A -> B) (l : list A) a b :
  NoDup (map f l) -> In a l -> In b l -> f a = f b -> a = b.
Proof.
  induction l as [|x r IH]; simpl; [tauto|].
  intros Hnd Ha Hb Hf. inversion Hnd as [|? ? Hx Hr]; subst.
  destruct Ha as [<-|Ha], Hb as [<-|Hb]; auto.
  - exfalso. apply Hx. rewrite Hf. now apply in_map.
  - exfalso. apply Hx. rewrite <- Hf. now apply in_map.
Qed.

Lemma NoDup_map_Some (l : list Z) : NoDup l -> NoDup (map Some l).
Proof.
  induction 1 as [|x r Hx Hr IH]; simpl; constructor; [|exact IH].
  rewrite in_map_iff. intros (y & Hy & Hin). inversion Hy; subst. contradiction.
Qed.

Lemma time_bucket_on_grid (width t : Z) :
  0 < width -> Statements.on_origin_grid width (time_bucket width t) t.
Proof.
  intros Hw. unfold Statements.on_origin_grid, time_bucket.
  assert (Hd : 0 < width * day) by (unfold day; lia).
  set (d := width * day) in *. set (o := time_bucket_origin).
  pose proof (Z.div_mod (t - o) d ltac:(lia)) as Hdm.
  pose proof (Z.mod_pos_bound (t - o) d Hd) as Hm.
  split.
  - exists ((t - o) / d). ring.
  - lia.
Qed.

End GroupFacts.

Section Histogram.
Import Sql Builder Statements GroupFacts.

Variable this : PullRequestGithubEventsService.Service.
Variable forks : ForkGithubEventsService.Service.

Let table := PullRequestGithubEventsService.pullRequestGithubEventsRepository this.

(** C6, as the code has it.  The buckets of a histogram have pairwise
    different keys.  Every deduplicated record is counted in exactly one
    bucket, the one whose key is [time_bucket] of its [event_time], and
    every bucket holds such a record; the fork histogram does the same with
    buckets of one day.  A key is the start of a bucket on the grid of the
    given width that passes through TimescaleDB's fixed origin: the window
    start does not enter it. *)
Theorem histogram_buckets_are_disjoint_and_on_the_origin_grid
    (options : PullRequestHistogramDto.t)
    (buckets : list DbPullRequestGitHubEventsHistogram)
    (f : ForksHistogramDto.t) (fork_buckets : list DbForkGitHubEventsHistogram) :
  PullRequestGithubEventsService.genPrHistogram this options = inr buckets ->
  ForkGithubEventsService.genForkHistogram forks f = inr fork_buckets ->
  let width := PullRequestHistogramDto.width options in
  let records :=
    latest (PullRequestGithubEventsService.genPrHistogram_cte this options) table in
  let key (r : DbPullRequestGitHubEvents) := time_bucket width (event_time r) in
  NoDup (map bucket buckets)
  /\ (forall r, In r records ->
        exists b, In b buckets
                  /\ bucket b = Some (key r)
                  /\ prs_count b
                     = List.length (filter (fun x => key x =? key r) records)
                  /\ forall b', In b' buckets -> bucket b' = Some (key r) -> b' = b)
  /\ (forall b, In b buckets -> exists r, In r records /\ bucket b = Some (key r))
  /\ (0 < width -> forall t, on_origin_grid width (time_bucket width t) t)
  /\ NoDup (map fork_bucket fork_buckets)
  /\ (forall e, fork_kept forks f e ->
        exists b, In b fork_buckets
                  /\ fork_bucket b = time_bucket 1 (fork_event_time e))
  /\ (forall b, In b fork_buckets ->
        exists e, fork_kept forks f e
                  /\ fork_bucket b = time_bucket 1 (fork_event_time e)).
Proof.
  intros Hpr Hfork width records key.
  (* the pull-request histogram *)
  unfold PullRequestGithubEventsService.genPrHistogram in Hpr.
  destruct (negb _ && negb _ && negb _ && negb _ && negb _)%bool; [discriminate Hpr|].
  apply QueryFacts.execute_inr in Hpr. destruct Hpr as [_ ->].
  fold table records width.
  change (fun e : DbPullRequestGitHubEvents => time_bucket width (event_time e))
    with key.
  set (groups := order_by fst (PullRequestHistogramDto.orderDirection options)
                   (GROUP_BY key records)).
  assert (Hkeys : map bucket
                    (map (fun g => PullRequestGithubEventsService.aggregate
                                     (Some (fst g)) false (snd g)) groups)
                  = map Some (map fst groups)).
  { rewrite !map_map. reflexivity. }
  assert (Hnd : NoDup (map bucket
                    (map (fun g => PullRequestGithubEventsService.aggregate
                                     (Some (fst g)) false (snd g)) groups))).
  { rewrite Hkeys. apply NoDup_map_Some, groups_NoDup. }
  split; [exact Hnd|]. split; [|split; [|split]].
  - intros r Hr.
    set (g := (key r, filter (fun x => key x =? key r) records)).
    assert (Hg : In g groups).
    { apply groups_In. split; [exists r; split; [exact Hr | reflexivity] | reflexivity]. }
    exists (PullRequestGithubEventsService.aggregate (Some (fst g)) false (snd g)).
    split; [|split; [reflexivity | split; [reflexivity|]]].
    + apply in_map_iff. exists g. split; [reflexivity | exact Hg].
    + intros b' Hb' Hk. apply (NoDup_map_eq bucket _ b' _ Hnd Hb').
      * apply in_map_iff. exists g. split; [reflexivity | exact Hg].
      * exact Hk.
  - intros b Hin. apply in_map_iff in Hin. destruct Hin as (g & <- & Hg).
    apply groups_In in Hg. destruct Hg as [(r & Hr & Hk) _].
    exists r. simpl. split; [exact Hr | now rewrite Hk].
  - intros Hw t. now apply time_bucket_on_grid.
  - (* the fork histogram *)
    unfold ForkGithubEventsService.genForkHistogram in Hfork.
    destruct (negb _ && negb _ && negb _ && negb _ && negb _)%bool;
      [discriminate Hfork|].
    destruct (ForksHistogramDto.repo f) as [repo|] eqn:Hrepo; [|discriminate Hfork].
    inversion Hfork as [Hb']. clear Hfork.
    set (fkey := fun e : DbForkGitHubEvents => time_bucket 1 (fork_event_time e)).
    set (kept := filter _ (ForkGithubEventsService.fork_github_events forks)).
    set (fgroups := order_by fst (ForksHistogramDto.orderDirection f)
                      (GROUP_BY fkey kept)).
    assert (Hkept : forall e, In e kept <-> fork_kept forks f e).
    { intros e. unfold kept, fork_kept. rewrite filter_In, andb_true_iff, Z.leb_le.
      unfold Str.eqb_ci, Str.toLowerCase. rewrite StrFacts.LOWER_idempotent. split.
      - intros (Hin & He & Ht). repeat split; try tauto. exists repo. tauto.
      - intros (Hin & (repo' & Hsome & He) & Ht). rewrite Hrepo in Hsome.
        inversion Hsome; subst. tauto. }
    split; [|split].
    + rewrite map_map. simpl. apply groups_NoDup.
    + intros e He. apply Hkept in He.
      exists {| fork_bucket := fkey e;
                forks_count := List.length (filter (fun x => fkey x =? fkey e) kept) |}.
      split; [|reflexivity].
      apply in_map_iff. exists (fkey e, filter (fun x => fkey x =? fkey e) kept).
      split; [reflexivity|]. apply groups_In.
      split; [exists e; split; [exact He | reflexivity] | reflexivity].
    + intros b Hin. apply in_map_iff in Hin. destruct Hin as (g & <- & Hg).
      apply groups_In in Hg. destruct Hg as [(e & He & Hk) _].
      exists e. simpl. split; [now apply Hkept | now rewrite <- Hk].
Qed.

End Histogram.

(** The statement above at the sample: the histogram of the two pull
    requests of [a/b], and the histogram of its three forks, two of them
    on one day. *)
Lemma histogram_witness :
  exists buckets fork_buckets,
    PullRequestGithubEventsService.genPrHistogram
      (Sample.service Sample.evening_and_morning) Sample.histogram_of_a_b
    = inr buckets
    /\ ForkGithubEventsService.genForkHistogram
         (Sample.fork_service Sample.forks_table) Sample.forks_of_a_b
       = inr fork_buckets
    /\ NoDup (map bucket buckets)
    /\ NoDup (map fork_bucket fork_buckets)
    /\ List.length buckets = 2%nat
    /\ List.length fork_buckets = 2%nat.
Proof.
  eexists. eexists. split; [reflexivity|]. split; [reflexivity|].
  destruct (histogram_buckets_are_disjoint_and_on_the_origin_grid
              (Sample.service Sample.evening_and_morning)
              (Sample.fork_service Sample.forks_table)
              Sample.histogram_of_a_b Sample.forks_of_a_b
              eq_refl eq_refl)
    as (H1 & _ & _ & _ & H2 & _).
  split; [exact H1|]. split; [exact H2|]. split; reflexivity.
Defined.

(** C6 as stated fails on the anchor of the buckets.  With the window
    starting at noon of day 70, the pull requests of that evening and of the
    next morning lie in one and the same day counted from the window start
    (index 0 for both), yet the histogram puts them into two buckets, keyed
    by the midnights of day 70 and of day 71. *)
Lemma histogram_buckets_are_not_anchored_at_window_start :
  let this := Sample.service_at Sample.noon_of_day_100 Sample.evening_and_morning in
  let window_start :=
    GetPrevDateISOString (PullRequestGithubEventsService.now this) 0 - 30 * Sql.day in
  map (fun e => Statements.bucket_index_from_window_start window_start 1 (event_time e))
    Sample.evening_and_morning
  = [0; 0]
  /\ exists evening morning,
       PullRequestGithubEventsService.genPrHistogram this Sample.histogram_of_a_b
       = inr [evening; morning]
       /\ bucket evening = Some (70 * Sql.day)
       /\ bucket morning = Some (71 * Sql.day)
       /\ prs_count evening = 1%nat
       /\ prs_count morning = 1%nat.
Proof.
  split; [reflexivity|].
  eexists. eexists. split; [reflexivity|]. repeat split; reflexivity.
Qed.

(** ** C3 and C4: contributor cohorts *)

(** C3 at a failing input.  [x] has an event in the current window and none
    in the previous window, where only [y] has one.  The active cohort must
    leave [x] out; the query returns [x].  Its second join repeats the
    condition of the first ([... = current_month_prs.pr_author_login]), so a
    row that matched the current window is paired with every login of the
    previous window, whoever it belongs to.  The sibling filters compare
    with [previous_month_prs] and classify [x] and [y] as they should. *)
Theorem active_cohort_takes_any_login_of_previous_window :
  let this := Sample.service Sample.x_now_y_before in
  let o := Sample.insights 0 10 in
  let now := PullRequestGithubEventsService.now this in
  Statements.events_between this o "x" (now - 30 * Sql.day) now
    = [Sample.event 1 (90 * Sql.day) 1 "a/b" "x"]
  /\ Statements.events_between this o "x" (now - 60 * Sql.day) (now - 30 * Sql.day) = []
  /\ (exists page,
        PullRequestGithubEventsService.findAuthorsWithFilters this o "active"
        = inr page
        /\ map c_author_login (data page) = ["x"])
  /\ Statements.cohort this o "new" = ["x"]
  /\ Statements.cohort this o "alumni" = ["y"].
Proof.
  split; [reflexivity|]. split; [reflexivity|].
  split; [eexists; split; reflexivity|].
  split; reflexivity.
Qed.

(** C4 at failing inputs.  [x], present in the current window only, is
    returned both as active and as new: the active filter's second join
    does not look at the login (the defect of C3).  [Zed], present in the
    current window, is returned neither as active nor as new: the
    sub-selects lower-case the login and the join compares it with the login
    as stored. *)
Theorem cohorts_do_not_partition_the_current_window :
  let o := Sample.insights 0 10 in
  let this := Sample.service Sample.x_now_y_before in
  let that := Sample.service Sample.capital_login_now in
  let now := PullRequestGithubEventsService.now this in
  (Statements.events_between this o "x" (now - 30 * Sql.day) now <> []
   /\ Statements.cohort this o "active" = ["x"]
   /\ Statements.cohort this o "new" = ["x"])
  /\ (Statements.events_between that o "Zed" (now - 30 * Sql.day) now <> []
      /\ Statements.cohort that o "active" = []
      /\ Statements.cohort that o "new" = []).
Proof.
  repeat split; try reflexivity; discriminate.
Qed.

(* ===================================================================== *)
(** * Further properties of the services *)
(* ===================================================================== *)

(** ** Left joins *)

Module JoinFacts.
Import Sql.

Section LeftJoin.
Context {A B : Type}.
Variable on : A -> B -> bool.

Lemma LEFT_JOIN_In (l : list A) (r : list B) (a : A) (o : option B) :
  In (a, o) (LEFT_JOIN on l r) <->
  In a l
  /\ ((exists b, o = Some b /\ In b r /\ on a b = true)
      \/ (o = None /\ forall b, In b r -> on a b = false)).
Proof.
  unfold LEFT_JOIN. rewrite in_flat_map. split.
  - intros (a' & Ha' & Hin).
    destruct (filter (on a') r) as [|b0 m] eqn:Hf.
    + destruct Hin as [Heq|[]]. inversion Heq; subst a' o. split; [exact Ha'|].
      right. split; [reflexivity|]. intros b Hb.
      destruct (on a b) eqn:E; [|reflexivity].
      assert (Hin : In b (filter (on a) r)) by (apply filter_In; tauto).
      rewrite Hf in Hin. destruct Hin.
    + apply in_map_iff in Hin. destruct Hin as (b & Heq & Hb).
      inversion Heq; subst a' o. split; [exact Ha'|]. left. exists b.
      rewrite <- Hf in Hb. apply filter_In in Hb. tauto.
  - intros (Ha & [(b & -> & Hb & Hon) | (-> & Hnone)]); exists a; (split; [exact Ha|]).
    + assert (Hin : In b (filter (on a) r)) by (apply filter_In; tauto).
      destruct (filter (on a) r) as [|b0 m]; [destruct Hin|].
      apply in_map_iff. exists b. tauto.
    + destruct (filter (on a) r) as [|b0 m] eqn:Hf; [now left|].
      assert (Hin : In b0 (filter (on a) r)) by (rewrite Hf; now left).
      apply filter_In in Hin. destruct Hin as [Hb Hon].
      rewrite (Hnone b0 Hb) in Hon. discriminate Hon.
Qed.

End LeftJoin.

(** Joining logins on equality and keeping the rows without a partner
    leaves the left logins that are not on the right; keeping the rows with
    a partner leaves those that are. *)
Lemma anti_join_In (on : string -> string -> bool) (l r : list string) (x : string) :
  (forall a b, on a b = true <-> a = b) ->
  In x (DISTINCT (map fst (filter (fun row => is_null (snd row)) (LEFT_JOIN on l r))))
  <-> In x l /\ ~ In x r.
Proof.
  intros Hon. rewrite DistinctFacts.DISTINCT_In, in_map_iff. split.
  - intros ([a o] & Hx & Hin). simpl in Hx. subst a.
    apply filter_In in Hin. destruct Hin as [Hin Hnull].
    apply LEFT_JOIN_In in Hin. destruct Hin as [Hl [(b & -> & _) | (_ & Hnone)]].
    + discriminate Hnull.
    + split; [exact Hl|]. intros Hr. specialize (Hnone x Hr).
      assert (on x x = true) by (apply Hon; reflexivity). congruence.
  - intros [Hl Hr]. exists (x, None). split; [reflexivity|].
    apply filter_In. split; [|reflexivity].
    apply LEFT_JOIN_In. split; [exact Hl|]. right. split; [reflexivity|].
    intros b Hb. destruct (on x b) eqn:E; [|reflexivity].
    apply Hon in E. subst b. contradiction.
Qed.

Lemma semi_join_In (on : string -> string -> bool) (l r : list string) (x : string) :
  (forall a b, on a b = true <-> a = b) ->
  In x (DISTINCT (map fst (filter (fun row => is_not_null (snd row)) (LEFT_JOIN on l r))))
  <-> In x l /\ In x r.
Proof.
  intros Hon. rewrite DistinctFacts.DISTINCT_In, in_map_iff. split.
  - intros ([a o] & Hx & Hin). simpl in Hx. subst a.
    apply filter_In in Hin. destruct Hin as [Hin Hnn].
    apply LEFT_JOIN_In in Hin. destruct Hin as [Hl [(b & -> & Hb & E) | (-> & _)]].
    + apply Hon in E. subst b. tauto.
    + discriminate Hnn.
  - intros [Hl Hr]. exists (x, Some x). split; [reflexivity|].
    apply filter_In. split; [|reflexivity].
    apply LEFT_JOIN_In. split; [exact Hl|]. left. exists x.
    repeat split; [exact Hr | apply Hon; reflexivity].
Qed.

End JoinFacts.

(** ** Contributor comparisons of [PullRequestService] *)

Section ContributorComparisons.
Import PullRequestService Statements DistinctFacts JoinFacts.

Variable this : Service.

Lemma range_builder_ok (start_date start_range end_range : Z) (s : string) :
  getContributorRangeQueryBuilder start_date start_range end_range
    (Str.split Str.comma s)
  = inr {| start_date := start_date; start_range := start_range;
           end_range := end_range; repoIds := Str.split Str.comma s |}.
Proof.
  unfold getContributorRangeQueryBuilder.
  pose proof (StrFacts.split_nonempty s) as H.
  destruct (Str.split Str.comma s); [congruence | reflexivity].
Qed.

Lemma range_subselect_In start_date start_range end_range ids login :
  In login (range_subselect this start_date start_range end_range ids)
  <-> contributed this start_date start_range end_range ids login.
Proof. unfold range_subselect. rewrite getRawMany_In. reflexivity. Qed.

Lemma eqb_flip_spec (a b : string) : String.eqb b a = true <-> a = b.
Proof. rewrite String.eqb_eq. split; congruence. Qed.

(** The four contributor queries of [PullRequestService] throw the
    bad-request error "Repo Ids cannot be empty" exactly when the request
    carries no [repoIds].  A [repoIds] string that is there, even the empty
    one, passes this check: split at the commas it is never an empty
    array. *)
Theorem contributor_queries_require_repo_ids
    (i : PullRequestContributorInsightsDto.t) (o : PullRequestContributorOptionsDto.t) :
  (findNewContributorsInTimeRange this i = inl no_repo_ids_error
   <-> PullRequestContributorInsightsDto.repoIds i = None)
  /\ (findAllRecentContributors this i = inl no_repo_ids_error
      <-> PullRequestContributorInsightsDto.repoIds i = None)
  /\ (findAllChurnContributors this o = inl no_repo_ids_error
      <-> PullRequestContributorOptionsDto.repoIds o = None)
  /\ (findAllRepeatContributors this o = inl no_repo_ids_error
      <-> PullRequestContributorOptionsDto.repoIds o = None).
Proof.
  unfold findNewContributorsInTimeRange, findAllRecentContributors,
    findAllChurnContributors, findAllRepeatContributors, repoIds_of.
  destruct (PullRequestContributorInsightsDto.repoIds i) as [si|];
    destruct (PullRequestContributorOptionsDto.repoIds o) as [so|];
    rewrite ?range_builder_ok;
    repeat match goal with
           | |- _ /\ _ => split
           | |- _ <-> _ => split
           end;
    simpl; try reflexivity; try discriminate;
    try (intros H; discriminate H).
Qed.

End ContributorComparisons.

Section ChurnRepeatNew.
Import PullRequestService Statements DistinctFacts JoinFacts.

Variable this : Service.

(** Churned and repeat contributors split the contributors of the
    previous window.  With repo ids given, both queries return; a login is
    churned exactly when it contributed in the previous window and not in
    the current one, repeat exactly when it contributed in both, so every
    contributor of the previous window is in one list and no login is in
    both.  Each list holds a login once, and the whole list is returned
    whatever [skip] and [limit] say: [itemCount] is its length. *)
Theorem churn_and_repeat_split_the_previous_window
    (o : PullRequestContributorOptionsDto.t) (ids : string) :
  PullRequestContributorOptionsDto.repoIds o = Some ids ->
  let page := PullRequestContributorOptionsDto.page o in
  let start := GetPrevDateISOString (now this) (prev_days_start_date page) in
  let range := range page in
  let before := contributed this start range (range + range) (Str.split Str.comma ids) in
  let lately := contributed this start 0 range (Str.split Str.comma ids) in
  exists churn repeat,
    findAllChurnContributors this o = inr churn
    /\ findAllRepeatContributors this o = inr repeat
    /\ (forall login, In login (data churn) <-> before login /\ ~ lately login)
    /\ (forall login, In login (data repeat) <-> before login /\ lately login)
    /\ (forall login, before login <-> In login (data churn) \/ In login (data repeat))
    /\ (forall login, ~ (In login (data churn) /\ In login (data repeat)))
    /\ NoDup (data churn) /\ NoDup (data repeat)
    /\ itemCount (meta churn) = List.length (data churn)
    /\ itemCount (meta repeat) = List.length (data repeat)
    /\ (forall s l,
          findAllChurnContributors this (set_author_slice s l o)
          = inr {| data := data churn;
                   meta := new_PageMetaDto (List.length (data churn))
                             (set_slice s l page) |}).
Proof.
  intros Hids page start range before lately.
  unfold findAllChurnContributors, findAllRepeatContributors, repoIds_of.
  simpl. rewrite Hids. fold page start range. rewrite range_builder_ok.
  eexists. eexists. split; [reflexivity|]. split; [reflexivity|]. simpl.
  assert (Hchurn : forall login,
    In login
      (Sql.DISTINCT
         (map fst
            (filter (fun row => Sql.is_null (snd row))
               (Sql.LEFT_JOIN (fun p c => String.eqb p c)
                  (getRawMany this
                     {| start_date := start; start_range := range;
                        end_range := range + range;
                        repoIds := Str.split Str.comma ids |})
                  (range_subselect this start 0 range (Str.split Str.comma ids))))))
    <-> before login /\ ~ lately login).
  { intros login. rewrite anti_join_In by (intros a b; apply String.eqb_eq).
    unfold before, lately. rewrite <- !range_subselect_In. reflexivity. }
  assert (Hrepeat : forall login,
    In login
      (Sql.DISTINCT
         (map fst
            (filter (fun row => Sql.is_not_null (snd row))
               (Sql.LEFT_JOIN (fun p c => String.eqb p c)
                  (getRawMany this
                     {| start_date := start; start_range := range;
                        end_range := range + range;
                        repoIds := Str.split Str.comma ids |})
                  (range_subselect this start 0 range (Str.split Str.comma ids))))))
    <-> before login /\ lately login).
  { intros login. rewrite semi_join_In by (intros a b; apply String.eqb_eq).
    unfold before, lately. rewrite <- !range_subselect_In. reflexivity. }
  split; [exact Hchurn|]. split; [exact Hrepeat|].
  split; [|split; [|split; [|split; [|split; [|split]]]]].
  - intros login. rewrite Hchurn, Hrepeat. split; [|tauto].
    intros Hb. unfold lately. rewrite <- range_subselect_In.
    destruct (in_dec string_dec login
                (range_subselect this start 0 range (Str.split Str.comma ids)));
      tauto.
  - intros login. rewrite Hchurn, Hrepeat. tauto.
  - apply DISTINCT_NoDup.
  - apply DISTINCT_NoDup.
  - reflexivity.
  - reflexivity.
  - intros s l. reflexivity.
Qed.

End ChurnRepeatNew.

(** The statement above at the sample: [y] churned, [x] repeats. *)
Lemma churn_and_repeat_witness :
  exists churn repeat,
    PullRequestService.findAllChurnContributors Sample.api_two_windows
      (Sample.contributors_of_1 0 10) = inr churn
    /\ PullRequestService.findAllRepeatContributors Sample.api_two_windows
         (Sample.contributors_of_1 0 10) = inr repeat
    /\ NoDup (data churn) /\ NoDup (data repeat).
Proof.
  destruct (@churn_and_repeat_split_the_previous_window
              Sample.api_two_windows (Sample.contributors_of_1 0 10) "1" eq_refl)
    as (churn & repeat & H1 & H2 & _ & _ & _ & _ & H3 & H4 & _).
  exists churn, repeat. repeat split; assumption.
Defined.

Example churn_and_repeat_sample :
  PullRequestService.findAllChurnContributors Sample.api_two_windows
    (Sample.contributors_of_1 0 10)
  = inr {| data := ["y"]; meta := {| itemCount := 1; meta_limit := 10; meta_skip := 0 |} |}
  /\ PullRequestService.findAllRepeatContributors Sample.api_two_windows
       (Sample.contributors_of_1 0 10)
     = inr {| data := ["x"]; meta := {| itemCount := 1; meta_limit := 10; meta_skip := 0 |} |}.
Proof. split; reflexivity. Qed.

Section NewContributors.
Import PullRequestService Statements DistinctFacts JoinFacts.

Variable this : Service.

(** New contributors are the recent contributors that did not contribute
    in the previous window.  With repo ids given, the query returns, each
    once, the logins that contributed in the current window and not in the
    previous one; they are among the items of [findAllRecentContributors],
    and the whole list is returned whatever [skip] and [limit] say. *)
Theorem new_contributors_are_recent_and_not_previous
    (o : PullRequestContributorInsightsDto.t) (ids : string) :
  PullRequestContributorInsightsDto.repoIds o = Some ids ->
  let page := PullRequestContributorInsightsDto.page o in
  let start := GetPrevDateISOString (now this) (prev_days_start_date page) in
  let range := range page in
  let before := contributed this start range (range + range) (Str.split Str.comma ids) in
  let lately := contributed this start 0 range (Str.split Str.comma ids) in
  exists fresh recent,
    findNewContributorsInTimeRange this o = inr fresh
    /\ findAllRecentContributors this o = inr recent
    /\ (forall login, In login (data fresh) <-> lately login /\ ~ before login)
    /\ (forall login, In login (data fresh) -> In login (data recent))
    /\ NoDup (data fresh)
    /\ itemCount (meta fresh) = List.length (data fresh)
    /\ (forall s l,
          findNewContributorsInTimeRange this (set_insights_slice s l o)
          = inr {| data := data fresh;
                   meta := new_PageMetaDto (List.length (data fresh))
                             (set_slice s l page) |}).
Proof.
  intros Hids page start range before lately.
  unfold findNewContributorsInTimeRange, findAllRecentContributors, repoIds_of.
  simpl. rewrite Hids. fold page start range. rewrite range_builder_ok.
  eexists. eexists. split; [reflexivity|]. split; [reflexivity|]. simpl.
  assert (Hnew : forall login,
    In login
      (Sql.DISTINCT
         (map fst
            (filter (fun row => Sql.is_null (snd row))
               (Sql.LEFT_JOIN (fun c p => String.eqb p c)
                  (getRawMany this
                     {| start_date := start; start_range := 0;
                        end_range := range;
                        repoIds := Str.split Str.comma ids |})
                  (range_subselect this start range (range + range)
                     (Str.split Str.comma ids))))))
    <-> lately login /\ ~ before login).
  { intros login. rewrite anti_join_In by (intros a b; apply eqb_flip_spec).
    unfold before, lately. rewrite <- !range_subselect_In. reflexivity. }
  split; [exact Hnew|]. split; [|split; [|split]].
  - intros login Hin. apply Hnew in Hin. destruct Hin as [Hl _].
    unfold lately in Hl. apply range_subselect_In in Hl. exact Hl.
  - apply DISTINCT_NoDup.
  - reflexivity.
  - intros s l. reflexivity.
Qed.

End NewContributors.

(** The statement above at the sample: [z] is new. *)
Lemma new_contributors_witness :
  exists fresh,
    PullRequestService.findNewContributorsInTimeRange Sample.api_two_windows
      (Sample.insights 0 10) = inr fresh
    /\ NoDup (data fresh).
Proof.
  destruct (@new_contributors_are_recent_and_not_previous
              Sample.api_two_windows (Sample.insights 0 10) "1" eq_refl)
    as (fresh & recent & H1 & _ & _ & _ & H2 & _).
  exists fresh. split; assumption.
Defined.

Example new_contributors_sample :
  PullRequestService.findNewContributorsInTimeRange Sample.api_two_windows
    (Sample.insights 0 10)
  = inr {| data := ["z"]; meta := {| itemCount := 1; meta_limit := 10; meta_skip := 0 |} |}.
Proof. reflexivity. Qed.

(** ** One row per partition *)

Module PartitionFacts.
Import Sql Builder SqlFacts.

Lemma row_num_1_In qb table r :
  In r (row_num_1 (getCte qb table)) -> In r (from_where qb table).
Proof.
  intros Hr.
  apply (Permutation_in _ (LatestState.row_num_1_getCte qb table)) in Hr.
  apply firsts_In in Hr. now apply order_by_In in Hr.
Qed.

Lemma row_num_1_own_partition qb table r :
  In r (row_num_1 (getCte qb table)) ->
  filter (same_partition (partition_by qb) r) (row_num_1 (getCte qb table)) = [r].
Proof.
  intros Hr.
  destruct (LatestState.row_num_1_of_partition qb table r (row_num_1_In _ _ _ Hr))
    as (r' & Hone & _).
  assert (Hin : In r (filter (same_partition (partition_by qb) r)
                        (row_num_1 (getCte qb table)))).
  { apply filter_In. split; [exact Hr | apply LatestState.same_partition_refl]. }
  rewrite Hone in Hin. destruct Hin as [<-|[]]. exact Hone.
Qed.

Lemma NoDup_of_singleton_classes {A K} (same : A -> A -> bool) (key : A -> K)
    (l : list A) :
  (forall a, same a a = true) ->
  (forall a b, key a = key b -> same a b = true) ->
  (forall x, In x l -> filter (same x) l = [x]) ->
  NoDup (map key l).
Proof.
  intros Hrefl Hkey. induction l as [|a t IH]; intros Hone; simpl; constructor.
  - intros Hin. apply in_map_iff in Hin. destruct Hin as (y & Hy & Hyt).
    pose proof (Hone a (or_introl eq_refl)) as Ha. simpl in Ha.
    rewrite Hrefl in Ha. inversion Ha as [Hnil].
    assert (Hyf : In y (filter (same a) t)).
    { apply filter_In. split; [exact Hyt | apply Hkey; congruence]. }
    rewrite Hnil in Hyf. destruct Hyf.
  - apply IH. intros x Hx. pose proof (Hone x (or_intror Hx)) as Hf. simpl in Hf.
    destruct (same x a) eqn:E; [|exact Hf].
    inversion Hf as [[Hax Hnil]].
    assert (Hxf : In x (filter (same x) t)).
    { apply filter_In. split; [exact Hx | apply Hrefl]. }
    rewrite Hnil in Hxf. destruct Hxf.
Qed.

(** The rows numbered 1 have pairwise different partition keys. *)
Lemma row_num_1_NoDup {K} (key : JoinedRow -> K) qb table :
  (forall a b, key a = key b -> same_partition (partition_by qb) a b = true) ->
  NoDup (map key (row_num_1 (getCte qb table))).
Proof.
  intros Hkey.
  apply (NoDup_of_singleton_classes (same_partition (partition_by qb))).
  - apply LatestState.same_partition_refl.
  - exact Hkey.
  - intros x Hx. now apply row_num_1_own_partition.
Qed.

Lemma NoDup_offset_limit {A} (s l : nat) (rows : list A) :
  NoDup rows -> NoDup (offset_limit s l rows).
Proof.
  intros H. unfold offset_limit.
  rewrite <- (firstn_skipn s rows) in H. apply NoDup_app_remove_l in H.
  destruct l as [|l]; [exact H|].
  rewrite <- (firstn_skipn (S l) (skipn s rows)) in H.
  now apply NoDup_app_remove_r in H.
Qed.

Lemma map_offset_limit {A B} (f : A -> B) (s l : nat) (rows : list A) :
  map f (offset_limit s l rows) = offset_limit s l (map f rows).
Proof.
  unfold offset_limit. destruct l; [now rewrite skipn_map|].
  now rewrite skipn_map, firstn_map.
Qed.

End PartitionFacts.

Section OnePerPartition.
Import Sql Builder PullRequestGithubEventsService Statements PartitionFacts.

Variable this : Service.

Lemma when_set_partition x f qb :
  (forall s q, partition_by (f s q) = partition_by q) ->
  partition_by (when_set x f qb) = partition_by qb.
Proof.
  intros Hf. unfold when_set. destruct x as [s|]; [|reflexivity].
  destruct (Str.truthy (Some s)); [apply Hf | reflexivity].
Qed.

Lemma when_filter_or_topic_partition filter topic range qb :
  partition_by (when_filter_or_topic this filter topic range qb) = partition_by qb.
Proof.
  unfold when_filter_or_topic.
  destruct (Str.truthy filter || Str.truthy topic)%bool; reflexivity.
Qed.

Lemma findAllWithFilters_cte_partition (o : PullRequestPageOptionsDto.t) :
  partition_by (findAllWithFilters_cte this o)
  = if PullRequestPageOptionsDto.distinctAuthors o
    then pr_author_login_repo_name else pr_number_repo_name.
Proof.
  unfold findAllWithFilters_cte, when_contributor, when_repo, when_repoIds.
  rewrite !when_set_partition by (intros; reflexivity).
  rewrite when_filter_or_topic_partition.
  rewrite when_set_partition by (intros; reflexivity).
  reflexivity.
Qed.

Lemma searchAuthors_cte_partition (a : PullRequestContributorOptionsDto.t) :
  partition_by (searchAuthors_cte this a) = pr_author_login_only.
Proof.
  unfold searchAuthors_cte, when_repo, when_repoIds.
  rewrite !when_set_partition by (intros; reflexivity).
  rewrite when_filter_or_topic_partition. reflexivity.
Qed.

Lemma findAuthorsWithFilters_cte_partition
    (o : PullRequestContributorInsightsDto.t) (contribType : string) :
  partition_by (findAuthorsWithFilters_cte this o contribType) = pr_author_login_only.
Proof.
  unfold findAuthorsWithFilters_cte, when_repo.
  rewrite when_set_partition by (intros; reflexivity).
  destruct (String.eqb contribType "active"); [reflexivity|].
  destruct (String.eqb contribType "new"); [reflexivity|].
  destruct (String.eqb contribType "alumni"); reflexivity.
Qed.

Lemma page_keys_NoDup {K} (key : DbPullRequestGitHubEvents -> K)
    (p : PageOptionsDto) qb :
  (forall a b, key (base a) = key (base b) ->
               same_partition (partition_by qb) a b = true) ->
  NoDup (map key (data_of (execCommonTableExpression this p qb))).
Proof.
  intros Hkey. destruct (parses qb) eqn:E.
  - rewrite (execCommonTableExpression_parses this p _ E). simpl. unfold latest.
    rewrite map_offset_limit, map_map.
    apply NoDup_offset_limit. now apply (row_num_1_NoDup (fun r => key (base r))).
  - rewrite (execCommonTableExpression_fails this p _ E). constructor.
Qed.

(** A listing page never shows a pull request twice: the items of
    [findAllByPrAuthor], and of [findAllWithFilters] without
    [distinctAuthors], have pairwise different [(pr_number, repo_name)].
    With [distinctAuthors] the items of [findAllWithFilters] have pairwise
    different [(pr_author_login, repo_name)] instead: one event per author
    and repository. *)
Theorem listing_shows_each_partition_once
    (author : string) (pageOptionsDto : PageOptionsDto)
    (o : PullRequestPageOptionsDto.t) :
  NoDup (map pull_request_key (data_of (findAllByPrAuthor this author pageOptionsDto)))
  /\ (PullRequestPageOptionsDto.distinctAuthors o = false ->
      NoDup (map pull_request_key (data_of (findAllWithFilters this o))))
  /\ (PullRequestPageOptionsDto.distinctAuthors o = true ->
      NoDup (map author_repo_key (data_of (findAllWithFilters this o)))).
Proof.
  split; [|split].
  - unfold findAllByPrAuthor.
    apply page_keys_NoDup. intros a b Hk. simpl.
    unfold pull_request_key in Hk. inversion Hk as [[Hn Hr]].
    now rewrite Hn, Hr, Z.eqb_refl, String.eqb_refl.
  - intros Hd. unfold findAllWithFilters.
    apply page_keys_NoDup. rewrite findAllWithFilters_cte_partition, Hd.
    intros a b Hk. simpl. unfold pull_request_key in Hk. inversion Hk as [[Hn Hr]].
    now rewrite Hn, Hr, Z.eqb_refl, String.eqb_refl.
  - intros Hd. unfold findAllWithFilters.
    apply page_keys_NoDup. rewrite findAllWithFilters_cte_partition, Hd.
    intros a b Hk. simpl. unfold author_repo_key in Hk. inversion Hk as [[Hn Hr]].
    now rewrite Hn, Hr, !String.eqb_refl.
Qed.

Lemma author_page_NoDup (p : PageOptionsDto) qb :
  partition_by qb = pr_author_login_only ->
  NoDup (map c_author_login (data_of (author_page this p qb))).
Proof.
  intros Hp. destruct (parses qb) eqn:E.
  - rewrite (author_page_parses this p _ E). simpl.
    rewrite map_offset_limit, map_map. apply NoDup_offset_limit.
    apply (row_num_1_NoDup (fun r => c_author_login (author_of r))).
    intros a b Hk. rewrite Hp. simpl in *. rewrite Hk. apply String.eqb_refl.
  - rewrite (author_page_fails this p _ E). constructor.
Qed.

(** An author page lists a login at most once: the items of
    [findAuthorsWithFilters], for every cohort, and of [searchAuthors] have
    pairwise different logins, also where the joins of a cohort filter pair
    an event with several rows. *)
Theorem author_pages_list_each_login_once
    (o : PullRequestContributorInsightsDto.t) (contribType : string)
    (a : PullRequestContributorOptionsDto.t) :
  NoDup (map c_author_login (data_of (findAuthorsWithFilters this o contribType)))
  /\ NoDup (map c_author_login (data_of (searchAuthors this a))).
Proof.
  split.
  - apply author_page_NoDup, findAuthorsWithFilters_cte_partition.
  - unfold searchAuthors.
    destruct (negb _ && negb _ && negb _ && negb _)%bool; simpl; [constructor|].
    apply author_page_NoDup, searchAuthors_cte_partition.
Qed.

End OnePerPartition.

(** ** The criteria of the listing *)

Section ListingPipeline.
Import Sql Builder PullRequestGithubEventsService Statements.

Variable this : Service.

Let table := pullRequestGithubEventsRepository this.

(** The criteria of [findAllWithFilters] are combined with AND, each one
    applied only when it is supplied.  When the listing returns, an event
    is among its windowed, filtered events exactly when it is in the table,
    lies in the window, and meets every supplied criterion: author up to
    letter case, repository among the names given, repo id among the ids
    given, author among the members of the list, state equal to the
    lower-cased status, and, only when no repository names are given,
    repository among those the repository search returns for the filter or
    topic.  Every item of the page is such an event. *)
Theorem listing_criteria_are_conjoined
    (o : PullRequestPageOptionsDto.t) (e : DbPullRequestGitHubEvents)
    (page : PageDto DbPullRequestGitHubEvents) :
  findAllWithFilters this o = inr page ->
  (In e (windowed_events (findAllWithFilters_cte this o) table)
   <-> In e table /\ listing_criteria this o e)
  /\ (In e (data page) -> In e table /\ listing_criteria this o e).
Proof.
  intros Hpage.
  split; [apply findAllWithFilters_events|].
  intros Hin. apply findAllWithFilters_events.
  apply (page_items_are_kept this (PullRequestPageOptionsDto.page o)).
  fold (findAllWithFilters this o). rewrite Hpage. exact Hin.
Qed.

End ListingPipeline.

(** The statement above at the sample: asked for the topic [rust], for
    which the repository search finds [c/d], and for the repository [a/b],
    the listing returns the pull request of [a/b] and not that of [c/d]. *)
Lemma listing_criteria_witness :
  exists page,
    PullRequestGithubEventsService.findAllWithFilters
      (Sample.service_with_topic Sample.a_b_and_c_d)
      (Sample.listing_of_topic (Some "a/b"))
    = inr page
    /\ data page = [Sample.event 1 (90 * Sql.day) 1 "a/b" "x"]
    /\ Statements.listing_criteria
         (Sample.service_with_topic Sample.a_b_and_c_d)
         (Sample.listing_of_topic (Some "a/b"))
         (Sample.event 1 (90 * Sql.day) 1 "a/b" "x").
Proof.
  eexists. split; [reflexivity|]. split; [reflexivity|].
  destruct (@listing_criteria_are_conjoined
              (Sample.service_with_topic Sample.a_b_and_c_d)
              (Sample.listing_of_topic (Some "a/b"))
              (Sample.event 1 (90 * Sql.day) 1 "a/b" "x") _ eq_refl)
    as [_ H].
  apply H. left. reflexivity.
Defined.

(** ** The order direction decides which event stands for a pull request *)

Section ListingDirection.
Import Sql Builder PullRequestGithubEventsService Statements.

Variable this : Service.

Let table := pullRequestGithubEventsRepository this.

Lemma when_set_window_order x f qb :
  (forall s q, window_order (f s q) = window_order q) ->
  window_order (when_set x f qb) = window_order qb.
Proof.
  intros Hf. unfold when_set. destruct x as [s|]; [|reflexivity].
  destruct (Str.truthy (Some s)); [apply Hf | reflexivity].
Qed.

Lemma findAllWithFilters_cte_window_order (o : PullRequestPageOptionsDto.t) :
  window_order (findAllWithFilters_cte this o)
  = orderDirection (PullRequestPageOptionsDto.page o).
Proof.
  unfold findAllWithFilters_cte, when_contributor, when_repo, when_repoIds.
  rewrite !when_set_window_order by (intros; reflexivity).
  unfold when_filter_or_topic.
  destruct (Str.truthy _ || Str.truthy _)%bool; simpl;
    rewrite when_set_window_order by (intros; reflexivity); reflexivity.
Qed.

(** The representative of a pull request, for either direction. *)
Lemma partition_representative (cte : SelectQueryBuilder)
    (e : DbPullRequestGitHubEvents) :
  partition_by cte = pr_number_repo_name ->
  In e (windowed_events cte table) ->
  exists r,
    filter (same_pull_request e) (latest cte table) = [r]
    /\ In r (windowed_events cte table)
    /\ pr_number r = pr_number e /\ repo_name r = repo_name e
    /\ extreme_in (window_order cte) (windowed_events cte table) r.
Proof.
  intros Hp He. unfold windowed_events in *.
  apply in_map_iff in He. destruct He as (row & Hbase & Hrow).
  destruct (LatestState.row_num_1_of_partition cte table row Hrow)
    as (r & Hone & Hr & Hsame & Hmax).
  rewrite Hp in Hone, Hsame, Hmax.
  assert (Hkey : forall x, same_partition pr_number_repo_name row x
                           = same_pull_request e (base x)).
  { intros x. unfold same_partition, same_pull_request. now rewrite Hbase. }
  exists (base r). rewrite Hkey in Hsame.
  apply andb_prop in Hsame. destruct Hsame as [Hn Hrepo].
  apply Z.eqb_eq in Hn. apply String.eqb_eq in Hrepo.
  split; [|split; [|split; [|split]]].
  - unfold latest. rewrite filter_map_base.
    rewrite <- (filter_ext _ _ Hkey). now rewrite Hone.
  - now apply in_map.
  - congruence.
  - congruence.
  - intros x Hx Hxn Hxr. apply in_map_iff in Hx. destruct Hx as (rx & <- & Hrx).
    specialize (Hmax rx Hrx). rewrite Hkey in Hmax.
    unfold same_pull_request in Hmax.
    rewrite Hn, Hrepo, <- Hxn, <- Hxr, Z.eqb_refl, String.eqb_refl in Hmax.
    specialize (Hmax eq_refl). unfold may_precede, time_of in Hmax.
    destruct (window_order cte); lia.
Qed.

(** The caller's order direction decides which event of a pull request the
    listing shows.  Without [distinctAuthors], every pull request with an
    event among the windowed, filtered events of [findAllWithFilters] has
    exactly one row numbered 1, and it is the latest event of the pull
    request when the direction is [DESC] but the earliest one when it is
    [ASC]. *)
Theorem listing_direction_selects_latest_or_earliest
    (o : PullRequestPageOptionsDto.t) (e : DbPullRequestGitHubEvents) :
  PullRequestPageOptionsDto.distinctAuthors o = false ->
  In e (windowed_events (findAllWithFilters_cte this o) table) ->
  exists r,
    filter (same_pull_request e) (latest (findAllWithFilters_cte this o) table) = [r]
    /\ In r (windowed_events (findAllWithFilters_cte this o) table)
    /\ pr_number r = pr_number e /\ repo_name r = repo_name e
    /\ extreme_in (orderDirection (PullRequestPageOptionsDto.page o))
         (windowed_events (findAllWithFilters_cte this o) table) r.
Proof.
  intros Hd He. rewrite <- findAllWithFilters_cte_window_order.
  apply partition_representative; [|exact He].
  rewrite (findAllWithFilters_cte_partition this o), Hd. reflexivity.
Qed.

End ListingDirection.

(** The statement above at the sample: in ascending order the listing shows
    the event of day 80, not the update of day 90. *)
Lemma listing_direction_witness :
  exists r,
    filter (Statements.same_pull_request (Sample.event 2 (90 * Sql.day) 1 "a/b" "x"))
      (Builder.latest
         (PullRequestGithubEventsService.findAllWithFilters_cte
            (Sample.service Sample.opened_then_updated) Sample.listing_ascending)
         Sample.opened_then_updated) = [r]
    /\ event_id r = 1.
Proof.
  destruct (@listing_direction_selects_latest_or_earliest
              (Sample.service Sample.opened_then_updated) Sample.listing_ascending
              (Sample.event 2 (90 * Sql.day) 1 "a/b" "x") eq_refl)
    as (r & H1 & _).
  - vm_compute. right. left. reflexivity.
  - exists r. split; [exact H1|].
    vm_compute in H1. inversion H1. reflexivity.
Defined.

(** ** More on the pull-request count of an author *)

Section CountProperties.
Import PullRequestGithubEventsService Statements.

Variable this : Service.

Let table := pullRequestGithubEventsRepository this.

(** The count does not see the letter case of the author it is asked for:
    two spellings that differ in case only give the same count. *)
Theorem count_by_author_ignores_letter_case
    (author author' : string) (range prevDays : Z) :
  Str.eqb_ci author author' = true ->
  findCountByPrAuthor this author range prevDays
  = findCountByPrAuthor this author' range prevDays.
Proof.
  unfold Str.eqb_ci. intros H. apply String.eqb_eq in H.
  unfold findCountByPrAuthor, Str.toLowerCase.
  rewrite !StrFacts.LOWER_idempotent, H. reflexivity.
Qed.

(** A longer range never lowers the count, and the count is 0 exactly when
    the author has no event in the window. *)
Theorem count_by_author_grows_with_the_range
    (author : string) (range range' prevDays : Z) :
  range <= range' ->
  (findCountByPrAuthor this author range prevDays
   <= findCountByPrAuthor this author range' prevDays)%nat
  /\ (findCountByPrAuthor this author range prevDays = 0%nat
      <-> forall e, In e table -> ~ counted this author range prevDays e).
Proof.
  intros Hr. unfold findCountByPrAuthor, getCount, Sql.COUNT_DISTINCT. fold table.
  split.
  - apply NoDup_incl_length; [apply NoDup_nodup|].
    intros n Hn. apply nodup_In, in_map_iff in Hn. destruct Hn as (e & Hn & He).
    apply nodup_In, in_map_iff. exists e. split; [exact Hn|].
    apply counted_rows in He. apply counted_rows.
    destruct He as [He [Hw Ha]]. split; [exact He|]. split; [|exact Ha].
    unfold Sql.day in *. lia.
  - rewrite length_zero_iff_nil. split.
    + intros Hnil e He Hc.
      assert (Hin : In (pr_number e)
                      (nodup Z.eq_dec
                         (map pr_number
                            (filter
                               (fun e0 => forallb (fun c => c e0)
                                  (counterBaseQueryBuilder this range prevDays
                                     ++ [fun e1 => String.eqb (Str.LOWER (pr_author_login e1))
                                                     (Str.LOWER (Str.toLowerCase author))]))
                               table)))).
      { apply nodup_In, in_map_iff. exists e. split; [reflexivity|].
        apply counted_rows. tauto. }
      rewrite Hnil in Hin. destruct Hin.
    + intros Hno.
      destruct (nodup Z.eq_dec _) as [|n rest] eqn:Hnd; [reflexivity|].
      exfalso.
      assert (Hin : In n (n :: rest)) by now left.
      rewrite <- Hnd in Hin. apply nodup_In, in_map_iff in Hin.
      destruct Hin as (e & _ & He). apply counted_rows in He.
      destruct He as [He Hc]. exact (Hno e He Hc).
Qed.

End CountProperties.

(** The statements above at the sample: [X] and [x] are one author, and 60
    days count no less than 30. *)
Lemma count_letter_case_witness :
  PullRequestGithubEventsService.findCountByPrAuthor
    (Sample.service Sample.same_number_two_repos) "X" 30 0
  = PullRequestGithubEventsService.findCountByPrAuthor
      (Sample.service Sample.same_number_two_repos) "x" 30 0.
Proof.
  apply (@count_by_author_ignores_letter_case
           (Sample.service Sample.same_number_two_repos) "X" "x" 30 0).
  reflexivity.
Defined.

Lemma count_range_witness :
  (PullRequestGithubEventsService.findCountByPrAuthor
     (Sample.service Sample.same_number_two_repos) "x" 30 0
   <= PullRequestGithubEventsService.findCountByPrAuthor
        (Sample.service Sample.same_number_two_repos) "x" 60 0)%nat.
Proof.
  apply (@count_by_author_grows_with_the_range
           (Sample.service Sample.same_number_two_repos) "x" 30 60 0).
  lia.
Defined.

(** ** Bounds of the velocity *)

Section VelocityBounds.
Import Builder PullRequestGithubEventsService Statements VelocityFacts QueryFacts.

Variable this : Service.

Let table := pullRequestGithubEventsRepository this.

Lemma total_days_bounds (lo hi : Z) (l : list Z) :
  (forall d, In d l -> lo <= d <= hi) ->
  Z.of_nat (List.length l) * lo <= total_days l <= Z.of_nat (List.length l) * hi.
Proof.
  induction l as [|d r IH]; intros H; [simpl; lia|].
  assert (Hd : lo <= d <= hi) by (apply H; now left).
  assert (Hr : forall x, In x r -> lo <= x <= hi) by (intros x Hx; apply H; now right).
  specialize (IH Hr). cbn [total_days fold_right List.length] in *.
  fold (total_days r). rewrite Nat2Z.inj_succ. nia.
Qed.

Lemma below_maximum (l : list Z) (d : Z) : In d l -> d <= fold_right Z.max 0 l.
Proof.
  induction l as [|x t IH]; simpl; [tauto|].
  intros [<-|H]; [lia | specialize (IH H); lia].
Qed.

Lemma nearest_integer_bounds (total n v lo hi : Z) :
  0 < n -> nearest_integer total n v ->
  n * lo <= total <= n * hi -> lo <= v <= hi.
Proof.
  unfold nearest_integer. intros Hn [Hnear _] Ht.
  assert (Habs : - n <= 2 * (total - v * n) <= n) by lia.
  split.
  - destruct (Z_lt_le_dec v lo) as [Hlt|Hle]; [exfalso | exact Hle].
    assert (n * 1 <= n * (lo - v)) by (apply Z.mul_le_mono_nonneg_l; lia).
    lia.
  - destruct (Z_lt_le_dec hi v) as [Hlt|Hle]; [exfalso | exact Hle].
    assert (n * 1 <= n * (v - hi)) by (apply Z.mul_le_mono_nonneg_l; lia).
    lia.
Qed.

Lemma velocity_between
    (cteBuilder : SelectQueryBuilder) (lo hi : Z) :
  let merged := List.filter pr_is_merged (latest cteBuilder table) in
  parses cteBuilder = true ->
  merged <> [] ->
  (forall e, In e merged -> lo <= days_to_merge e <= hi) ->
  exists v,
    execVelocityCommonTableExpression this cteBuilder = inr v /\ lo <= v <= hi.
Proof.
  intros merged Hsql Hne Hb.
  eexists. split; [apply (execVelocityCommonTableExpression_parses this _ Hsql)|].
  fold table merged.
  assert (Hl : map days_to_merge merged <> []).
  { destruct merged; [congruence | discriminate]. }
  pose proof (rounded_average_nearest Hl) as Hnear.
  apply (nearest_integer_bounds (n := Z.of_nat (List.length (map days_to_merge merged)))
           (total := total_days (map days_to_merge merged))).
  - destruct (map days_to_merge merged); [congruence | simpl; lia].
  - exact Hnear.
  - apply total_days_bounds. intros d Hd. apply in_map_iff in Hd.
    destruct Hd as (e & <- & He). now apply Hb.
Qed.

(** The velocity stays within the day counts it averages: if every merged
    row numbered 1 of an expression that is SQL took between [lo] and [hi]
    days from creation date to merge date, and there is such a row, the
    velocity lies between [lo] and [hi]. *)
Theorem velocity_lies_between_the_day_counts
    (cteBuilder : SelectQueryBuilder) (lo hi : Z) :
  let merged := List.filter pr_is_merged (latest cteBuilder table) in
  parses cteBuilder = true ->
  merged <> [] ->
  (forall e, In e merged -> lo <= days_to_merge e <= hi) ->
  exists v,
    execVelocityCommonTableExpression this cteBuilder = inr v /\ lo <= v <= hi.
Proof. apply velocity_between. Qed.

(** The velocity of an expression that is SQL is never negative when no
    merged row was merged before it was created, also when nothing is
    merged. *)
Theorem velocity_is_not_negative (cteBuilder : SelectQueryBuilder) :
  parses cteBuilder = true ->
  (forall e, In e (List.filter pr_is_merged (latest cteBuilder table)) ->
             pr_created_at e <= pr_merged_at e) ->
  exists v,
    execVelocityCommonTableExpression this cteBuilder = inr v /\ 0 <= v.
Proof.
  intros Hsql Hb.
  destruct (List.filter pr_is_merged (latest cteBuilder table)) as [|e0 r] eqn:Hm.
  - eexists. split; [apply (execVelocityCommonTableExpression_parses this _ Hsql)|].
    fold table. rewrite Hm. vm_compute. discriminate.
  - assert (Hd : forall e, In e (e0 :: r) -> 0 <= days_to_merge e).
    { intros e He. specialize (Hb e He). unfold days_to_merge, Sql.to_date, Sql.day.
      pose proof (Z.div_le_mono (pr_created_at e) (pr_merged_at e) 86400
                    ltac:(lia) Hb). lia. }
    assert (Hup : forall e, In e (e0 :: r) ->
                  0 <= days_to_merge e
                    <= fold_right Z.max 0 (map days_to_merge (e0 :: r))).
    { intros e He. split; [now apply Hd|].
      apply below_maximum. now apply in_map. }
    destruct (@velocity_between cteBuilder 0
                (fold_right Z.max 0 (map days_to_merge (e0 :: r))) Hsql)
      as (v & Hv & Hlo & _).
    + fold table. rewrite Hm. discriminate.
    + fold table. rewrite Hm. exact Hup.
    + exists v. split; [exact Hv | exact Hlo].
Qed.

End VelocityBounds.

(** The statements above at the sample of two pull requests merged after
    one and two days. *)
Lemma velocity_bounds_witness :
  exists v,
    PullRequestGithubEventsService.execVelocityCommonTableExpression
      (Sample.service Sample.merged_after_1_and_2)
      (Sample.author_x Sample.merged_after_1_and_2)
    = inr v
    /\ 1 <= v <= 2.
Proof.
  apply (@velocity_lies_between_the_day_counts
           (Sample.service Sample.merged_after_1_and_2)
           (Sample.author_x Sample.merged_after_1_and_2) 1 2).
  - reflexivity.
  - vm_compute. discriminate.
  - intros e He. vm_compute in He.
    destruct He as [<-|[<-|[]]]; vm_compute; split; discriminate.
Defined.

Lemma velocity_not_negative_witness :
  exists v,
    PullRequestGithubEventsService.execVelocityCommonTableExpression
      (Sample.service Sample.merged_after_1_and_2)
      (Sample.author_x Sample.merged_after_1_and_2)
    = inr v
    /\ 0 <= v.
Proof.
  apply (@velocity_is_not_negative
           (Sample.service Sample.merged_after_1_and_2)
           (Sample.author_x Sample.merged_after_1_and_2)).
  - reflexivity.
  - intros e He. vm_compute in He.
    destruct He as [<-|[<-|[]]]; vm_compute; discriminate.
Defined.

(** ** Histogram totals and order *)

Module HistogramFacts.
Import Sql SqlFacts GroupFacts Statements.

Lemma indicator_sum (ks : list Z) (x : Z) :
  NoDup ks -> In x ks ->
  total_count (map (fun k => if x =? k then 1%nat else 0%nat) ks) = 1%nat.
Proof.
  induction 1 as [|k r Hk Hr IH]; simpl; [tauto|].
  intros [->|Hin].
  - rewrite Z.eqb_refl.
    assert (Hz : forall l, ~ In x l ->
              total_count (map (fun k => if x =? k then 1%nat else 0%nat) l) = 0%nat).
    { induction l as [|y t IHt]; simpl; [reflexivity|]. intros Hn.
      destruct (Z.eqb_spec x y) as [->|_]; [exfalso; apply Hn; now left|].
      apply IHt. intros H. apply Hn. now right. }
    now rewrite (Hz r Hk).
  - destruct (Z.eqb_spec x k) as [->|_]; [contradiction|]. simpl. now apply IH.
Qed.

Lemma total_count_plus {A} (f g : A -> nat) (l : list A) :
  total_count (map (fun a => (f a + g a)%nat) l)
  = (total_count (map f l) + total_count (map g l))%nat.
Proof. induction l as [|a r IH]; simpl; [reflexivity | rewrite IH; lia]. Qed.

(** Groups over distinct keys that cover the rows hold every row once. *)
Lemma group_sizes {A} (key : A -> Z) (ks : list Z) (rows : list A) :
  NoDup ks -> (forall r, In r rows -> In (key r) ks) ->
  total_count (map (fun k => List.length (filter (fun r => key r =? k) rows)) ks)
  = List.length rows.
Proof.
  intros Hnd. induction rows as [|a t IH]; intros Hc; simpl.
  - induction ks as [|k r IHk]; simpl; [reflexivity|].
    inversion Hnd; subst. now apply IHk.
  - rewrite (map_ext _
               (fun k => Nat.add (if key a =? k then 1%nat else 0%nat)
                           (List.length (filter (fun r => key r =? k) t))))
      by (intros k; destruct (key a =? k); reflexivity).
    rewrite total_count_plus.
    rewrite (@indicator_sum ks (key a) Hnd (Hc a (or_introl eq_refl))).
    rewrite IH by (intros r Hr; apply Hc; now right). reflexivity.
Qed.

Lemma total_count_perm (l l' : list nat) :
  Permutation l l' -> total_count l = total_count l'.
Proof. induction 1; simpl; lia. Qed.

Lemma groups_total {A} (key : A -> Z) (dir : OrderDirectionEnum) (rows : list A) :
  total_count (map (fun g => List.length (snd g)) (order_by fst dir (GROUP_BY key rows)))
  = List.length rows.
Proof.
  rewrite <- (total_count_perm (Permutation_map _ (order_by_perm fst dir _))).
  unfold GROUP_BY. rewrite map_map. simpl.
  apply group_sizes; [apply NoDup_nodup|].
  intros r Hr. apply nodup_In. now apply in_map.
Qed.

Lemma groups_nonempty {A} (key : A -> Z) (dir : OrderDirectionEnum) (rows : list A) g :
  In g (order_by fst dir (GROUP_BY key rows)) -> (1 <= List.length (snd g))%nat.
Proof.
  intros Hg. apply groups_In in Hg. destruct Hg as [(r & Hr & Hk) Hs].
  rewrite Hs.
  assert (Hin : In r (filter (fun x => key x =? fst g) rows)).
  { apply filter_In. split; [exact Hr | now apply Z.eqb_eq]. }
  destruct (filter _ rows); [destruct Hin | simpl; lia].
Qed.

Lemma sorted_strict {A} (f : A -> Z) (dir : OrderDirectionEnum) (l : list A) :
  StronglySorted (fun a b => may_precede f dir a b = true) l ->
  NoDup (map f l) ->
  StronglySorted (fun a b => key_before dir (f a) (f b)) l.
Proof.
  induction 1 as [|a t Hs IH Hall]; intros Hnd; constructor.
  - apply IH. now inversion Hnd.
  - inversion Hnd as [|? ? Ha Ht]; subst.
    rewrite Forall_forall in *. intros x Hx. specialize (Hall x Hx).
    assert (f a <> f x) by (intros E; apply Ha; rewrite E; now apply in_map).
    unfold may_precede in Hall. unfold key_before. destruct dir; lia.
Qed.

Lemma groups_sorted {A} (key : A -> Z) (dir : OrderDirectionEnum) (rows : list A) :
  StronglySorted (fun a b => key_before dir (fst a) (fst b))
    (order_by fst dir (GROUP_BY key rows)).
Proof.
  apply sorted_strict; [apply order_by_sorted | apply groups_NoDup].
Qed.

Lemma StronglySorted_map {A B} (R : B -> B -> Prop) (g : A -> B) (l : list A) :
  StronglySorted (fun a b => R (g a) (g b)) l -> StronglySorted R (map g l).
Proof.
  induction 1 as [|a t Hs IH Hall]; simpl; constructor; [exact IH|].
  rewrite Forall_forall in *. intros y Hy. apply in_map_iff in Hy.
  destruct Hy as (x & <- & Hx). now apply Hall.
Qed.

End HistogramFacts.

Section HistogramTotals.
Import Sql Builder Statements GroupFacts HistogramFacts.

Variable this : PullRequestGithubEventsService.Service.
Variable forks : ForkGithubEventsService.Service.

Let table := PullRequestGithubEventsService.pullRequestGithubEventsRepository this.

(** The pull-request histogram counts every deduplicated record once: the
    [prs_count] of its buckets add up to the number of rows numbered 1.  No
    bucket is empty, and the buckets come in strictly ascending or strictly
    descending order of their keys, as the request's order direction
    says. *)
Theorem histogram_counts_add_up_and_buckets_are_ordered
    (options : PullRequestHistogramDto.t)
    (buckets : list DbPullRequestGitHubEventsHistogram) :
  PullRequestGithubEventsService.genPrHistogram this options = inr buckets ->
  total_count (map prs_count buckets)
  = List.length
      (latest (PullRequestGithubEventsService.genPrHistogram_cte this options) table)
  /\ (forall b, In b buckets -> (1 <= prs_count b)%nat)
  /\ StronglySorted (bucket_before (PullRequestHistogramDto.orderDirection options))
       buckets.
Proof.
  intros Hpr. unfold PullRequestGithubEventsService.genPrHistogram in Hpr.
  destruct (negb _ && negb _ && negb _ && negb _ && negb _)%bool; [discriminate Hpr|].
  apply QueryFacts.execute_inr in Hpr. destruct Hpr as [_ ->]. fold table.
  split; [|split].
  - rewrite map_map. simpl. apply groups_total.
  - intros b Hin. apply in_map_iff in Hin. destruct Hin as (g & <- & Hg).
    simpl. now apply groups_nonempty in Hg.
  - apply StronglySorted_map. unfold bucket_before. simpl. apply groups_sorted.
Qed.

(** The fork histogram does the same for the fork events it keeps: its
    [forks_count] add up to the number of kept events, no bucket is empty,
    and the buckets are strictly ordered by key in the requested
    direction. *)
Theorem fork_histogram_counts_add_up_and_buckets_are_ordered
    (f : ForksHistogramDto.t) (buckets : list DbForkGitHubEventsHistogram) :
  ForkGithubEventsService.genForkHistogram forks f = inr buckets ->
  (exists keep,
      (forall e, In e (filter keep (ForkGithubEventsService.fork_github_events forks))
                 <-> fork_kept forks f e)
      /\ total_count (map forks_count buckets)
         = List.length (filter keep (ForkGithubEventsService.fork_github_events forks)))
  /\ (forall b, In b buckets -> (1 <= forks_count b)%nat)
  /\ StronglySorted
       (fun a b => key_before (ForksHistogramDto.orderDirection f)
                     (fork_bucket a) (fork_bucket b))
       buckets.
Proof.
  intros Hfork. unfold ForkGithubEventsService.genForkHistogram in Hfork.
  destruct (negb _ && negb _ && negb _ && negb _ && negb _)%bool;
    [discriminate Hfork|].
  destruct (ForksHistogramDto.repo f) as [repo|] eqn:Hrepo; [|discriminate Hfork].
  inversion Hfork as [Hb]. clear Hfork.
  split; [|split].
  - eexists. split; [|rewrite map_map; simpl; apply groups_total].
    intros e. unfold fork_kept. rewrite filter_In, andb_true_iff, Z.leb_le.
    unfold Str.eqb_ci, Str.toLowerCase. rewrite StrFacts.LOWER_idempotent, Hrepo. split.
    + intros (Hin & He & Ht). repeat split; try tauto. exists repo. tauto.
    + intros (Hin & (repo' & Hsome & He) & Ht).
      inversion Hsome; subst. tauto.
  - intros b Hin. apply in_map_iff in Hin. destruct Hin as (g & <- & Hg).
    simpl. now apply groups_nonempty in Hg.
  - apply StronglySorted_map. simpl. apply groups_sorted.
Qed.

(** The fork histogram reads no criterion but the repository: once [repo]
    is supplied, requests that agree on [repo], [range] and the order
    direction get the same answer, whatever contributor, topic, filter or
    repo ids they carry. *)
Theorem fork_histogram_reads_only_the_repo (f f' : ForksHistogramDto.t) :
  Str.truthy (ForksHistogramDto.repo f) = true ->
  ForksHistogramDto.repo f' = ForksHistogramDto.repo f ->
  ForksHistogramDto.range f' = ForksHistogramDto.range f ->
  ForksHistogramDto.orderDirection f' = ForksHistogramDto.orderDirection f ->
  ForkGithubEventsService.genForkHistogram forks f'
  = ForkGithubEventsService.genForkHistogram forks f.
Proof.
  intros Ht Hrepo Hrange Horder.
  unfold ForkGithubEventsService.genForkHistogram.
  rewrite Hrepo, Hrange, Horder, Ht. simpl.
  rewrite !andb_false_r. simpl. reflexivity.
Qed.

End HistogramTotals.

(** The statements above at the samples. *)
Lemma histogram_totals_witness :
  exists buckets,
    PullRequestGithubEventsService.genPrHistogram
      (Sample.service Sample.evening_and_morning) Sample.histogram_of_a_b
    = inr buckets
    /\ Statements.total_count (map prs_count buckets) = 2%nat.
Proof.
  eexists. split; [reflexivity|].
  destruct (@histogram_counts_add_up_and_buckets_are_ordered
              (Sample.service Sample.evening_and_morning) Sample.histogram_of_a_b
              _ eq_refl)
    as (H & _).
  rewrite H. reflexivity.
Defined.

Lemma fork_histogram_totals_witness :
  exists buckets,
    ForkGithubEventsService.genForkHistogram
      (Sample.fork_service Sample.forks_table) Sample.forks_of_a_b
    = inr buckets
    /\ forall b, In b buckets -> (1 <= forks_count b)%nat.
Proof.
  eexists. split; [reflexivity|].
  destruct (@fork_histogram_counts_add_up_and_buckets_are_ordered
              (Sample.fork_service Sample.forks_table) Sample.forks_of_a_b
              _ eq_refl)
    as (_ & H & _).
  exact H.
Defined.

Lemma fork_histogram_repo_witness :
  ForkGithubEventsService.genForkHistogram
    (Sample.fork_service Sample.forks_table) Sample.forks_of_a_b_and_more
  = ForkGithubEventsService.genForkHistogram
      (Sample.fork_service Sample.forks_table) Sample.forks_of_a_b.
Proof.
  apply (@fork_histogram_reads_only_the_repo
           (Sample.fork_service Sample.forks_table)
           Sample.forks_of_a_b Sample.forks_of_a_b_and_more);
    reflexivity.
Defined.

Example fork_histogram_sample :
  ForkGithubEventsService.genForkHistogram
    (Sample.fork_service Sample.forks_table) Sample.forks_of_a_b
  = inr [ {| fork_bucket := 90 * Sql.day; forks_count := 2 |};
          {| fork_bucket := 95 * Sql.day; forks_count := 1 |} ].
Proof. reflexivity. Qed.

(** ** The counts of the statistics *)

Section StatisticsCounts.
Import Builder PullRequestGithubEventsService Statements.

Variable this : Service.

Lemma count_where_split (a b : DbPullRequestGitHubEvents -> bool) rows :
  (count_where (fun e => a e && b e) rows
   + count_where (fun e => a e && negb (b e)) rows)%nat
  = count_where a rows.
Proof.
  unfold count_where. induction rows as [|e r IH]; simpl; [reflexivity|].
  destruct (a e), (b e); simpl; lia.
Qed.

Lemma count_where_disjoint (a b : DbPullRequestGitHubEvents -> bool) rows :
  (forall e, a e = true -> b e = true -> False) ->
  (count_where a rows + count_where b rows <= List.length rows)%nat.
Proof.
  intros Hd. unfold count_where. induction rows as [|e r IH]; simpl; [lia|].
  destruct (a e) eqn:Ea, (b e) eqn:Eb; simpl; try lia.
  exfalso. exact (Hd e Ea Eb).
Qed.

Lemma count_where_le (a : DbPullRequestGitHubEvents -> bool) rows :
  (count_where a rows <= List.length rows)%nat.
Proof. unfold count_where. apply filter_length_le. Qed.

Lemma closed_is_not_opened e : action_is "closed" e = true -> action_is "opened" e = true -> False.
Proof.
  unfold action_is. intros H1 H2.
  apply String.eqb_eq in H1. apply String.eqb_eq in H2. congruence.
Qed.

Lemma aggregate_consistent key with_open rows :
  let b := aggregate key with_open rows in
  (draft_prs b <= active_prs b)%nat
  /\ (accepted_prs b + closed_prs b + active_prs b <= prs_count b)%nat
  /\ (spam_prs b <= prs_count b)%nat
  /\ (with_open = true -> open_prs b = Some (active_prs b - draft_prs b)%nat)
  /\ (with_open = false -> open_prs b = None).
Proof.
  cbv zeta. unfold aggregate. simpl.
  pose proof (count_where_split (action_is "opened") pr_is_draft rows) as Ho.
  pose proof (count_where_split (action_is "closed") pr_is_merged rows) as Hc.
  pose proof (count_where_disjoint (action_is "closed") (action_is "opened") rows
                closed_is_not_opened) as Hd.
  pose proof (count_where_le
                (fun e => Sql.eq_text (pr_active_lock_reason e) (Some "spam")) rows) as Hs.
  repeat split; try lia.
  - intros ->. f_equal. lia.
  - intros ->. reflexivity.
Qed.

(** The counts the statistics and the histogram report fit together.  In
    the statistics of a repository the open and the draft pull requests are
    the active ones ([open_prs + draft_prs = active_prs]); there and in
    every histogram bucket the accepted, the closed and the active pull
    requests are different rows ([accepted_prs + closed_prs + active_prs <=
    prs_count]), drafts are among the active ones and spam among all.  The
    histogram reports no [open_prs]. *)
Theorem statistics_counts_fit_together
    (repo : string) (range prevDays : Z) (options : PullRequestHistogramDto.t) :
  (exists stats opened,
      findPrStatsByRepo this repo range prevDays = inr stats
      /\ bucket stats = None
      /\ open_prs stats = Some opened
      /\ (opened + draft_prs stats)%nat = active_prs stats
      /\ (accepted_prs stats + closed_prs stats + active_prs stats <= prs_count stats)%nat
      /\ (spam_prs stats <= prs_count stats)%nat)
  /\ (forall b, In b (buckets_of (genPrHistogram this options)) ->
        open_prs b = None
        /\ (draft_prs b <= active_prs b)%nat
        /\ (accepted_prs b + closed_prs b + active_prs b <= prs_count b)%nat
        /\ (spam_prs b <= prs_count b)%nat).
Proof.
  split.
  - rewrite findPrStatsByRepo_returns. eexists. eexists. split; [reflexivity|].
    match goal with
    | |- context [aggregate ?k ?w ?rows] =>
        destruct (aggregate_consistent k w rows) as (H1 & H2 & H3 & H4 & _)
    end.
    split; [reflexivity|]. split; [apply H4; reflexivity|].
    repeat split; try assumption. lia.
  - intros b Hin. unfold genPrHistogram, execute in Hin.
    destruct (negb _ && negb _ && negb _ && negb _ && negb _)%bool; [destruct Hin|].
    destruct (parses _); [|destruct Hin].
    simpl in Hin. apply in_map_iff in Hin. destruct Hin as (g & <- & _).
    destruct (aggregate_consistent (Some (fst g)) false (snd g))
      as (H1 & H2 & H3 & _ & H5).
    split; [now apply H5|]. repeat split; assumption.
Qed.

End StatisticsCounts.

(** ** Contributor cohorts of [findAuthorsWithFilters] *)

Module CohortFacts.
Import Sql Builder PullRequestGithubEventsService Statements.

Lemma col_extend_same a r v : col a (extend r a v) = v.
Proof. unfold col, extend. simpl. now rewrite String.eqb_refl. Qed.

Lemma col_extend_other a a' r v :
  String.eqb a' a = false -> col a (extend r a' v) = col a r.
Proof. intros H. unfold col, extend. simpl. now rewrite H. Qed.

Lemma base_extend r a v : base (extend r a v) = base r.
Proof. reflexivity. Qed.

(** A join on the login of the joined sub-select itself: the row gets its
    own login when the sub-select holds it, and NULL otherwise. *)
Lemma run_join_own_login table (sub : list DbPullRequestGitHubEvents -> list string)
    (a : string) (rows : list JoinedRow) (r : JoinedRow) :
  In r (run_join table {| subselect := sub; alias := a; on := login_equals a |} rows)
  <-> exists r0,
        In r0 rows
        /\ ((In (pr_author_login (base r0)) (sub table)
             /\ r = extend r0 a (Some (pr_author_login (base r0))))
            \/ (~ In (pr_author_login (base r0)) (sub table)
                /\ r = extend r0 a None)).
Proof.
  unfold run_join. rewrite in_flat_map. simpl.
  assert (Hm : forall r0 x,
    In x (filter (login_equals a) (map (fun c => extend r0 a (Some c)) (sub table)))
    <-> In (pr_author_login (base r0)) (sub table)
        /\ x = extend r0 a (Some (pr_author_login (base r0)))).
  { intros r0 x. rewrite filter_In, in_map_iff. split.
    - intros [(c & <- & Hc) Hon]. unfold login_equals in Hon.
      rewrite col_extend_same in Hon. simpl in Hon. apply String.eqb_eq in Hon.
      subst c. tauto.
    - intros [Hin ->]. split; [eexists; split; [reflexivity | exact Hin]|].
      unfold login_equals. rewrite col_extend_same. simpl. apply String.eqb_refl. }
  split.
  - intros (r0 & Hr0 & Hin). exists r0. split; [exact Hr0|].
    destruct (filter (login_equals a) _) as [|m ms] eqn:Hf.
    + destruct Hin as [<-|[]]. right. split; [|reflexivity].
      intros Hs.
      assert (Hx : In (extend r0 a (Some (pr_author_login (base r0))))
                     (filter (login_equals a)
                        (map (fun c => extend r0 a (Some c)) (sub table))))
        by (apply Hm; tauto).
      rewrite Hf in Hx. destruct Hx.
    + left. rewrite <- Hf in Hin. now apply Hm in Hin.
  - intros (r0 & Hr0 & [[Hs ->] | [Hs ->]]); exists r0; (split; [exact Hr0|]).
    + assert (Hx : In (extend r0 a (Some (pr_author_login (base r0))))
                     (filter (login_equals a)
                        (map (fun c => extend r0 a (Some c)) (sub table))))
        by (apply Hm; tauto).
      destruct (filter (login_equals a) _) as [|m ms]; [destruct Hx | exact Hx].
    + destruct (filter (login_equals a) _) as [|m ms] eqn:Hf; [now left|].
      exfalso. apply Hs.
      assert (Hx : In m (m :: ms)) by now left.
      rewrite <- Hf in Hx. apply Hm in Hx. tauto.
Qed.

(** Joins keep the events: every joined row carries an event of the
    table. *)
Lemma run_join_base table j rows r :
  (forall x, In x rows -> In (base x) table) ->
  In r (run_join table j rows) -> In (base r) table.
Proof.
  intros Hrows Hin. unfold run_join in Hin. apply in_flat_map in Hin.
  destruct Hin as (r0 & Hr0 & Hin).
  destruct (filter (on j) _) as [|m ms] eqn:Hf.
  - destruct Hin as [<-|[]]. rewrite base_extend. now apply Hrows.
  - rewrite <- Hf in Hin. apply filter_In in Hin. destruct Hin as [Hin _].
    apply in_map_iff in Hin. destruct Hin as (c & <- & _).
    rewrite base_extend. now apply Hrows.
Qed.

Lemma joined_rows_base table js rows r :
  (forall x, In x rows -> In (base x) table) ->
  In r (fold_left (fun rows j => run_join table j rows) js rows) ->
  In (base r) table.
Proof.
  revert rows. induction js as [|j js IH]; intros rows Hrows; simpl; [apply Hrows|].
  apply IH. intros x Hx. now apply (run_join_base table j rows).
Qed.

Lemma from_where_base qb table r :
  In r (from_where qb table) ->
  In (base r) table
  /\ forallb (fun c => holds (parameters qb) c r) (wheres qb) = true.
Proof.
  unfold from_where, from_join. intros Hin.
  apply filter_In in Hin. destruct Hin as [Hin Hw].
  split; [|exact Hw]. revert Hin. apply joined_rows_base.
  intros x Hx. apply in_map_iff in Hx. destruct Hx as (e & <- & He). exact He.
Qed.

(** The logins of the rows numbered 1 of an expression partitioned by
    login are the logins of its rows. *)
Lemma logins_of_latest qb table login :
  partition_by qb = pr_author_login_only ->
  In login (map pr_author_login (latest qb table))
  <-> exists r, In r (from_where qb table) /\ pr_author_login (base r) = login.
Proof.
  intros Hp. rewrite in_map_iff. split.
  - intros (e & He & Hin). unfold latest in Hin. apply in_map_iff in Hin.
    destruct Hin as (r & <- & Hr). exists r. split; [|exact He].
    now apply PartitionFacts.row_num_1_In.
  - intros (r0 & Hr0 & Hl).
    destruct (LatestState.row_num_1_of_partition qb table r0 Hr0)
      as (r & Hone & _ & Hsame & _).
    rewrite Hp in Hone, Hsame. simpl in Hsame. apply String.eqb_eq in Hsame.
    exists (base r). split; [congruence|].
    unfold latest. apply in_map.
    assert (Hin : In r [r]) by now left.
    rewrite <- Hone in Hin. apply filter_In in Hin. tauto.
Qed.

(** What a sub-select of the cohort filters holds. *)
Lemma authors_between_In repos lo hi events login :
  In login (authors_between repos lo hi events)
  <-> exists e, In e events
                /\ Str.LOWER (pr_author_login e) = login
                /\ In (Str.LOWER (repo_name e)) (Str.split Str.comma (Str.LOWER repos))
                /\ lo <= event_time e <= hi.
Proof.
  unfold authors_between, Str.toLowerCase.
  rewrite DistinctFacts.DISTINCT_In, in_map_iff. split.
  - intros (e & Hl & Hin). apply filter_In in Hin. destruct Hin as [Hin Hc].
    rewrite !andb_true_iff, !Z.leb_le, DistinctFacts.mem_In in Hc.
    exists e. tauto.
  - intros (e & Hin & Hl & Hr & Hw). exists e. split; [exact Hl|].
    apply filter_In. split; [exact Hin|].
    rewrite !andb_true_iff, !Z.leb_le, DistinctFacts.mem_In. tauto.
Qed.

End CohortFacts.

Module CohortRows.
Import Sql Builder PullRequestGithubEventsService Statements CohortFacts.

Lemma run_join_joined_login table sub a rows r :
  In r (run_join table {| subselect := sub; alias := a; on := login_equals a |} rows)
  <-> exists r0, In r0 rows /\ r = extend r0 a (joined_login (sub table) r0).
Proof.
  rewrite run_join_own_login. unfold joined_login.
  split; intros (r0 & Hr0 & H); exists r0; (split; [exact Hr0|]).
  - destruct H as [[Hin ->] | [Hn ->]].
    + apply DistinctFacts.mem_In in Hin. now rewrite Hin.
    + destruct (Str.mem _ _) eqn:E; [|reflexivity].
      apply DistinctFacts.mem_In in E. contradiction.
  - destruct (Str.mem _ _) eqn:E.
    + left. apply DistinctFacts.mem_In in E. tauto.
    + right. split; [|exact H]. intros Hin. apply DistinctFacts.mem_In in Hin. congruence.
Qed.

(** The rows of a builder that has the two sibling joins of the new and
    alumni filters and any conditions. *)
Lemma two_joins_rows p d o subC subP ws ps table r :
  In r (from_where
          {| partition_by := p; window_order := d;
             joins := [ {| subselect := subC; alias := "current_month_prs";
                           on := login_equals "current_month_prs" |};
                        {| subselect := subP; alias := "previous_month_prs";
                           on := login_equals "previous_month_prs" |} ];
             wheres := ws; parameters := ps; order := o |} table)
  <-> exists e, In e table
                /\ r = cohort_row (subC table) (subP table) e
                /\ forallb (fun c => holds ps c r) ws = true.
Proof.
  unfold from_where, from_join. simpl.
  rewrite filter_In, run_join_joined_login. split.
  - intros [(r1 & Hr1 & ->) Hw]. apply run_join_joined_login in Hr1.
    destruct Hr1 as (r0 & Hr0 & ->). apply in_map_iff in Hr0.
    destruct Hr0 as (e & <- & He). exists e. tauto.
  - intros (e & He & -> & Hw). split; [|exact Hw].
    eexists. split; [|reflexivity]. apply run_join_joined_login.
    eexists. split; [|reflexivity]. apply in_map_iff. exists e. tauto.
Qed.

Lemma cohort_row_base c p e : base (cohort_row c p e) = e.
Proof. reflexivity. Qed.

Lemma cohort_row_current c p e :
  is_not_null (col "current_month_prs" (cohort_row c p e)) = Str.mem (pr_author_login e) c.
Proof.
  unfold cohort_row. cbv zeta.
  rewrite col_extend_other by reflexivity. rewrite col_extend_same.
  unfold joined_login. simpl. now destruct (Str.mem _ _).
Qed.

Lemma cohort_row_previous c p e :
  is_not_null (col "previous_month_prs" (cohort_row c p e)) = Str.mem (pr_author_login e) p.
Proof.
  unfold cohort_row. cbv zeta. rewrite col_extend_same.
  unfold joined_login. simpl. now destruct (Str.mem _ _).
Qed.

Lemma is_null_not {A} (a : option A) : is_null a = negb (is_not_null a).
Proof. now destruct a. Qed.

End CohortRows.

Section Cohorts.
Import Sql Builder PullRequestGithubEventsService Statements.
Import BuilderFacts CohortFacts CohortRows.

Variable this : Service.
Variable o : PullRequestContributorInsightsDto.t.

Let table := pullRequestGithubEventsRepository this.
Let page := PullRequestContributorInsightsDto.page o.
Let start := GetPrevDateISOString (now this) (prev_days_start_date page).
Let days := range page.
Let repos := PullRequestContributorInsightsDto.repos o.

Lemma sub_current login :
  In login (current_month_prs (Str.toLowerCase repos) start days table)
  <-> seen_between this o (start - days * day) start login.
Proof.
  unfold current_month_prs. rewrite authors_between_In.
  unfold seen_between, cohort_repos, Str.toLowerCase. fold table repos.
  rewrite StrFacts.LOWER_idempotent. reflexivity.
Qed.

Lemma sub_previous login :
  In login (previous_month_prs (Str.toLowerCase repos) start days table)
  <-> seen_between this o (start - (days + days) * day) (start - days * day) login.
Proof.
  unfold previous_month_prs. rewrite authors_between_In.
  unfold seen_between, cohort_repos, Str.toLowerCase. fold table repos.
  rewrite StrFacts.LOWER_idempotent. reflexivity.
Qed.

Lemma repo_condition (r : JoinedRow) :
  applies (Some repos)
    (fun s => In (Str.LOWER (repo_name (base r))) (Str.split Str.comma (Str.LOWER s)))
  <-> applies (Some repos)
        (fun _ => In (Str.LOWER (repo_name (base r))) (cohort_repos o)).
Proof. reflexivity. Qed.

Lemma new_rows (r : JoinedRow) :
  In r (from_where (findAuthorsWithFilters_cte this o "new") table)
  <-> exists e,
        In e table
        /\ r = cohort_row (current_month_prs (Str.toLowerCase repos) start days table)
                 (previous_month_prs (Str.toLowerCase repos) start days table) e
        /\ start - days * day <= event_time e <= start
        /\ applies (Some repos)
             (fun _ => In (Str.LOWER (repo_name e)) (cohort_repos o))
        /\ seen_between this o (start - days * day) start (pr_author_login e)
        /\ ~ seen_between this o (start - (days + days) * day) (start - days * day)
               (pr_author_login e).
Proof.
  unfold findAuthorsWithFilters_cte. simpl (String.eqb _ _). cbv iota.
  fold page start days repos.
  rewrite rows_when_repo by reflexivity.
  rewrite repo_condition. unfold applyNewContributorsFilter.
  rewrite !from_where_In_andWhere_plain.
  unfold leftJoin, andWhere, where_, orderBy, createQueryBuilder, setParameters.
  cbn [joins wheres parameters partition_by window_order order app].
  rewrite two_joins_rows. split.
  - intros [[[(e & He & -> & Hw) Hp] Hc] Hr]. exists e.
    rewrite is_null_not, cohort_row_previous, negb_true_iff in Hp.
    rewrite cohort_row_current in Hc. simpl in Hw, Hr.
    unfold not_after, not_before in Hw. simpl in Hw.
    rewrite !andb_true_iff, !Z.leb_le in Hw.
    apply DistinctFacts.mem_In, sub_current in Hc.
    assert (Hnp : ~ seen_between this o (start - (days + days) * day)
                      (start - days * day) (pr_author_login e)).
    { intros Hs. apply sub_previous, DistinctFacts.mem_In in Hs. congruence. }
    repeat split; try tauto; try lia.
  - intros (e & He & -> & Hw & Hr & Hc & Hp).
    rewrite is_null_not, cohort_row_previous, cohort_row_current, negb_true_iff.
    repeat split.
    + exists e. split; [exact He|]. split; [reflexivity|]. simpl.
      unfold not_after, not_before. simpl. rewrite !andb_true_iff, !Z.leb_le. lia.
    + destruct (Str.mem _ _) eqn:E; [|reflexivity].
      exfalso. apply Hp. now apply sub_previous, DistinctFacts.mem_In.
    + now apply DistinctFacts.mem_In, sub_current.
    + exact Hr.
Qed.

Lemma alumni_rows (r : JoinedRow) :
  In r (from_where (findAuthorsWithFilters_cte this o "alumni") table)
  <-> exists e,
        In e table
        /\ r = cohort_row (current_month_prs (Str.toLowerCase repos) start days table)
                 (previous_month_prs (Str.toLowerCase repos) start days table) e
        /\ start - (days + days) * day <= event_time e <= start
        /\ applies (Some repos)
             (fun _ => In (Str.LOWER (repo_name e)) (cohort_repos o))
        /\ ~ seen_between this o (start - days * day) start (pr_author_login e)
        /\ seen_between this o (start - (days + days) * day) (start - days * day)
             (pr_author_login e).
Proof.
  unfold findAuthorsWithFilters_cte. simpl (String.eqb _ _). cbv iota.
  fold page start days repos.
  rewrite rows_when_repo by reflexivity.
  rewrite repo_condition. unfold applyAlumniContributorsFilter.
  rewrite !from_where_In_andWhere_plain.
  unfold leftJoin, andWhere, where_, orderBy, createQueryBuilder, setParameters.
  cbn [joins wheres parameters partition_by window_order order app].
  rewrite two_joins_rows. split.
  - intros [[[(e & He & -> & Hw) Hp] Hc] Hr]. exists e.
    rewrite is_null_not, cohort_row_current, negb_true_iff in Hc.
    rewrite cohort_row_previous in Hp. simpl in Hw, Hr.
    unfold not_after, not_before in Hw. simpl in Hw.
    rewrite !andb_true_iff, !Z.leb_le in Hw.
    apply DistinctFacts.mem_In, sub_previous in Hp.
    assert (Hnc : ~ seen_between this o (start - days * day) start (pr_author_login e)).
    { intros Hs. apply sub_current, DistinctFacts.mem_In in Hs. congruence. }
    repeat split; try tauto; try lia.
  - intros (e & He & -> & Hw & Hr & Hc & Hp).
    rewrite is_null_not, cohort_row_previous, cohort_row_current, negb_true_iff.
    repeat split.
    + exists e. split; [exact He|]. split; [reflexivity|]. simpl.
      unfold not_after, not_before. simpl. rewrite !andb_true_iff, !Z.leb_le. lia.
    + now apply DistinctFacts.mem_In, sub_previous.
    + destruct (Str.mem _ _) eqn:E; [|reflexivity].
      exfalso. apply Hc. now apply sub_current, DistinctFacts.mem_In.
    + exact Hr.
Qed.

Lemma all_rows (r : JoinedRow) :
  In r (from_where (findAuthorsWithFilters_cte this o "all") table)
  <-> exists e,
        In e table
        /\ r = {| base := e; joined := [] |}
        /\ start - days * day <= event_time e <= start
        /\ applies (Some repos)
             (fun _ => In (Str.LOWER (repo_name e)) (cohort_repos o)).
Proof.
  unfold findAuthorsWithFilters_cte. simpl (String.eqb _ _). cbv iota.
  fold page start days repos.
  rewrite rows_when_repo by reflexivity.
  rewrite repo_condition.
  unfold andWhere, where_, orderBy, createQueryBuilder, setParameters.
  cbn [joins wheres parameters partition_by window_order order app].
  rewrite window_rows. split.
  - intros [[(e & He & ->) Hw] Hr]. exists e. simpl in *. repeat split; tauto.
  - intros (e & He & -> & Hw & Hr). cbn [base].
    split; [split|].
    + exists e. tauto.
    + exact Hw.
    + exact Hr.
Qed.

(** The rows of the active cohort are events of the current window in the
    named repositories, whatever its joins add. *)
Lemma active_rows (r : JoinedRow) :
  In r (from_where (findAuthorsWithFilters_cte this o "active") table) ->
  In (base r) table
  /\ start - days * day <= event_time (base r) <= start
  /\ applies (Some repos)
       (fun _ => In (Str.LOWER (repo_name (base r))) (cohort_repos o)).
Proof.
  unfold findAuthorsWithFilters_cte. simpl (String.eqb _ _). cbv iota.
  fold page start days repos.
  rewrite rows_when_repo by reflexivity.
  unfold applyActiveContributorsFilter.
  rewrite !from_where_In_andWhere_plain, repo_condition.
  intros [[[Hin _] _] Hr]. apply from_where_base in Hin.
  destruct Hin as [Hb Hw]. simpl in Hw.
  unfold not_after, not_before in Hw. rewrite !andb_true_iff, !Z.leb_le in Hw.
  repeat split; try tauto; lia.
Qed.

End Cohorts.

Section CohortTheorems.
Import Sql Builder PullRequestGithubEventsService Statements CohortFacts.

Variable this : Service.
Variable o : PullRequestContributorInsightsDto.t.

Lemma cohort_logins (contribType login : string) :
  In login (cohort this o contribType)
  <-> exists r,
        In r (from_where (findAuthorsWithFilters_cte this o contribType)
                (pullRequestGithubEventsRepository this))
        /\ pr_author_login (base r) = login.
Proof.
  unfold cohort. apply logins_of_latest, findAuthorsWithFilters_cte_partition.
Qed.



(** The default cohort, and what the filtered cohorts never do.  Without a
    cohort filter the query returns the stored logins of the events of the
    current window (in the named repositories).  The active and the new
    cohort return only such logins, and no login is both new and alumni. *)
Theorem cohorts_stay_within_their_windows (login : string) :
  let page := PullRequestContributorInsightsDto.page o in
  let start := GetPrevDateISOString (now this) (prev_days_start_date page) in
  let days := range page in
  (In login (cohort this o "all")
   <-> listed_between this o (start - days * day) start login)
  /\ (In login (cohort this o "active") -> In login (cohort this o "all"))
  /\ (In login (cohort this o "new") -> In login (cohort this o "all"))
  /\ ~ (In login (cohort this o "new") /\ In login (cohort this o "alumni")).
Proof.
  cbv zeta.
  set (start := GetPrevDateISOString (now this)
                  (prev_days_start_date (PullRequestContributorInsightsDto.page o))).
  set (days := range (PullRequestContributorInsightsDto.page o)).
  assert (Hall : In login (cohort this o "all")
                 <-> listed_between this o (start - days * day) start login).
  { rewrite cohort_logins. unfold listed_between. split.
    - intros (r & Hr & Hl). apply all_rows in Hr.
      destruct Hr as (e & He & -> & Hw & Hrepo). simpl in Hl. subst login.
      exists e. tauto.
    - intros (e & He & Hl & Hw & Hrepo). subst login.
      exists {| base := e; joined := [] |}. split; [|reflexivity].
      apply all_rows. exists e. tauto. }
  split; [exact Hall|]. split; [|split].
  - intros Hin. apply Hall. apply cohort_logins in Hin.
    destruct Hin as (r & Hr & Hl). apply active_rows in Hr.
    exists (base r). tauto.
  - intros Hin. apply Hall. apply cohort_logins in Hin.
    destruct Hin as (r & Hr & Hl). apply new_rows in Hr.
    destruct Hr as (e & He & -> & Hw & Hrepo & _). simpl in Hl.
    exists e. tauto.
  - intros [Hn Ha].
    apply cohort_logins in Hn. destruct Hn as (r & Hr & Hl). apply new_rows in Hr.
    destruct Hr as (e & _ & -> & _ & _ & Hc & _). simpl in Hl. subst login.
    apply cohort_logins in Ha. destruct Ha as (r' & Hr' & Hl'). apply alumni_rows in Hr'.
    destruct Hr' as (e' & _ & -> & _ & _ & Hc' & _). simpl in Hl'.
    rewrite Hl' in Hc'. contradiction.
Qed.

End CohortTheorems.

(** ** Queries that agree *)

Section Agreement.
Import Sql Builder PullRequestGithubEventsService Statements HistogramFacts QueryFacts.

Variable this : Service.

Lemma genPrHistogram_cte_is_listing_cte (h : PullRequestHistogramDto.t) (s l : nat) :
  genPrHistogram_cte this h = findAllWithFilters_cte this (listing_of h s l).
Proof. reflexivity. Qed.

(** The histogram and the listing agree on what they count: when the
    histogram returns, so does the listing that carries the same criteria
    (and no list, status or [distinctAuthors]), whatever slice it asks for,
    and the [prs_count] of the buckets add up to its [itemCount]. *)
Theorem histogram_total_is_the_listing_itemCount
    (h : PullRequestHistogramDto.t)
    (buckets : list DbPullRequestGitHubEventsHistogram) (s l : nat) :
  genPrHistogram this h = inr buckets ->
  exists page,
    findAllWithFilters this (listing_of h s l) = inr page
    /\ total_count (map prs_count buckets) = itemCount (meta page).
Proof.
  intros Hpr. unfold genPrHistogram in Hpr.
  destruct (negb _ && negb _ && negb _ && negb _ && negb _)%bool; [discriminate Hpr|].
  apply execute_inr in Hpr. destruct Hpr as [Hsql ->].
  rewrite (genPrHistogram_cte_is_listing_cte h s l) in Hsql.
  eexists. split.
  - unfold findAllWithFilters. apply (execCommonTableExpression_parses this _ _ Hsql).
  - rewrite map_map. cbn [prs_count aggregate meta itemCount new_PageMetaDto].
    rewrite groups_total.
    now rewrite <- (genPrHistogram_cte_is_listing_cte h s l).
Qed.

(** The default cohort is the author search by repository: when the cohort
    request names repositories, [findAuthorsWithFilters] without a cohort
    filter and [searchAuthors] called with those repositories alone return
    one and the same page. *)
Theorem default_cohort_is_the_author_search
    (o : PullRequestContributorInsightsDto.t) :
  Str.truthy (Some (PullRequestContributorInsightsDto.repos o)) = true ->
  exists page,
    findAuthorsWithFilters this o "all" = inr page
    /\ searchAuthors this (search_of o) = inr page.
Proof.
  intros Ht. eexists. split.
  - unfold findAuthorsWithFilters.
    apply (author_page_parses this _ _ (findAuthorsWithFilters_cte_parses this o "all")).
  - unfold searchAuthors, search_of. cbn [PullRequestContributorOptionsDto.repos
      PullRequestContributorOptionsDto.repoIds PullRequestContributorOptionsDto.topic
      PullRequestContributorOptionsDto.filter PullRequestContributorOptionsDto.page].
    rewrite Ht. cbn [negb andb].
    apply (author_page_parses this _ _ (findAuthorsWithFilters_cte_parses this o "all")).
Qed.

End Agreement.

(** The statements above at the samples. *)
Lemma histogram_total_witness :
  exists buckets page,
    PullRequestGithubEventsService.genPrHistogram
      (Sample.service Sample.evening_and_morning) Sample.histogram_of_a_b
    = inr buckets
    /\ PullRequestGithubEventsService.findAllWithFilters
         (Sample.service Sample.evening_and_morning)
         (Statements.listing_of Sample.histogram_of_a_b 0 1)
       = inr page
    /\ Statements.total_count (map prs_count buckets) = itemCount (meta page)
    /\ itemCount (meta page) = 2%nat.
Proof.
  destruct (@histogram_total_is_the_listing_itemCount
              (Sample.service Sample.evening_and_morning) Sample.histogram_of_a_b
              _ 0%nat 1%nat eq_refl)
    as (page & Hpage & Htotal).
  eexists. exists page. split; [reflexivity|]. split; [exact Hpage|].
  split; [exact Htotal|].
  vm_compute in Hpage. inversion Hpage. reflexivity.
Defined.

Lemma default_cohort_witness :
  exists page,
    PullRequestGithubEventsService.findAuthorsWithFilters
      (Sample.service Sample.x_now_y_before) (Sample.insights 0 10) "all"
    = inr page
    /\ PullRequestGithubEventsService.searchAuthors
         (Sample.service Sample.x_now_y_before)
         (Statements.search_of (Sample.insights 0 10))
       = inr page
    /\ map c_author_login (data page) = ["x"].
Proof.
  destruct (@default_cohort_is_the_author_search
              (Sample.service Sample.x_now_y_before) (Sample.insights 0 10) eq_refl)
    as (page & H1 & H2).
  exists page. split; [exact H1|]. split; [exact H2|].
  vm_compute in H1. inversion H1. reflexivity.
Defined.

(** ** Queries that the database rejects *)

Section RejectedQueries.
Import Sql Builder PullRequestGithubEventsService Statements QueryFacts.

Variable this : Service.



End RejectedQueries.

(** At the sample: the repository search of the sample service finds
    nothing, so the listing for a topic fails; with the repository [a/b]
    named as well it returns.  Where the search finds [c/d], the listing
    for the topic alone returns the pull request of [c/d]. *)
Example listing_for_a_topic_sample :
  PullRequestGithubEventsService.findAllWithFilters
    (Sample.service Sample.a_b_and_c_d) (Sample.listing_of_topic None)
  = inl QueryFailedError
  /\ (exists page,
        PullRequestGithubEventsService.findAllWithFilters
          (Sample.service Sample.a_b_and_c_d) (Sample.listing_of_topic (Some "a/b"))
        = inr page
        /\ map event_id (data page) = [1])
  /\ (exists page,
        PullRequestGithubEventsService.findAllWithFilters
          (Sample.service_with_topic Sample.a_b_and_c_d) (Sample.listing_of_topic None)
        = inr page
        /\ map event_id (data page) = [2]).
Proof.
  split; [reflexivity|].
  split; eexists; (split; [reflexivity|]); reflexivity.
Qed.
